(** * resumeai-pro: the rule-based résumé optimizer and its ATS scorer

    A shallow embedding of [backend/optimizer.py] (the phrase rewriter, the
    keyword insertion engine, the ATS scorer, the skills and experience
    optimizers, the keyword diff and the orchestrator), of
    [backend/jd_analyzer.py] (the analysis of a job description) and of the
    taxonomy of [backend/skills_db.py], followed by the properties of the
    specification that hold of them, and by the inputs on which some of its
    sentences fail.

    Conventions of the embedding.
    - A Python [str] is a [string]; the embedding is exact on ASCII text:
      [lower], [upper], [isspace], [\w], [\d] are the ASCII ones, and a
      character above 127 is caseless, not a space and not a word character.
    - A Python [dict] that the code only reads by fixed keys is a record;
      a missing key is the default that [dict.get] is given in the source.
      A [dict] that is iterated ([SKILLS_DB]) is an association list in
      insertion order; one that is only asked for its keys ([raw_sections])
      is a [gmap].
    - A [set] of strings is a [gset string]; where the source turns a set
      into a list, the order, which depends on the hashes, is a parameter.
    - [len(a) / len(b) * 40] is computed in IEEE binary64, as CPython does,
      on [SpecFloat]'s formalisation of the format.
    - [random.choice] draws from an explicit oracle that is threaded through
      the calls.
    - A list that the source mutates through its calls ([used_keywords]) is
      passed in and returned.
    - [re] patterns are terms of a small regular-expression type, run by a
      backtracking matcher with Python's priorities (leftmost, greedy or
      lazy as written, first alternative first).
    - [rewrite_summary] (templates drawn at random) and [extract_top_keywords]
      (a ranking through [math.log]) are parameters of the functions that
      call them: nothing stated below depends on what they return. *)

From Stdlib Require Import ZArith Ascii String List Bool Lia.
From Stdlib Require Import Floats.SpecFloat.
From Stdlib Require DecimalString.
From stdpp Require Import base list strings gmap.

Local Open Scope Z_scope.

(** ** Python strings *)

Module Str.

Definition code (c : ascii) : N := N_of_ascii c.

Definition is_upper (c : ascii) : bool :=
  ((65 <=? code c) && (code c <=? 90))%N.

Definition is_lower (c : ascii) : bool :=
  ((97 <=? code c) && (code c <=? 122))%N.

Definition is_digit (c : ascii) : bool :=
  ((48 <=? code c) && (code c <=? 57))%N.

(** [\w]: letters, digits and the underscore. *)
Definition is_word (c : ascii) : bool :=
  is_upper c || is_lower c || is_digit c || (code c =? 95)%N.

(** [str.isspace] and [\s] on ASCII: TAB, LF, VT, FF, CR, the four
    separators FS, GS, RS, US, and the space. *)
Definition is_space (c : ascii) : bool :=
  ((9 <=? code c) && (code c <=? 13)
   || (28 <=? code c) && (code c <=? 32))%N.

Definition lower_char (c : ascii) : ascii :=
  if is_upper c then ascii_of_N (code c + 32) else c.

Definition upper_char (c : ascii) : ascii :=
  if is_lower c then ascii_of_N (code c - 32) else c.

(** [s.lower()] *)
Fixpoint lower (s : string) : string :=
  match s with
  | EmptyString => EmptyString
  | String c t => String (lower_char c) (lower t)
  end.

(** [len(s)] *)
Fixpoint len (s : string) : nat :=
  match s with
  | EmptyString => O
  | String _ t => S (len t)
  end.

(** [a + b] *)
Fixpoint cat (a b : string) : string :=
  match a with
  | EmptyString => b
  | String c t => String c (cat t b)
  end.

(** [hay.startswith(p)] *)
Fixpoint startswith (p hay : string) : bool :=
  match p, hay with
  | EmptyString, _ => true
  | String _ _, EmptyString => false
  | String a p', String b hay' => Ascii.eqb a b && startswith p' hay'
  end.

(** [needle in hay]: the substring test. *)
Fixpoint contains (needle hay : string) : bool :=
  startswith needle hay ||
  match hay with
  | EmptyString => false
  | String _ t => contains needle t
  end.

(** [any(w in s for w in ws)] *)
Definition any_in (ws : list string) (s : string) : bool :=
  existsb (fun w => contains w s) ws.

(** [x in xs] for a list of strings. *)
Definition mem (x : string) (xs : list string) : bool :=
  existsb (String.eqb x) xs.

(** [s.lstrip()] *)
Fixpoint lstrip (s : string) : string :=
  match s with
  | EmptyString => EmptyString
  | String c t => if is_space c then lstrip t else s
  end.

(** [s.rstrip()] *)
Fixpoint rstrip (s : string) : string :=
  match s with
  | EmptyString => EmptyString
  | String c t =>
      match rstrip t with
      | EmptyString => if is_space c then EmptyString else String c EmptyString
      | t' => String c t'
      end
  end.

(** [s.strip()] *)
Definition strip (s : string) : string := rstrip (lstrip s).

(** [s.endswith(".")] *)
Fixpoint endswith_period (s : string) : bool :=
  match s with
  | EmptyString => false
  | String c EmptyString => Ascii.eqb c "."
  | String _ t => endswith_period t
  end.

(** [s[:-1]] *)
Fixpoint drop_last (s : string) : string :=
  match s with
  | EmptyString => EmptyString
  | String _ EmptyString => EmptyString
  | String c t => String c (drop_last t)
  end.

(** [s[:n]] *)
Fixpoint prefix (n : nat) (s : string) : string :=
  match n, s with
  | S n', String c t => String c (prefix n' t)
  | _, _ => EmptyString
  end.

(** [s[0].upper() + s[1:]], the empty string being left as it is. *)
Definition upper_first (s : string) : string :=
  match s with
  | EmptyString => EmptyString
  | String c t => String (upper_char c) t
  end.

(** [sep.join(xs)] *)
Fixpoint join (sep : string) (xs : list string) : string :=
  match xs with
  | [] => EmptyString
  | [x] => x
  | x :: rest => cat x (cat sep (join sep rest))
  end.

(** [s.split()]: the maximal runs of non-space characters.  [cur] is the
    run being read, in reverse. *)
Fixpoint rev_string (acc s : string) : string :=
  match s with
  | EmptyString => acc
  | String c t => rev_string (String c acc) t
  end.

Fixpoint split_from (cur : string) (s : string) : list string :=
  match s with
  | EmptyString =>
      match cur with
      | EmptyString => []
      | _ => [rev_string EmptyString cur]
      end
  | String c t =>
      if is_space c then
        match cur with
        | EmptyString => split_from EmptyString t
        | _ => rev_string EmptyString cur :: split_from EmptyString t
        end
      else split_from (String c cur) t
  end.

Definition split (s : string) : list string := split_from EmptyString s.

(** The truth value of a string: it is not empty. *)
Definition truthy (s : string) : bool :=
  match s with
  | EmptyString => false
  | String _ _ => true
  end.

(** [not s.strip()]: the string is empty or whitespace only. *)
Definition blank (s : string) : bool :=
  match strip s with
  | EmptyString => true
  | _ => false
  end.

End Str.

Infix "^^" := Str.cat (at level 60, right associativity).

(** ** IEEE binary64, the arithmetic of Python's [float] *)

Module Float64.

Definition prec : Z := 53.
Definition emax : Z := 1024.

(** [float(n)] for a length [n]; exact below [2^53]. *)
Definition of_nat (n : nat) : spec_float :=
  binary_normalize prec emax (Z.of_nat n) 0 false.

Definition truediv (x y : spec_float) : spec_float := SFdiv prec emax x y.
Definition mul (x y : spec_float) : spec_float := SFmul prec emax x y.

(** [int(x)]: truncation towards zero; [None] where Python raises
    ([nan] and the infinities). *)
Definition to_int (x : spec_float) : option Z :=
  match x with
  | S754_zero _ => Some 0
  | S754_finite s m e =>
      let a := match e with
               | Z0 => Zpos m
               | Zpos _ => Z.shiftl (Zpos m) e
               | Zneg p => Z.shiftr (Zpos m) (Zpos p)
               end in
      Some (if s then - a else a)
  | S754_infinity _ | S754_nan => None
  end.

End Float64.

(** ** The data model *)

(** One experience entry of the parsed résumé. *)
Record experience_entry := {
  company : string;
  role : string;
  dates : string;
  location : string;
  bullets : list string;
  raw : string
}.

(** The parsed résumé ([resume_data]).  [contact_email] is
    [resume_data.get("contact", {}).get("email")], the empty string when
    it is absent. *)
Record resume := {
  name : string;
  contact_email : string;
  summary : string;
  skills : list string;
  experience : list experience_entry;
  experience_raw : string;
  education : string;
  projects : string;
  certifications : string;
  raw_sections : gmap string string;
  full_text : string;
  years_experience : nat
}.

(** The four section texts of a job description. *)
Record jd_sections := {
  responsibilities : string;
  requirements : string;
  nice_to_have : string;
  about_company : string
}.

(** The analysed job description ([jd_analysis]). *)
Record jd_profile := {
  job_title : string;
  domain : string;
  experience_level : string;
  technical_skills : list string;
  soft_skills : list string;
  keywords : list string;
  action_verbs : list string;
  skills_by_category : list (string * list string);
  sections : jd_sections;
  raw_text : string
}.

(** The profile that reads like the empty mapping: every [get] falls back
    to its default. *)
Definition empty_profile : jd_profile := {|
  job_title := ""; domain := ""; experience_level := "";
  technical_skills := []; soft_skills := []; keywords := [];
  action_verbs := []; skills_by_category := [];
  sections := {| responsibilities := ""; requirements := "";
                 nice_to_have := ""; about_company := "" |};
  raw_text := ""
|}.

(** One entry of the score breakdown.  The soft-skill entry has no
    ["missing"] key. *)
Record category_entry := {
  ce_score : Z;
  ce_max : Z;
  ce_matched : list string;
  ce_missing : option (list string)
}.

Record ats_breakdown := {
  bd_technical_skills : option category_entry;
  bd_keywords : option category_entry;
  bd_soft_skills : option category_entry;
  bd_format : Z * Z
}.

Record ats_report := {
  total : Z;
  breakdown : ats_breakdown;
  grade : string
}.

(** ** The ATS scorer ([calculate_ats_score]) *)

Module Ats.

(** [len(matched) / len(jd) * cap], in binary64. *)
Definition ratio_float (matched all cap : nat) : spec_float :=
  Float64.mul
    (Float64.truediv (Float64.of_nat matched) (Float64.of_nat all))
    (Float64.of_nat cap).

(** [int(len(matched) / len(jd) * cap)].  The quotient lies in [0, 1], so
    the product is finite and [int] does not raise; the fallback is
    never taken for lists that fit in memory. *)
Definition ratio_points (matched all cap : nat) : Z :=
  match Float64.to_int (ratio_float matched all cap) with
  | Some z => z
  | None => 0
  end.

(** [[s for s in jd if s in resume_text]] *)
Definition matched_in (resume_text : string) (jd : list string) : list string :=
  List.filter (fun s => Str.contains s resume_text) jd.

(** [[s for s in jd if s not in resume_text]] *)
Definition missing_in (resume_text : string) (jd : list string) : list string :=
  List.filter (fun s => negb (Str.contains s resume_text)) jd.

Definition is_empty {A} (l : list A) : bool :=
  match l with [] => true | _ => false end.

(** [sum(1 for s in [...] if s in raw_sections)] *)
Definition has_sections (r : resume) : Z :=
  Z.of_nat (length (List.filter
                      (fun s => bool_decide (is_Some (raw_sections r !! s)))
                      ["experience"; "education"; "skills"; "summary"])).

Definition format_score (r : resume) : Z :=
  Z.min (has_sections r * 3) 12
  + (if Str.truthy (contact_email r) then 3 else 0).

Definition grade_of (score : Z) : string :=
  if 85 <=? score then "A"
  else if 70 <=? score then "B"
  else if 55 <=? score then "C"
  else "D".

Definition calculate_ats_score (resume_data : resume) (jd_analysis : jd_profile)
  : ats_report :=
  let score := 0 in
  let resume_text := Str.lower (full_text resume_data) in
  let jd_tech_skills := map Str.lower (technical_skills jd_analysis) in
  let jd_soft_skills := map Str.lower (soft_skills jd_analysis) in
  let jd_keywords := map Str.lower (keywords jd_analysis) in
  (* 1. technical skills, 40 points *)
  let '(score, e_tech) :=
    if is_empty jd_tech_skills then (score, None)
    else
      let matched_tech := matched_in resume_text jd_tech_skills in
      let tech_score :=
        ratio_points (length matched_tech) (length jd_tech_skills) 40 in
      (score + tech_score,
       Some {| ce_score := tech_score; ce_max := 40;
               ce_matched := matched_tech;
               ce_missing := Some (missing_in resume_text jd_tech_skills) |}) in
  (* 2. keyword coverage, 30 points *)
  let '(score, e_kw) :=
    if is_empty jd_keywords then (score, None)
    else
      let matched_kw := matched_in resume_text jd_keywords in
      let kw_score :=
        ratio_points (length matched_kw) (length jd_keywords) 30 in
      (score + kw_score,
       Some {| ce_score := kw_score; ce_max := 30;
               ce_matched := take 10 matched_kw;
               ce_missing := Some (take 10 (missing_in resume_text jd_keywords)) |}) in
  (* 3. soft skills, 15 points *)
  let '(score, e_soft) :=
    if is_empty jd_soft_skills then (score, None)
    else
      let matched_soft := matched_in resume_text jd_soft_skills in
      let soft_score :=
        ratio_points (length matched_soft) (length jd_soft_skills) 15 in
      (score + soft_score,
       Some {| ce_score := soft_score; ce_max := 15;
               ce_matched := matched_soft;
               ce_missing := None |}) in
  (* 4. format compliance, 15 points *)
  let format_score := format_score resume_data in
  let score := score + format_score in
  (* the baseline *)
  let score := Z.max score 15 in
  {| total := Z.min score 100;
     breakdown := {| bd_technical_skills := e_tech;
                     bd_keywords := e_kw;
                     bd_soft_skills := e_soft;
                     bd_format := (format_score, 15) |};
     grade := grade_of score |}.

End Ats.

(** ** Regular expressions, as the [re] module runs them *)

Module Re.

(** The constructs that the patterns of the source use.  Repetition is
    over a character class, which is all the source needs:
    [\s+], [\w+], [\d+], [.+], [.+?], [.*]. *)
Inductive regex :=
| Eps
| Lit (ci : bool) (s : string)               (* text; [ci] is re.IGNORECASE *)
| Cls (p : ascii -> bool)                    (* one character of a class *)
| Seq (r1 r2 : regex)
| Alt (r1 r2 : regex)                        (* r1|r2 *)
| Rep (greedy : bool) (least : nat) (p : ascii -> bool)
| Opt (r : regex)                            (* r? *)
| Group (r : regex)                          (* (r), capturing *)
| Ahead (r : regex)                          (* (?=r) *)
| WordB                                      (* \b *)
| Bos                                        (* ^ without re.MULTILINE *)
| Bol                                        (* ^ with re.MULTILINE *)
| Eol                                        (* $ without re.MULTILINE *)
| Eos.                                       (* \Z *)

(** The matcher walks over the subject: [prev] is the character before
    the current position, [None] at the start of the subject, [pos] counts
    the characters taken since the match began, and [s] is what is left.
    The captured groups are listed in the order in which they close. *)
Definition cont : Type :=
  option ascii -> nat -> string -> list string -> option (list string).

Definition same_char (ci : bool) (a b : ascii) : bool :=
  if ci then Ascii.eqb (Str.lower_char a) (Str.lower_char b) else Ascii.eqb a b.

Fixpoint eat (ci : bool) (l : string) (prev : option ascii) (pos : nat) (s : string)
  : option (option ascii * nat * string) :=
  match l with
  | EmptyString => Some (prev, pos, s)
  | String a l' =>
      match s with
      | String b s' =>
          if same_char ci a b then eat ci l' (Some b) (S pos) s' else None
      | EmptyString => None
      end
  end.

Definition word_before (prev : option ascii) : bool :=
  match prev with Some c => Str.is_word c | None => false end.

Definition word_after (s : string) : bool :=
  match s with String c _ => Str.is_word c | EmptyString => false end.

(** The repetition of a class: [n] characters are already taken. *)
Fixpoint rep_greedy (p : ascii -> bool) (least : nat) (k : cont)
  (caps : list string) (n : nat) (prev : option ascii) (pos : nat) (s : string)
  : option (list string) :=
  let stop := if (least <=? n)%nat then k prev pos s caps else None in
  match s with
  | String c t =>
      if p c then
        match rep_greedy p least k caps (S n) (Some c) (S pos) t with
        | Some res => Some res
        | None => stop
        end
      else stop
  | EmptyString => stop
  end.

Fixpoint rep_lazy (p : ascii -> bool) (least : nat) (k : cont)
  (caps : list string) (n : nat) (prev : option ascii) (pos : nat) (s : string)
  : option (list string) :=
  let more :=
    match s with
    | String c t =>
        if p c then rep_lazy p least k caps (S n) (Some c) (S pos) t else None
    | EmptyString => None
    end in
  if (least <=? n)%nat then
    match k prev pos s caps with
    | Some res => Some res
    | None => more
    end
  else more.

(** The backtracking matcher, in continuation-passing style: [k] is the
    rest of the pattern, and a failure of [k] makes the matcher try its
    next choice. *)
Fixpoint run (r : regex) (prev : option ascii) (pos : nat) (s : string)
  (caps : list string) (k : cont) : option (list string) :=
  match r with
  | Eps => k prev pos s caps
  | Lit ci l =>
      match eat ci l prev pos s with
      | Some (prev', pos', s') => k prev' pos' s' caps
      | None => None
      end
  | Cls p =>
      match s with
      | String c t => if p c then k (Some c) (S pos) t caps else None
      | EmptyString => None
      end
  | Seq r1 r2 =>
      run r1 prev pos s caps (fun prev' pos' s' caps' => run r2 prev' pos' s' caps' k)
  | Alt r1 r2 =>
      match run r1 prev pos s caps k with
      | Some res => Some res
      | None => run r2 prev pos s caps k
      end
  | Rep true least p => rep_greedy p least k caps 0 prev pos s
  | Rep false least p => rep_lazy p least k caps 0 prev pos s
  | Opt r1 =>
      match run r1 prev pos s caps k with
      | Some res => Some res
      | None => k prev pos s caps
      end
  | Group r1 =>
      run r1 prev pos s caps
        (fun prev' pos' s' caps' =>
           k prev' pos' s' (caps' ++ [Str.prefix (pos' - pos) s]))
  | Ahead r1 =>
      match run r1 prev pos s caps (fun _ _ _ c => Some c) with
      | Some _ => k prev pos s caps
      | None => None
      end
  | WordB =>
      if xorb (word_before prev) (word_after s) then k prev pos s caps else None
  | Bos => match prev with None => k prev pos s caps | Some _ => None end
  | Bol =>
      match prev with
      | None => k prev pos s caps
      | Some c => if Ascii.eqb c "010" then k prev pos s caps else None
      end
  | Eol =>
      match s with
      | EmptyString => k prev pos s caps
      | String c EmptyString =>
          if Ascii.eqb c "010" then k prev pos s caps else None
      | _ => None
      end
  | Eos => match s with EmptyString => k prev pos s caps | _ => None end
  end.

Definition accept : cont := fun _ _ _ caps => Some caps.

(** [re.match(r, s)]: the groups of the match at the start of [s]. *)
Definition rmatch (r : regex) (s : string) : option (list string) :=
  run r None 0 s [] accept.

(** [re.search(r, s)]: the groups of the leftmost match. *)
Fixpoint search_from (r : regex) (prev : option ascii) (s : string)
  : option (list string) :=
  match run r prev 0 s [] accept with
  | Some caps => Some caps
  | None =>
      match s with
      | EmptyString => None
      | String c t => search_from r (Some c) t
      end
  end.

Definition search (r : regex) (s : string) : option (list string) :=
  search_from r None s.

(** [m.group(i)] for [i >= 1]. *)
Definition group (i : nat) (caps : list string) : string :=
  nth (i - 1) caps EmptyString.

(** Pattern shorthands. *)
Fixpoint seq_of (rs : list regex) : regex :=
  match rs with
  | [] => Eps
  | [r] => r
  | r :: rest => Seq r (seq_of rest)
  end.

(** [w1|w2|...] for literal words. *)
Fixpoint one_of (ci : bool) (ws : list string) : regex :=
  match ws with
  | [] => Lit ci EmptyString
  | [w] => Lit ci w
  | w :: rest => Alt (Lit ci w) (one_of ci rest)
  end.

(** [.] without re.DOTALL: anything but a line feed. *)
Definition dot (c : ascii) : bool := negb (Ascii.eqb c "010").

(** [.] with re.DOTALL. *)
Definition any (c : ascii) : bool := true.

Definition sp1 : regex := Rep true 1 Str.is_space.       (* \s+ *)
Definition sp0 : regex := Rep true 0 Str.is_space.       (* \s* *)
Definition digits1 : regex := Rep true 1 Str.is_digit.   (* \d+ *)

(** Every character of [s] is in the class. *)
Fixpoint all_chars (p : ascii -> bool) (s : string) : bool :=
  match s with
  | EmptyString => true
  | String c t => p c && all_chars p t
  end.

(** The text [d] is the literal [l], up to case when [ci] is set. *)
Fixpoint same_text (ci : bool) (l d : string) : bool :=
  match l, d with
  | EmptyString, EmptyString => true
  | String a l', String b d' => same_char ci a b && same_text ci l' d'
  | _, _ => false
  end.

(** What a pattern matches, without the priorities: the text [d] is
    matched by [r], and the groups [caps] grow into [caps'].  The
    assertions, which look around and take nothing, are not constrained. *)
Fixpoint matches (r : regex) (d : string) (caps caps' : list string) : Prop :=
  match r with
  | Eps => d = EmptyString /\ caps' = caps
  | Lit ci l => same_text ci l d = true /\ caps' = caps
  | Cls p => (exists c, d = String c EmptyString /\ p c = true) /\ caps' = caps
  | Seq r1 r2 =>
      exists d1 d2 caps1,
        d = d1 ^^ d2 /\ matches r1 d1 caps caps1 /\ matches r2 d2 caps1 caps'
  | Alt r1 r2 => matches r1 d caps caps' \/ matches r2 d caps caps'
  | Rep _ least p =>
      all_chars p d = true /\ (least <= Str.len d)%nat /\ caps' = caps
  | Opt r1 => matches r1 d caps caps' \/ (d = EmptyString /\ caps' = caps)
  | Group r1 => exists caps1, matches r1 d caps caps1 /\ caps' = caps1 ++ [d]
  | Ahead _ | WordB | Bos | Bol | Eol | Eos => d = EmptyString /\ caps' = caps
  end.

End Re.

(** ** The taxonomy ([skills_db.py]) *)

Module SkillsDb.

(** [SKILLS_DB], in the order of the source. *)
Definition SKILLS_DB : list (string * list string) := [
  ("programming_languages", [
     "python"; "javascript"; "typescript"; "java"; "c++"; "c#"; "c"; "go";
     "golang"; "rust"; "swift"; "kotlin"; "ruby"; "php"; "scala"; "r";
     "matlab"; "perl"; "shell"; "bash"; "powershell"; "lua"; "dart";
     "elixir"; "haskell"; "clojure"; "groovy"; "objective-c"; "vba"; "cobol";
     "fortran"; "assembly"; "solidity"]);
  ("web_frontend", [
     "react"; "react.js"; "reactjs"; "angular"; "angularjs"; "vue"; "vue.js";
     "vuejs"; "next.js"; "nextjs"; "nuxt.js"; "svelte"; "ember.js";
     "backbone.js"; "jquery"; "html"; "html5"; "css"; "css3"; "sass"; "scss";
     "less"; "tailwind"; "tailwindcss"; "bootstrap"; "material-ui"; "mui";
     "chakra ui"; "ant design"; "styled-components"; "webpack"; "vite";
     "babel"; "parcel"; "rollup"; "redux"; "zustand"; "mobx"; "react query";
     "graphql client"; "apollo client"; "axios"; "fetch api"; "typescript";
     "eslint"; "prettier"; "jest"; "cypress"; "playwright"; "storybook"]);
  ("web_backend", [
     "node.js"; "nodejs"; "express"; "express.js"; "fastapi"; "flask";
     "django"; "spring"; "spring boot"; "laravel"; "rails"; "ruby on rails";
     "asp.net"; ".net core"; "nestjs"; "nest.js"; "koa"; "hapi"; "fastify";
     "gin"; "fiber"; "echo"; "actix"; "rocket"; "phoenix"; "elixir phoenix";
     "graphql"; "rest api"; "restful api"; "grpc"; "websocket"; "oauth";
     "jwt"; "swagger"; "openapi"]);
  ("databases", [
     "sql"; "mysql"; "postgresql"; "postgres"; "sqlite"; "oracle";
     "sql server"; "mssql"; "mongodb"; "mongoose"; "redis"; "elasticsearch";
     "cassandra"; "dynamodb"; "firebase"; "firestore"; "couchdb"; "neo4j";
     "influxdb"; "timescaledb"; "mariadb"; "cockroachdb"; "supabase";
     "planetscale"; "prisma"; "sequelize"; "typeorm"; "sqlalchemy";
     "hibernate"; "knex"]);
  ("cloud_devops", [
     "aws"; "amazon web services"; "azure"; "microsoft azure"; "gcp";
     "google cloud"; "google cloud platform"; "docker"; "kubernetes"; "k8s";
     "terraform"; "ansible"; "puppet"; "chef"; "jenkins"; "ci/cd";
     "github actions"; "gitlab ci"; "circleci"; "travis ci"; "helm"; "istio";
     "prometheus"; "grafana"; "elk stack"; "elasticsearch"; "logstash";
     "kibana"; "nginx"; "apache"; "linux"; "unix"; "bash scripting";
     "devops"; "sre"; "site reliability"; "ec2"; "s3"; "lambda";
     "cloudfront"; "rds"; "vpc"; "iam"; "route53"; "azure devops";
     "azure functions"; "gke"; "aks"; "eks"; "fargate"; "serverless";
     "microservices"; "service mesh"; "load balancing"; "auto scaling";
     "cdn"; "cloudwatch"; "datadog"; "new relic"; "splunk"]);
  ("data_science_ml", [
     "machine learning"; "ml"; "deep learning"; "neural networks"; "nlp";
     "natural language processing"; "computer vision"; "tensorflow";
     "pytorch"; "keras"; "scikit-learn"; "sklearn"; "pandas"; "numpy";
     "scipy"; "matplotlib"; "seaborn"; "plotly"; "jupyter"; "data analysis";
     "data science"; "statistics"; "regression"; "classification";
     "clustering"; "random forest"; "xgboost"; "gradient boosting"; "svm";
     "support vector machine"; "cnn"; "rnn"; "lstm"; "transformer"; "bert";
     "gpt"; "hugging face"; "mlflow"; "kubeflow"; "airflow"; "spark";
     "pyspark"; "hadoop"; "hive"; "data pipeline"; "feature engineering";
     "model deployment"; "a/b testing"; "hypothesis testing";
     "sql analytics"; "power bi"; "tableau"; "looker"; "data studio"; "dbt"]);
  ("mobile", [
     "ios"; "android"; "react native"; "flutter"; "swift"; "kotlin"; "xcode";
     "android studio"; "mobile development"; "app development"; "pwa";
     "ionic"; "xamarin"; "cordova"; "phonegap"; "expo"; "dart";
     "push notifications"; "firebase"; "app store"; "play store"]);
  ("cybersecurity", [
     "cybersecurity"; "security"; "penetration testing"; "pen testing";
     "ethical hacking"; "vulnerability assessment"; "siem"; "soc";
     "firewall"; "ips"; "ids"; "encryption"; "ssl/tls"; "pki";
     "identity management"; "iam"; "sso"; "oauth"; "zero trust"; "owasp";
     "compliance"; "gdpr"; "hipaa"; "sox"; "iso 27001"; "nist";
     "threat modeling"; "incident response"; "forensics"; "burp suite";
     "metasploit"; "nmap"; "wireshark"; "kali linux"]);
  ("project_management", [
     "agile"; "scrum"; "kanban"; "jira"; "confluence"; "trello"; "asana";
     "project management"; "product management"; "product owner";
     "scrum master"; "sprint planning"; "roadmap"; "stakeholder management";
     "cross-functional"; "waterfall"; "pmp"; "prince2"; "risk management";
     "budget management"; "resource planning"; "pert"; "gantt chart";
     "microsoft project"; "monday.com"; "basecamp"; "notion"; "linear"]);
  ("soft_skills", [
     "leadership"; "communication"; "collaboration"; "teamwork";
     "problem-solving"; "critical thinking"; "analytical"; "creative";
     "innovative"; "adaptable"; "attention to detail"; "time management";
     "mentoring"; "coaching"; "presentation"; "public speaking";
     "negotiation"; "conflict resolution"; "decision making";
     "strategic thinking"; "customer-focused"; "results-driven";
     "self-motivated"; "proactive"; "organized"; "detail-oriented";
     "fast learner"; "cross-functional collaboration";
     "stakeholder communication"; "client management"]);
  ("finance_business", [
     "financial analysis"; "financial modeling"; "excel"; "vba"; "bloomberg";
     "sql"; "tableau"; "powerbi"; "accounting"; "gaap"; "ifrs"; "budgeting";
     "forecasting"; "variance analysis"; "kpi"; "roi"; "p&l";
     "balance sheet"; "income statement"; "cash flow"; "valuation"; "dcf";
     "merger"; "acquisition"; "investment banking"; "private equity";
     "hedge fund"; "risk management"; "compliance"; "audit"; "tax"; "erp";
     "sap"; "oracle financials"; "quickbooks"]);
  ("design", [
     "figma"; "sketch"; "adobe xd"; "photoshop"; "illustrator"; "indesign";
     "after effects"; "premiere pro"; "invision"; "zeplin"; "framer";
     "ui design"; "ux design"; "user research"; "wireframing"; "prototyping";
     "design systems"; "accessibility"; "usability testing"; "a/b testing";
     "visual design"; "typography"; "color theory"; "branding";
     "motion design"]);
  ("marketing", [
     "seo"; "sem"; "google ads"; "facebook ads"; "meta ads";
     "social media marketing"; "content marketing"; "email marketing";
     "hubspot"; "salesforce"; "crm"; "google analytics"; "ga4";
     "marketing automation"; "lead generation"; "conversion optimization";
     "cro"; "copywriting"; "brand strategy"; "market research";
     "competitive analysis"; "go-to-market"; "demand generation"])
].

(** [STRONG_VERBS], the strong action verbs by category. *)
Definition STRONG_VERBS : list (string * list string) := [
  ("achievement", [
     "Achieved"; "Delivered"; "Exceeded"; "Surpassed"; "Accomplished";
     "Attained"]);
  ("leadership", [
     "Led"; "Directed"; "Managed"; "Oversaw"; "Supervised"; "Mentored";
     "Guided"]);
  ("development", [
     "Developed"; "Built"; "Engineered"; "Architected"; "Designed";
     "Implemented"; "Deployed"]);
  ("improvement", [
     "Optimized"; "Enhanced"; "Streamlined"; "Improved"; "Accelerated";
     "Boosted"; "Elevated"]);
  ("creation", [
     "Created"; "Established"; "Launched"; "Pioneered"; "Initiated";
     "Founded"; "Introduced"]);
  ("analysis", [
     "Analyzed"; "Evaluated"; "Assessed"; "Investigated"; "Researched";
     "Identified"; "Diagnosed"]);
  ("collaboration", [
     "Collaborated"; "Partnered"; "Coordinated"; "Facilitated"; "Liaised";
     "Aligned"]);
  ("growth", [
     "Grew"; "Scaled"; "Expanded"; "Increased"; "Generated"; "Drove";
     "Amplified"]);
  ("reduction", [
     "Reduced"; "Decreased"; "Minimized"; "Cut"; "Eliminated"; "Saved";
     "Lowered"]);
  ("automation", [
     "Automated"; "Integrated"; "Migrated"; "Modernized"; "Digitized";
     "Transformed"])
].

(** [WEAK_VERBS] *)
Definition WEAK_VERBS : list string := [
  "did"; "made"; "helped"; "worked"; "was"; "had"; "got"; "put"; "used";
  "wrote"; "ran"; "kept"; "gave"; "took"; "tried"; "went"; "came"; "saw";
  "knew"; "thought"; "felt"; "found"; "told"; "asked"].

(** [d[key]] for a key of the table, [d.get(key, [])] otherwise. *)
Fixpoint lookup_list (key : string) (d : list (string * list string)) : list string :=
  match d with
  | [] => []
  | (k, v) :: rest => if String.eqb key k then v else lookup_list key rest
  end.

End SkillsDb.

(** ** The randomness of [random.choice] *)

(** The oracle: the draws still to come.  Every sequence of choices that
    the generator can make is the run on some oracle. *)
Definition rng : Type := list nat.

(** [random.choice(xs)] for a non-empty [xs]. *)
Definition choice (xs : list string) (g : rng) : string * rng :=
  match g with
  | [] => (nth 0 xs EmptyString, [])
  | r :: g' => (nth (r mod length xs) xs EmptyString, g')
  end.

(** ** The phrase rewriter ([replace_weak_verb]) *)

Module Rewriter.

Import Re.

(** [ING_TO_PAST] *)
Definition ING_TO_PAST : list (string * string) := [
  ("building", "Built"); ("developing", "Developed"); ("designing", "Designed");
  ("implementing", "Implemented"); ("creating", "Created"); ("leading", "Led");
  ("managing", "Managed"); ("delivering", "Delivered");
  ("architecting", "Architected"); ("optimizing", "Optimized");
  ("maintaining", "Maintained"); ("deploying", "Deployed");
  ("analyzing", "Analyzed"); ("improving", "Improved");
  ("establishing", "Established"); ("driving", "Drove");
  ("collaborating", "Collaborated"); ("coordinating", "Coordinated");
  ("mentoring", "Mentored"); ("reviewing", "Reviewed");
  ("monitoring", "Monitored"); ("automating", "Automated");
  ("integrating", "Integrated"); ("migrating", "Migrated");
  ("launching", "Launched"); ("scaling", "Scaled"); ("supporting", "Supported");
  ("writing", "Wrote"); ("testing", "Tested"); ("debugging", "Debugged");
  ("configuring", "Configured"); ("setting", "Set up");
  ("working", "Worked on"); ("ensuring", "Ensured"); ("overseeing", "Oversaw");
  ("handling", "Handled")
].

(** [ING_TO_PAST.get(key, default)] *)
Fixpoint ing_to_past (key default : string) (d : list (string * string)) : string :=
  match d with
  | [] => default
  | (k, v) :: rest => if String.eqb key k then v else ing_to_past key default rest
  end.

Definition past_of (gerund default : string) : string :=
  ing_to_past (Str.lower gerund) default ING_TO_PAST.

(** The patterns are compiled with re.IGNORECASE. *)
Definition word (w : string) : regex := Lit true w.
Definition rest1 : regex := Group (Rep true 1 dot).        (* (.+) *)
Definition lazy1 : regex := Group (Rep false 1 dot).       (* (.+?) *)
Definition rest0 : regex := Group (Rep true 0 dot).        (* (.* ) *)

(** [SMART_TRANSFORMS]: each pattern with its replacer, a function of the
    groups of the match; the order is the order of the source. *)
Definition SMART_TRANSFORMS : list (regex * (list string -> string)) := [
  (* ^was\s+responsible\s+for\s+(\w+ing)\s+(.+) *)
  (seq_of [Bos; word "was"; sp1; word "responsible"; sp1; word "for"; sp1;
           Group (Seq (Rep true 1 Str.is_word) (word "ing")); sp1; rest1],
   fun m => past_of (group 1 m) "Managed" ^^ " " ^^ group 2 m);
  (* ^was\s+responsible\s+for\s+(.+) *)
  (seq_of [Bos; word "was"; sp1; word "responsible"; sp1; word "for"; sp1; rest1],
   fun m => "Managed " ^^ group 1 m);
  (* ^responsible\s+for\s+(building|...|leading)\s+(.+) *)
  (seq_of [Bos; word "responsible"; sp1; word "for"; sp1;
           Group (one_of true ["building"; "developing"; "creating"; "designing";
                               "implementing"; "maintaining"; "managing"; "leading"]);
           sp1; rest1],
   fun m => past_of (group 1 m) "Developed" ^^ " " ^^ group 2 m);
  (* ^responsible\s+for\s+(.+) *)
  (seq_of [Bos; word "responsible"; sp1; word "for"; sp1; rest1],
   fun m => "Managed " ^^ group 1 m);
  (* ^worked\s+on\s+(developing|building|creating|designing|implementing)\s+(.+) *)
  (seq_of [Bos; word "worked"; sp1; word "on"; sp1;
           Group (one_of true ["developing"; "building"; "creating"; "designing";
                               "implementing"]);
           sp1; rest1],
   fun m => past_of (group 1 m) "Developed" ^^ " " ^^ group 2 m);
  (* ^worked\s+on\s+(.+?)\s+(development|implementation|testing)(.* )$ *)
  (seq_of [Bos; word "worked"; sp1; word "on"; sp1; lazy1; sp1;
           Group (one_of true ["development"; "implementation"; "testing"]);
           rest0; Eol],
   fun m => "Developed " ^^ group 1 m ^^ group 3 m);
  (* ^worked\s+on\s+(.+) *)
  (seq_of [Bos; word "worked"; sp1; word "on"; sp1; rest1],
   fun m => "Developed " ^^ group 1 m);
  (* ^was\s+involved\s+in\s+(.+) *)
  (seq_of [Bos; word "was"; sp1; word "involved"; sp1; word "in"; sp1; rest1],
   fun m => "Contributed to " ^^ group 1 m);
  (* ^was\s+part\s+of\s+(.+) *)
  (seq_of [Bos; word "was"; sp1; word "part"; sp1; word "of"; sp1; rest1],
   fun m => "Served as integral member of " ^^ group 1 m);
  (* ^was\s+(.+) *)
  (seq_of [Bos; word "was"; sp1; rest1],
   fun m => "Operated as " ^^ group 1 m);
  (* ^helped\s+with\s+(.+) *)
  (seq_of [Bos; word "helped"; sp1; word "with"; sp1; rest1],
   fun m => "Enhanced " ^^ group 1 m);
  (* ^helped\s+to\s+(.+) *)
  (seq_of [Bos; word "helped"; sp1; word "to"; sp1; rest1],
   fun m => "Supported " ^^ group 1 m);
  (* ^assisted\s+in\s+(.+) *)
  (seq_of [Bos; word "assisted"; sp1; word "in"; sp1; rest1],
   fun m => "Collaborated on " ^^ group 1 m);
  (* ^did\s+(.+) *)
  (seq_of [Bos; word "did"; sp1; rest1],
   fun m => "Executed " ^^ group 1 m);
  (* ^participated\s+in\s+(.+) *)
  (seq_of [Bos; word "participated"; sp1; word "in"; sp1; rest1],
   fun m => "Actively contributed to " ^^ group 1 m);
  (* ^made\s+(.+?)\s+(api|apis|service|services|system|systems|pipeline)(.* )$ *)
  (seq_of [Bos; word "made"; sp1; lazy1; sp1;
           Group (one_of true ["api"; "apis"; "service"; "services"; "system";
                               "systems"; "pipeline"]);
           rest0; Eol],
   fun m => "Engineered " ^^ group 1 m ^^ " " ^^ group 2 m ^^ group 3 m);
  (* ^made\s+(.+) *)
  (seq_of [Bos; word "made"; sp1; rest1],
   fun m => "Developed " ^^ group 1 m);
  (* ^used\s+(.+?)\s+for\s+(.+) *)
  (seq_of [Bos; word "used"; sp1; lazy1; sp1; word "for"; sp1; rest1],
   fun m => "Leveraged " ^^ group 1 m ^^ " for " ^^ group 2 m);
  (* ^used\s+(.+) *)
  (seq_of [Bos; word "used"; sp1; rest1],
   fun m => "Utilized " ^^ group 1 m);
  (* ^tried\s+to\s+(.+) *)
  (seq_of [Bos; word "tried"; sp1; word "to"; sp1; rest1],
   fun m => "Successfully " ^^ group 1 m)
].

(** The loop of [apply_smart_transform] over the rules that are left. *)
Fixpoint apply_rules (rules : list (regex * (list string -> string)))
  (sentence_stripped sentence_lower : string) : option string :=
  match rules with
  | [] => None
  | (pattern, replacer) :: rest =>
      match rmatch pattern sentence_lower with
      | Some m =>
          let result := replacer m in
          if Str.truthy result then
            match rmatch pattern sentence_stripped with
            | Some original_m =>
                let orig_result := replacer original_m in
                if Str.truthy orig_result then Some (Str.upper_first orig_result)
                else Some (Str.upper_first result)
            | None => Some (Str.upper_first result)
            end
          else apply_rules rest sentence_stripped sentence_lower
      | None => apply_rules rest sentence_stripped sentence_lower
      end
  end.

Definition apply_smart_transform (sentence : string) : option string :=
  let sentence_stripped := Str.strip sentence in
  let sentence_lower := Str.lower sentence_stripped in
  apply_rules SMART_TRANSFORMS sentence_stripped sentence_lower.

(** The class of [^[•\-–●\*·▪\s]+] on ASCII text: the hyphen, the star and
    the spaces. *)
Definition bullet_glyph (c : ascii) : bool :=
  Ascii.eqb c "-" || Ascii.eqb c "*" || Str.is_space c.

(** [re.sub(r'^[...]+', '', s)] *)
Fixpoint drop_glyphs (s : string) : string :=
  match s with
  | EmptyString => EmptyString
  | String c t => if bullet_glyph c then drop_glyphs t else s
  end.

(** The test of the loop over [WEAK_VERBS]. *)
Definition is_weak_opening (first_word_lower weak : string) : bool :=
  String.eqb first_word_lower weak
  || ((4 <? Str.len first_word_lower)%nat
      && Str.startswith (Str.prefix 4 weak) first_word_lower
      && negb (Str.mem weak ["the"; "was"; "has"])).

(** The category of strong verbs that the context asks for. *)
Definition verb_pool (context_lower : string) : list string :=
  let strong := fun key => SkillsDb.lookup_list key SkillsDb.STRONG_VERBS in
  if Str.any_in ["team"; "cross"; "group"; "stakeholder"; "collaborate"] context_lower
  then strong "collaboration"
  else if Str.any_in ["build"; "develop"; "creat"; "code"; "implement"; "deploy";
                      "architect"; "api"; "service"; "system"] context_lower
  then strong "development"
  else if Str.any_in ["increas"; "grow"; "generat"; "revenue"; "sale"; "boost"]
            context_lower
  then strong "growth"
  else if Str.any_in ["reduc"; "decreas"; "cut"; "lower"; "minim"; "remov"]
            context_lower
  then strong "reduction"
  else if Str.any_in ["analyz"; "resear"; "assess"; "evaluat"; "investigat";
                      "diagnos"] context_lower
  then strong "analysis"
  else if Str.any_in ["lead"; "manag"; "direct"; "mentor"; "supervis"; "overse"]
            context_lower
  then strong "leadership"
  else if Str.any_in ["automat"; "integrat"; "migrat"; "digit"; "transform"]
            context_lower
  then strong "automation"
  else if Str.any_in ["optimiz"; "improv"; "enhanc"; "streamlin"; "acceler"]
            context_lower
  then strong "improvement"
  else strong "development".

Definition replace_weak_verb (sentence : string) (g : rng) : string * rng :=
  let sentence := Str.strip sentence in
  if negb (Str.truthy sentence) then (sentence, g) else
  let clean := Str.strip (drop_glyphs sentence) in
  if negb (Str.truthy clean) then (sentence, g) else
  match apply_smart_transform clean with
  | Some (String c smart) => (String c smart, g)
  | _ =>
      match Str.split clean with
      | [] => (sentence, g)
      | first_word :: more_words =>
          let first_word_lower := Str.lower first_word in
          match List.find (is_weak_opening first_word_lower)
                  SkillsDb.WEAK_VERBS with
          | Some weak =>
              let context_lower := Str.lower clean in
              let '(new_verb, g) := choice (verb_pool context_lower) g in
              let rest := Str.join " " more_words in
              if Str.truthy rest then (new_verb ^^ " " ^^ rest, g)
              else (sentence, g)
          | None => (sentence, g)
          end
      end
  end.

End Rewriter.

(** ** The keyword insertion engine *)

Module Insertion.

(** The keyword lists of [is_contextually_relevant]. *)
Definition frontend_terms : list string :=
  ["frontend"; "front-end"; "ui"; "react"; "angular"; "vue"; "css"; "html";
   "browser"].
Definition backend_terms : list string :=
  ["api"; "backend"; "back-end"; "server"; "endpoint"; "microservice";
   "python"; "node"; "flask"; "django"; "fastapi"; "express"; "spring"].
Definition data_terms : list string :=
  ["database"; "data"; "query"; "sql"; "schema"; "table"; "index";
   "postgresql"; "mysql"; "mongodb"; "redis"; "cache"; "store"].
Definition devops_terms : list string :=
  ["deploy"; "pipeline"; "ci"; "cd"; "docker"; "kubernetes"; "container";
   "infrastructure"; "cloud"; "aws"; "azure"; "gcp"; "server"; "host";
   "terraform"; "helm"; "jenkins"; "github actions"].
Definition tech_terms : list string :=
  ["develop"; "built"; "implemented"; "created"; "designed"; "engineered";
   "architected"; "leveraged"; "utilized"; "configured"; "integrated"].

Definition infra_kws : list string :=
  ["aws"; "azure"; "gcp"; "ec2"; "s3"; "lambda"; "kubernetes"; "k8s";
   "terraform"; "helm"; "nginx"; "ansible"; "fargate"; "ecs"; "eks"].
Definition cicd_kws : list string :=
  ["ci/cd"; "github actions"; "jenkins"; "gitlab ci"; "circleci"].
Definition db_kws : list string :=
  ["postgresql"; "mysql"; "mongodb"; "redis"; "elasticsearch"; "sqlite";
   "oracle"; "cassandra"; "dynamodb"; "influxdb"; "mariadb"; "couchdb"].
Definition frontend_kws : list string :=
  ["react"; "angular"; "vue"; "svelte"; "next.js"; "nuxt.js"; "tailwind";
   "bootstrap"; "css"; "html"; "typescript"].
Definition backend_kws : list string :=
  ["fastapi"; "django"; "flask"; "spring"; "express"; "nestjs"; "gin";
   "graphql"; "grpc"; "rest"].
Definition lang_kws : list (string * list string) :=
  [("python", ["python"; "flask"; "django"; "fastapi"]);
   ("javascript", ["javascript"; "node"; "react"; "express"; "js"]);
   ("typescript", ["typescript"; "react"; "angular"; "nestjs"; "ts"]);
   ("java", ["java"; "spring"; "maven"; "gradle"]);
   ("go", ["golang"; "go "; "gin"; "fiber"])].

(** The buckets of a bullet, on its lowercased text. *)
Definition bullet_is_frontend (bullet_lower : string) : bool :=
  Str.any_in frontend_terms bullet_lower.
Definition bullet_is_backend (bullet_lower : string) : bool :=
  Str.any_in backend_terms bullet_lower.
Definition bullet_is_data (bullet_lower : string) : bool :=
  Str.any_in data_terms bullet_lower.
Definition bullet_is_devops (bullet_lower : string) : bool :=
  Str.any_in devops_terms bullet_lower.
Definition bullet_is_tech (bullet_lower : string) : bool :=
  Str.any_in tech_terms bullet_lower.

(** The loop over [lang_kws.items()]: the triggers of the language that
    the keyword names, if it names one. *)
Fixpoint lang_triggers (kw_lower : string) (table : list (string * list string))
  : option (list string) :=
  match table with
  | [] => None
  | (lang, triggers) :: rest =>
      if String.eqb kw_lower lang then Some triggers
      else lang_triggers kw_lower rest
  end.

Definition is_contextually_relevant (keyword bullet : string) : bool :=
  let kw_lower := Str.lower keyword in
  let bullet_lower := Str.lower bullet in
  if Str.contains kw_lower bullet_lower then false
  else if Str.mem kw_lower infra_kws then bullet_is_devops bullet_lower
  else if Str.mem kw_lower cicd_kws then
    bullet_is_devops bullet_lower
    || Str.contains "pipeline" bullet_lower
    || Str.contains "automat" bullet_lower
  else if Str.mem kw_lower db_kws then bullet_is_data bullet_lower
  else if Str.mem kw_lower frontend_kws then
    bullet_is_frontend bullet_lower
    || (bullet_is_tech bullet_lower
        && negb (bullet_is_data bullet_lower)
        && negb (bullet_is_devops bullet_lower))
  else if Str.mem kw_lower backend_kws then
    bullet_is_backend bullet_lower
    || (bullet_is_tech bullet_lower
        && negb (bullet_is_data bullet_lower)
        && negb (bullet_is_devops bullet_lower))
  else
    match lang_triggers kw_lower lang_kws with
    | Some triggers => Str.any_in triggers bullet_lower
    | None => bullet_is_tech bullet_lower && (3 <? Str.len keyword)%nat
    end.

(** [bullet[:-1] + clause + "."] when the stripped bullet ends with a
    period, [bullet + clause] otherwise. *)
Definition append_clause (bullet clause : string) : string :=
  if Str.endswith_period (Str.rstrip bullet)
  then Str.drop_last bullet ^^ clause ^^ "."
  else bullet ^^ clause.

(** [re.search(r'\b' + re.escape(kw), text)] *)
Definition starts_a_word (kw text : string) : bool :=
  match Re.search (Re.Seq Re.WordB (Re.Lit false kw)) text with
  | Some _ => true
  | None => false
  end.

Definition insert_keyword_naturally (bullet keyword : string) : string :=
  if Str.contains (Str.lower keyword) (Str.lower bullet) then bullet
  else if negb (is_contextually_relevant keyword bullet) then bullet
  else
    let bullet_lower := Str.lower bullet in
    if Str.any_in ["developed"; "built"; "implemented"; "created"; "designed";
                   "engineered"; "architected"] bullet_lower
       && negb (starts_a_word (Str.lower keyword) bullet_lower)
    then append_clause bullet (", leveraging " ^^ keyword)
    else if Str.any_in ["optimized"; "improved"; "enhanced"; "streamlined"]
              bullet_lower
    then append_clause bullet (" with " ^^ keyword)
    else if Str.any_in ["deployed"; "configured"; "containerized"; "migrated"]
              bullet_lower
    then
      let prep :=
        if Str.mem (Str.lower keyword) ["aws"; "azure"; "gcp"; "eks"; "gke"]
        then "on" else "using" in
      append_clause bullet (" " ^^ prep ^^ " " ^^ keyword)
    else bullet.

End Insertion.

(** ** The optimizer: bullets, skills, keyword diff, orchestration *)

Module Optimizer.

Import Insertion.

(** Step 2 of [enhance_bullet]: the loop over [jd_skills].  The first
    skill that is unused, absent from the text and really inserted ends
    the loop and is appended to [used_keywords]. *)
Fixpoint insert_one_skill (enhanced : string) (jd_skills used_keywords : list string)
  : string * list string :=
  match jd_skills with
  | [] => (enhanced, used_keywords)
  | skill :: rest =>
      if Str.mem skill used_keywords then
        insert_one_skill enhanced rest used_keywords
      else if Str.contains (Str.lower skill) (Str.lower enhanced) then
        insert_one_skill enhanced rest used_keywords
      else
        let new_enhanced := insert_keyword_naturally enhanced skill in
        if negb (String.eqb new_enhanced enhanced)
        then (new_enhanced, used_keywords ++ [skill])
        else insert_one_skill enhanced rest used_keywords
  end.

(** [enhance_bullet]; the list [used_keywords] that the source mutates in
    place is returned with the text. *)
Definition enhance_bullet (bullet : string) (jd_keywords jd_skills : list string)
  (used_keywords : list string) (g : rng) : string * list string * rng :=
  if negb (Str.truthy bullet) || (Str.len bullet <? 5)%nat
  then (bullet, used_keywords, g)
  else
    (* Step 1: the verb transformation *)
    let '(enhanced, g) := Rewriter.replace_weak_verb bullet g in
    (* Step 2: one relevant, unused skill *)
    let '(enhanced, used_keywords) :=
      if (Str.len enhanced <? 160)%nat
      then insert_one_skill enhanced jd_skills used_keywords
      else (enhanced, used_keywords) in
    (* Step 3: the first letter *)
    (Str.upper_first enhanced, used_keywords, g).

(** The inner loop of [optimize_experience], over the bullets of one
    entry. *)
Fixpoint optimize_bullets (original_bullets : list string)
  (jd_keywords jd_skills used_keywords : list string) (g : rng)
  : list string * list string * rng :=
  match original_bullets with
  | [] => ([], used_keywords, g)
  | bullet :: rest =>
      if Str.blank bullet then
        optimize_bullets rest jd_keywords jd_skills used_keywords g
      else
        let '(enhanced, used_keywords, g) :=
          enhance_bullet bullet jd_keywords jd_skills used_keywords g in
        let '(optimized_bullets, used_keywords, g) :=
          optimize_bullets rest jd_keywords jd_skills used_keywords g in
        (enhanced :: optimized_bullets, used_keywords, g)
  end.

Definition with_bullets (entry : experience_entry) (bs : list string)
  : experience_entry :=
  {| company := company entry; role := role entry; dates := dates entry;
     location := location entry; bullets := bs; raw := raw entry |}.

(** The outer loop, over the entries. *)
Fixpoint optimize_entries (experience_list : list experience_entry)
  (jd_keywords jd_skills used_keywords : list string) (g : rng)
  : list experience_entry * list string * rng :=
  match experience_list with
  | [] => ([], used_keywords, g)
  | entry :: rest =>
      let '(optimized_bullets, used_keywords, g) :=
        optimize_bullets (bullets entry) jd_keywords jd_skills used_keywords g in
      let optimized_entry := with_bullets entry optimized_bullets in
      let '(optimized_experience, used_keywords, g) :=
        optimize_entries rest jd_keywords jd_skills used_keywords g in
      (optimized_entry :: optimized_experience, used_keywords, g)
  end.

(** One run of [optimize_experience], with the final state of
    [used_keywords_global]. *)
Definition optimize_experience_run (experience_list : list experience_entry)
  (jd_analysis : jd_profile) (g : rng)
  : list experience_entry * list string * rng :=
  let jd_skills := take 12 (technical_skills jd_analysis) in
  let jd_keywords := take 10 (keywords jd_analysis) in
  optimize_entries experience_list jd_keywords jd_skills [] g.

Definition optimize_experience (experience_list : list experience_entry)
  (jd_analysis : jd_profile) (g : rng) : list experience_entry * rng :=
  let '(optimized_experience, _, g) :=
    optimize_experience_run experience_list jd_analysis g in
  (optimized_experience, g).

(** [compute_keyword_diff] *)
Record keyword_diff := {
  added : list string;
  already_had : list string
}.

Fixpoint diff_loop (jd_keywords : list string) (before_lower after_lower : string)
  (seen : gset string) (added already_had : list string)
  : list string * list string :=
  match jd_keywords with
  | [] => (added, already_had)
  | kw :: rest =>
      let kw_lower := Str.lower kw in
      if bool_decide (kw_lower ∈ seen) || (Str.len kw_lower <? 3)%nat then
        diff_loop rest before_lower after_lower seen added already_had
      else
        let seen := {[kw_lower]} ∪ seen in
        if Str.contains kw_lower after_lower then
          if Str.contains kw_lower before_lower then
            diff_loop rest before_lower after_lower seen added (already_had ++ [kw])
          else
            diff_loop rest before_lower after_lower seen (added ++ [kw]) already_had
        else
          diff_loop rest before_lower after_lower seen added already_had
  end.

Definition compute_keyword_diff (before_text after_text : string)
  (jd_keywords : list string) : keyword_diff :=
  let before_lower := Str.lower before_text in
  let after_lower := Str.lower after_text in
  let '(added, already_had) :=
    diff_loop jd_keywords before_lower after_lower ∅ [] [] in
  {| added := take 15 added; already_had := take 15 already_had |}.

(** [skill.lower() in [s.lower() for s in domain_skills]] *)
Definition in_domain (skill : string) (domain_skills : list string) : bool :=
  Str.mem (Str.lower skill) (map Str.lower domain_skills).

(** The domains in which the candidate already works: the two nested
    loops over [resume_skills] and [SKILLS_DB.items()]. *)
Definition add_domains (db : list (string * list string)) (skill : string)
  (existing : gset string) : gset string :=
  fold_left (fun acc '(domain, domain_skills) =>
               if in_domain skill domain_skills then {[domain]} ∪ acc else acc)
    db existing.

Definition existing_domains_in (db : list (string * list string))
  (resume_skills : list string) : gset string :=
  fold_left (fun acc skill => add_domains db skill acc) resume_skills ∅.

(** The first domain of the table that lists the skill. *)
Fixpoint skill_domain_in (db : list (string * list string)) (jd_skill : string)
  : option string :=
  match db with
  | [] => None
  | (domain, domain_skills) :: rest =>
      if in_domain jd_skill domain_skills then Some domain
      else skill_domain_in rest jd_skill
  end.

(** The loop over [jd_tech_skills] that extends [optimized]. *)
Fixpoint add_jd_skills (db : list (string * list string))
  (jd_tech_skills : list string) (resume_text_lower : string)
  (existing_domains : gset string) (optimized : list string) : list string :=
  match jd_tech_skills with
  | [] => optimized
  | jd_skill :: rest =>
      if Str.contains (Str.lower jd_skill) resume_text_lower then
        add_jd_skills db rest resume_text_lower existing_domains optimized
      else
        match skill_domain_in db jd_skill with
        | Some skill_domain =>
            if Str.truthy skill_domain
               && bool_decide (skill_domain ∈ existing_domains)
            then add_jd_skills db rest resume_text_lower existing_domains
                   (optimized ++ [jd_skill])
            else add_jd_skills db rest resume_text_lower existing_domains optimized
        | None =>
            add_jd_skills db rest resume_text_lower existing_domains optimized
        end
  end.

(** The case-insensitive deduplication that keeps the first spelling. *)
Fixpoint dedupe (optimized : list string) (seen : gset string) (deduped : list string)
  : list string :=
  match optimized with
  | [] => deduped
  | skill :: rest =>
      let key := Str.lower skill in
      if bool_decide (key ∈ seen) then dedupe rest seen deduped
      else dedupe rest ({[key]} ∪ seen) (deduped ++ [skill])
  end.

Definition optimize_skills_in (db : list (string * list string))
  (resume_skills : list string) (jd_analysis : jd_profile) : list string :=
  let jd_tech_skills := technical_skills jd_analysis in
  let resume_text_lower := Str.join " " (map Str.lower resume_skills) in
  let optimized := resume_skills in
  let existing_domains := existing_domains_in db resume_skills in
  let optimized :=
    add_jd_skills db jd_tech_skills resume_text_lower existing_domains optimized in
  dedupe optimized ∅ [].

(** [optimize_skills_section], on the taxonomy of the repository. *)
Definition optimize_skills_section (resume_skills : list string)
  (jd_analysis : jd_profile) : list string :=
  optimize_skills_in SkillsDb.SKILLS_DB resume_skills jd_analysis.

(** The result of [optimize_resume]. *)
Record optimized_resume := {
  o_name : string;
  o_contact_email : string;
  o_summary : string;
  o_skills : list string;
  o_experience : list experience_entry;
  o_experience_raw : string;
  o_education : string;
  o_projects : string;
  o_certifications : string;
  o_raw_sections : gmap string string;
  o_jd_title : string;
  o_domain : string
}.

Record optimization := {
  optimized : optimized_resume;
  ats_before : Z;
  ats_after : Z;
  ats_grade : string;
  ats_breakdown : ats_breakdown;
  keywords_added : list string;
  keywords_existing : list string;
  jd_analysis_out : jd_profile
}.

Section Orchestrator.

(** [rewrite_summary] builds the summary from templates and draws one of
    them at random; no property settled here depends on the text that it
    returns, so the orchestrator takes it as it comes. *)
Variable rewrite_summary : resume -> jd_profile -> rng -> string * rng.

Definition optimize_resume (resume_data : resume) (jd_analysis : jd_profile)
  (g : rng) : optimization * rng :=
  let original_text := full_text resume_data in
  (* 1. the score before *)
  let pre_ats := Ats.calculate_ats_score resume_data jd_analysis in
  (* 2. the summary *)
  let '(new_summary, g) := rewrite_summary resume_data jd_analysis g in
  (* 3. the skills *)
  let original_skills := skills resume_data in
  let optimized_skills := optimize_skills_section original_skills jd_analysis in
  (* 4. the experience bullets *)
  let original_experience := experience resume_data in
  let '(optimized_experience, g) :=
    optimize_experience original_experience jd_analysis g in
  (* 5. the optimized structure *)
  let optimized_data := {|
    o_name := name resume_data;
    o_contact_email := contact_email resume_data;
    o_summary := new_summary;
    o_skills := optimized_skills;
    o_experience := optimized_experience;
    o_experience_raw := experience_raw resume_data;
    o_education := education resume_data;
    o_projects := projects resume_data;
    o_certifications := certifications resume_data;
    o_raw_sections := raw_sections resume_data;
    o_jd_title := job_title jd_analysis;
    o_domain := domain jd_analysis |} in
  (* 6. the score after *)
  let optimized_text_parts :=
    [new_summary; Str.join " " optimized_skills]
    ++ concat (map bullets optimized_experience) in
  let optimized_text := Str.lower (Str.join " " optimized_text_parts) in
  let temp_data := {|
    name := name resume_data;
    contact_email := contact_email resume_data;
    summary := new_summary;
    skills := optimized_skills;
    experience := optimized_experience;
    experience_raw := experience_raw resume_data;
    education := education resume_data;
    projects := projects resume_data;
    certifications := certifications resume_data;
    raw_sections := raw_sections resume_data;
    full_text := optimized_text ^^ " " ^^ original_text;
    years_experience := years_experience resume_data |} in
  let post_ats := Ats.calculate_ats_score temp_data jd_analysis in
  (* 7. the keyword diff *)
  let kw_diff :=
    compute_keyword_diff original_text optimized_text
      (technical_skills jd_analysis ++ keywords jd_analysis) in
  ({| optimized := optimized_data;
      ats_before := total pre_ats;
      ats_after := total post_ats;
      ats_grade := grade post_ats;
      ats_breakdown := breakdown post_ats;
      keywords_added := added kw_diff;
      keywords_existing := already_had kw_diff;
      jd_analysis_out := jd_analysis |}, g).

End Orchestrator.

End Optimizer.

(** ** The job-description analyzer ([jd_analyzer.py]) *)

Module JdAnalyzer.

Import Re.

(** [EXPERIENCE_LEVELS], in the order of the source. *)
Definition EXPERIENCE_LEVELS : list (string * list string) := [
  ("entry", ["entry level"; "entry-level"; "junior"; "0-1 year"; "0-2 year";
             "fresh graduate"; "recent graduate"; "new grad"; "trainee"; "intern"]);
  ("mid", ["mid level"; "mid-level"; "2-4 year"; "2-5 year"; "3-5 year";
           "associate"; "intermediate"]);
  ("senior", ["senior"; "sr."; "lead"; "5+ year"; "5-7 year"; "7+ year";
              "principal"; "staff"; "expert"; "advanced"]);
  ("executive", ["director"; "vp"; "vice president"; "cto"; "ceo"; "head of";
                 "chief"; "executive"; "c-level"; "manager"])
].

(** The kinds of year pattern. *)
Inductive ptype := range | plus | min | atleast.

(** The four year patterns. *)

(* (\d+)\+?\s*(?:to|-)\s*(\d+)\s*years? *)
Definition range_pattern : regex :=
  seq_of [Group digits1; Opt (Lit false "+"); sp0;
          Alt (Lit false "to") (Lit false "-"); sp0; Group digits1; sp0;
          Lit false "year"; Opt (Lit false "s")].

(* (\d+)\+\s*years? *)
Definition plus_pattern : regex :=
  seq_of [Group digits1; Lit false "+"; sp0; Lit false "year";
          Opt (Lit false "s")].

(* minimum\s+(\d+)\s+years? *)
Definition min_pattern : regex :=
  seq_of [Lit false "minimum"; sp1; Group digits1; sp1; Lit false "year";
          Opt (Lit false "s")].

(* at\s+least\s+(\d+)\s+years? *)
Definition atleast_pattern : regex :=
  seq_of [Lit false "at"; sp1; Lit false "least"; sp1; Group digits1; sp1;
          Lit false "year"; Opt (Lit false "s")].

(** [year_patterns], in the order of the source. *)
Definition year_patterns : list (regex * ptype) :=
  [(range_pattern, range); (plus_pattern, plus); (min_pattern, min);
   (atleast_pattern, atleast)].

(** The value of a string of decimal digits; [None] on any other
    character. *)
Fixpoint digits_value (acc : Z) (s : string) : option Z :=
  match s with
  | EmptyString => Some acc
  | String c t =>
      if Str.is_digit c
      then digits_value (10 * acc + (Z.of_N (Str.code c) - 48)) t
      else None
  end.

(** The limit of CPython on the digits of a string that [int] converts
    ([sys.int_info.default_max_str_digits]); leading zeros count. *)
Definition max_str_digits : nat := 4300.

(** [int(s)] on a string of decimal digits; [None] where it raises
    ValueError: on the empty string, on a character that is not a digit
    and on more digits than the limit; signs, blanks and underscores are
    left aside. *)
Definition py_int (s : string) : option Z :=
  match s with
  | EmptyString => None
  | String _ _ =>
      if (max_str_digits <? Str.len s)%nat then None else digits_value 0 s
  end.

(** The group that holds the year count. *)
Definition years_of (kind : ptype) (m : list string) : option Z :=
  match kind with
  | range => py_int (group 2 m)
  | plus | min | atleast => py_int (group 1 m)
  end.

(** The thresholds. *)
Definition level_of_years (years : Z) : string :=
  if years <=? 2 then "junior"
  else if years <=? 5 then "mid-level"
  else if years <=? 8 then "senior"
  else "staff/principal".

(** The first pattern of the list that is found in the text. *)
Fixpoint first_year_match (patterns : list (regex * ptype)) (text_lower : string)
  : option (ptype * list string) :=
  match patterns with
  | [] => None
  | (pattern, kind) :: rest =>
      match search pattern text_lower with
      | Some m => Some (kind, m)
      | None => first_year_match rest text_lower
      end
  end.

(** [level_map.get(level, "mid-level")] *)
Definition level_map (level : string) : string :=
  if String.eqb level "entry" then "junior"
  else if String.eqb level "mid" then "mid-level"
  else if String.eqb level "senior" then "senior"
  else if String.eqb level "executive" then "executive/director"
  else "mid-level".

(** The keyword-based level: the first level of the table one of whose
    keywords is in the text. *)
Fixpoint keyword_level (levels : list (string * list string)) (text_lower : string)
  : string :=
  match levels with
  | [] => "mid-level"
  | (level, keywords) :: rest =>
      if Str.any_in keywords text_lower then level_map level
      else keyword_level rest text_lower
  end.

(** [extract_experience_level]; [None] is the ValueError of [int]. *)
Definition extract_experience_level (text : string) : option string :=
  let text_lower := Str.lower text in
  match first_year_match year_patterns text_lower with
  | Some (kind, m) =>
      match years_of kind m with
      | Some years => Some (level_of_years years)
      | None => None
      end
  | None => Some (keyword_level EXPERIENCE_LEVELS text_lower)
  end.

(** [re.search(r'\b' + re.escape(w) + r'\b', text)] *)
Definition whole_word (w text : string) : bool :=
  match search (seq_of [WordB; Lit false w; WordB]) text with
  | Some _ => true
  | None => false
  end.

(** [extract_skills_from_text], over a taxonomy. *)
Fixpoint extract_skills_in (db : list (string * list string)) (text_lower : string)
  : list (string * list string) :=
  match db with
  | [] => []
  | (category, skills) :: rest =>
      let matched :=
        List.filter (fun skill => whole_word (Str.lower skill) text_lower) skills in
      match matched with
      | [] => extract_skills_in rest text_lower
      | _ => (category, matched) :: extract_skills_in rest text_lower
      end
  end.

Definition extract_skills_from_text (text : string) : list (string * list string) :=
  extract_skills_in SkillsDb.SKILLS_DB (Str.lower text).

(** [extract_soft_skills] *)
Definition extract_soft_skills (text : string) : list string :=
  let soft_skills := SkillsDb.lookup_list "soft_skills" SkillsDb.SKILLS_DB in
  let text_lower := Str.lower text in
  List.filter (fun skill => whole_word skill text_lower) soft_skills.

(** The table of [detect_industry_domain]. *)
Definition domain_keywords : list (string * list string) := [
  ("Software Engineering",
   ["software engineer"; "software developer"; "backend"; "frontend";
    "full stack"; "fullstack"; "web developer"; "api"; "microservices"]);
  ("Data Science/ML",
   ["data scientist"; "machine learning"; "deep learning"; "ml engineer";
    "ai engineer"; "data engineer"; "analytics"]);
  ("DevOps/Cloud",
   ["devops"; "cloud"; "infrastructure"; "kubernetes"; "ci/cd";
    "site reliability"; "sre"; "platform engineer"]);
  ("Product Management",
   ["product manager"; "product owner"; "roadmap"; "go-to-market";
    "stakeholder"; "product strategy"]);
  ("Cybersecurity",
   ["security"; "cybersecurity"; "penetration"; "compliance"; "soc"; "siem"]);
  ("Finance/Fintech",
   ["financial"; "banking"; "fintech"; "trading"; "risk"; "compliance"]);
  ("Design/UX",
   ["ux"; "ui"; "design"; "figma"; "user research"; "product design"]);
  ("Marketing",
   ["marketing"; "seo"; "growth"; "campaigns"; "analytics"; "brand"]);
  ("Data Engineering",
   ["data pipeline"; "etl"; "data warehouse"; "spark"; "airflow"; "kafka"])
].

(** The counter of hits: the domains that have one, in table order. *)
Definition domain_hits (table : list (string * list string)) (text_lower : string)
  : list (string * nat) :=
  List.filter (fun '(_, n) => (0 <? n)%nat)
    (map (fun '(d, kws) =>
            (d, length (List.filter (fun kw => Str.contains kw text_lower) kws)))
       table).

(** [scores.most_common(1)[0][0]]: the first entry with the highest
    count. *)
Fixpoint most_common (best : string * nat) (entries : list (string * nat)) : string :=
  match entries with
  | [] => fst best
  | e :: rest =>
      if (snd best <? snd e)%nat then most_common e rest else most_common best rest
  end.

Definition detect_industry_domain (text : string) : string :=
  match domain_hits domain_keywords (Str.lower text) with
  | [] => "Technology"
  | e :: rest => most_common e rest
  end.

(** A pattern text in which [.] stands for any character of the class
    [d] and everything else for itself, case ignored. *)
Fixpoint wild (d : ascii -> bool) (s : string) : regex :=
  match s with
  | EmptyString => Eps
  | String c t =>
      Seq (if Ascii.eqb c "." then Cls d else Lit true (String c EmptyString))
          (wild d t)
  end.

Fixpoint alts (rs : list regex) : regex :=
  match rs with
  | [] => Eps
  | [r] => r
  | r :: rest => Alt r (alts rest)
  end.

Definition newline : string := String "010" EmptyString.

Definition is_letter (c : ascii) : bool := Str.is_upper c || Str.is_lower c.

(** [(.*?)(?=\n[A-Z]|\Z)] under re.DOTALL and re.IGNORECASE. *)
Definition section_body : list regex :=
  [Group (Rep false 0 any);
   Ahead (Alt (Seq (Lit true newline) (Cls is_letter)) Eos)].

Definition resp_pattern : regex :=
  seq_of (alts (map (wild any)
            ["responsibilities"; "what you.ll do"; "role responsibilities";
             "key responsibilities"; "duties"; "your role"; "job duties";
             "what we.re looking for you to do"]) :: section_body).

Definition req_pattern : regex :=
  seq_of (alts (map (wild any)
            ["requirements"; "qualifications"; "what you.ll need"; "what we need";
             "skills required"; "required skills"; "minimum qualifications";
             "you have"]) :: section_body).

(** [m.group(1).strip()[:2000]] of the first match, the empty string
    when there is none. *)
Definition section_text (pattern : regex) (text_lower : string) : string :=
  match search pattern text_lower with
  | Some m => Str.prefix 2000 (Str.strip (group 1 m))
  | None => EmptyString
  end.

Definition extract_requirements_sections (text : string) : jd_sections :=
  let text_lower := Str.lower text in
  {| responsibilities := section_text resp_pattern text_lower;
     requirements := section_text req_pattern text_lower;
     nice_to_have := EmptyString;
     about_company := EmptyString |}.

(** [title_patterns], under re.IGNORECASE and re.MULTILINE. *)
Definition title_patterns : list regex := [
  (* (?:we.re looking for|hiring a|seeking a|position:?|role:?|job title:?)\s*([^\n,\.]+) *)
  seq_of [alts [wild dot "we.re looking for"; Lit true "hiring a";
                Lit true "seeking a";
                Seq (Lit true "position") (Opt (Lit true ":"));
                Seq (Lit true "role") (Opt (Lit true ":"));
                Seq (Lit true "job title") (Opt (Lit true ":"))];
          sp0;
          Group (Rep true 1 (fun c => negb (Ascii.eqb c "010" || Ascii.eqb c ","
                                            || Ascii.eqb c ".")))];
  (* ^([A-Z][a-zA-Z\s]+(?:engineer|developer|manager|analyst|designer|scientist|architect)) *)
  seq_of [Bol;
          Group (seq_of [Cls is_letter;
                         Rep true 1 (fun c => is_letter c || Str.is_space c);
                         one_of true ["engineer"; "developer"; "manager"; "analyst";
                                      "designer"; "scientist"; "architect"]])]
].

(** The loop over [title_patterns]: the first pattern that is found
    gives the title. *)
Fixpoint first_title (patterns : list regex) (jd_text : string) : string :=
  match patterns with
  | [] => EmptyString
  | pattern :: rest =>
      match search pattern jd_text with
      | Some m => Str.prefix 60 (Str.strip (group 1 m))
      | None => first_title rest jd_text
      end
  end.

(** [s.split('\n')[0]] *)
Fixpoint first_line (s : string) : string :=
  match s with
  | EmptyString => EmptyString
  | String c t => if Ascii.eqb c "010" then EmptyString else String c (first_line t)
  end.

Definition extract_job_title (jd_text : string) : string :=
  let job_title := first_title title_patterns jd_text in
  if Str.truthy job_title then job_title
  else
    let line := first_line (Str.strip jd_text) in
    if (Str.len line <? 80)%nat then Str.strip line else job_title.

(** [s.capitalize()] *)
Definition capitalize (s : string) : string :=
  match s with
  | EmptyString => EmptyString
  | String c t => String (Str.upper_char c) (Str.lower t)
  end.

(** The additional verbs of [extract_action_verbs]. *)
Definition jd_verbs : list string :=
  ["design"; "develop"; "build"; "create"; "implement"; "deploy"; "manage";
   "lead"; "collaborate"; "analyze"; "optimize"; "maintain"; "architect";
   "establish"; "drive"; "deliver"; "scale"; "improve"; "integrate";
   "automate"; "monitor"; "troubleshoot"; "review"].

(** What [analyze_jd] returns: the empty mapping, a profile, or an
    exception. *)
Inductive analysis :=
| EmptyMapping
| Profile (p : jd_profile)
| Raised.

Section Analyzer.

(** [list(set(xs))]: the order in which a set built from [xs] is iterated
    depends on the hashes of the strings; it is left open. *)
Variable set_order : list string -> list string.

(** [extract_top_keywords] ranks the words by a weight that goes through
    [math.log]; the ranking is left open. *)
Variable extract_top_keywords : string -> nat -> list string.

Definition extract_action_verbs (text : string) : list string :=
  let all_verbs :=
    concat (map (fun '(_, verbs) => map Str.lower verbs) SkillsDb.STRONG_VERBS)
    ++ jd_verbs in
  let text_lower := Str.lower text in
  let found :=
    map capitalize
      (List.filter (fun verb => whole_word verb text_lower) (set_order all_verbs)) in
  take 20 (set_order found).

Definition analyze_jd (jd_text : string) : analysis :=
  if negb (Str.truthy jd_text) || (Str.len (Str.strip jd_text) <? 50)%nat
  then EmptyMapping
  else
    let skills := extract_skills_from_text jd_text in
    match extract_experience_level jd_text with
    | None => Raised
    | Some experience_level =>
        let action_verbs := extract_action_verbs jd_text in
        let keywords := extract_top_keywords jd_text 25 in
        let soft_skills := extract_soft_skills jd_text in
        let domain := detect_industry_domain jd_text in
        let sections := extract_requirements_sections jd_text in
        let all_tech_skills :=
          concat (map snd
                    (List.filter
                       (fun '(cat, _) => negb (String.eqb cat "soft_skills"))
                       skills)) in
        let job_title := extract_job_title jd_text in
        Profile {|
          job_title := job_title;
          domain := domain;
          experience_level := experience_level;
          technical_skills := take 30 (set_order all_tech_skills);
          soft_skills := take 10 soft_skills;
          keywords := keywords;
          action_verbs := action_verbs;
          skills_by_category := skills;
          sections := sections;
          raw_text := jd_text |}
    end.

End Analyzer.

End JdAnalyzer.

(** ** The summary writer ([rewrite_summary])

    The orchestrator above takes the summary writer as a parameter; this
    is the writer of the source, for the properties of the summary
    itself.  The résumé has its [years_experience] and the profile has
    every key, as [analyze_jd] builds it. *)

Module Summary.

Import Re.

(** [s.upper()] *)
Fixpoint upper (s : string) : string :=
  match s with
  | EmptyString => EmptyString
  | String c t => String (Str.upper_char c) (upper t)
  end.

(** [s.title()]: a letter that follows a letter is made small, any other
    letter is made a capital. *)
Fixpoint title_from (previous_is_cased : bool) (s : string) : string :=
  match s with
  | EmptyString => EmptyString
  | String c t =>
      String (if previous_is_cased then Str.lower_char c else Str.upper_char c)
             (title_from (JdAnalyzer.is_letter c) t)
  end.

Definition title (s : string) : string := title_from false s.

(** [s.rstrip('.')] *)
Fixpoint rstrip_dots (s : string) : string :=
  match s with
  | EmptyString => EmptyString
  | String c t =>
      match rstrip_dots t with
      | EmptyString => if Ascii.eqb c "." then EmptyString else String c EmptyString
      | t' => String c t'
      end
  end.

(** [str(n)] for an [int] that is not negative. *)
Definition decimal (n : nat) : string :=
  DecimalString.NilEmpty.string_of_uint (Nat.to_uint n).

(** [random.choice(xs)] for a list of any type. *)
Definition choose {A : Type} (default : A) (xs : list A) (g : rng) : A * rng :=
  match g with
  | [] => (nth 0 xs default, [])
  | r :: g' => (nth (r mod length xs) xs default, g')
  end.

(** [s.lower() in resume_text or s.lower() in ' '.join(resume_skills_lower)] *)
Definition in_resume (resume_data : resume) (s : string) : bool :=
  let resume_text := Str.lower (full_text resume_data) in
  let resume_skills_lower := map Str.lower (skills resume_data) in
  Str.contains (Str.lower s) resume_text
  || Str.contains (Str.lower s) (Str.join " " resume_skills_lower).

(** The skills that the summary names: the technical skills of the
    profile that the résumé has, five at most, and the first three of the
    profile when it has none of them. *)
Definition matching_tech_skills (resume_data : resume) (jd_analysis : jd_profile)
  : list string :=
  let tech_skills := technical_skills jd_analysis in
  let matching := take 5 (List.filter (in_resume resume_data) tech_skills) in
  match matching with
  | [] => match tech_skills with [] => [] | _ :: _ => take 3 tech_skills end
  | _ :: _ => matching
  end.

(** The capitalisation of a skill that the résumé does not spell. *)
Definition proper_case (ts : string) : string :=
  if Str.mem (Str.lower ts) ["python"; "react"; "docker"; "kubernetes"; "ansible"]
  then JdAnalyzer.capitalize ts
  else if Str.mem (Str.lower ts)
            ["aws"; "api"; "sql"; "html"; "css"; "git"; "ci/cd"; "gcp"]
  then upper ts
  else if Str.mem (Str.lower ts) ["javascript"; "typescript"]
  then JdAnalyzer.capitalize ts
  else if (4 <? Str.len ts)%nat then title ts else upper ts.

(** One round of the loop that fills [matching_display]. *)
Definition display_of (resume_skills_list : list string) (ts : string) : string :=
  match List.find (fun s => String.eqb (Str.lower s) (Str.lower ts))
          resume_skills_list with
  | Some found_original =>
      if Str.truthy found_original then found_original else proper_case ts
  | None => proper_case ts
  end.

(** [skills_str] *)
Definition skills_str (domain : string) (matching_display : list string) : string :=
  match matching_display with
  | [] => domain
  | [only] => only
  | _ :: _ :: _ =>
      Str.join ", " (removelast matching_display)
      ^^ ", and " ^^ List.last matching_display EmptyString
  end.

(** [exp_phrase_map], in the order of the source. *)
Definition exp_phrase_map (years_exp : nat) : list (string * string) := [
  ("junior",
   "with " ^^ decimal (Nat.max years_exp 1) ^^ "+ year"
   ^^ (if (years_exp =? 1)%nat then "" else "s") ^^ " of hands-on experience");
  ("mid-level",
   "with " ^^ decimal (Nat.max years_exp 2) ^^ "+ years of professional experience");
  ("senior",
   "with " ^^ decimal (Nat.max years_exp 4) ^^ "+ years of deep technical expertise");
  ("staff/principal",
   "with " ^^ decimal (Nat.max years_exp 6)
   ^^ "+ years of industry-leading expertise");
  ("executive/director",
   "with " ^^ decimal (Nat.max years_exp 8)
   ^^ "+ years of strategic leadership experience")
].

(** [d.get(key, default)] for a mapping to texts. *)
Fixpoint get (key default : string) (d : list (string * string)) : string :=
  match d with
  | [] => default
  | (k, v) :: rest => if String.eqb key k then v else get key default rest
  end.

Definition exp_phrase (experience_level : string) (years_exp : nat) : string :=
  get experience_level
    ("with " ^^ decimal (Nat.max years_exp 2) ^^ "+ years of professional experience")
    (exp_phrase_map years_exp).

(** [\d+%|\$[\d,]+|\d+x|\b\d{2,}\b], under re.IGNORECASE. *)
Definition metric_pattern : regex :=
  Alt (Seq digits1 (Lit true "%"))
    (Alt (Seq (Lit true "$")
              (Rep true 1 (fun c => Str.is_digit c || Ascii.eqb c ",")))
       (Alt (Seq digits1 (Lit true "x"))
            (seq_of [WordB; Rep true 2 Str.is_digit; WordB]))).

(** The inner loop over the bullets of one entry. *)
Fixpoint first_metric_bullet (bullets : list string) : string :=
  match bullets with
  | [] => EmptyString
  | bullet :: rest =>
      match search metric_pattern bullet with
      | Some _ => Str.prefix 120 bullet
      | None => first_metric_bullet rest
      end
  end.

(** The outer loop over the entries. *)
Fixpoint best_achievement_of (entries : list experience_entry) : string :=
  match entries with
  | [] => EmptyString
  | entry :: rest =>
      let best_achievement := first_metric_bullet (bullets entry) in
      if Str.truthy best_achievement then best_achievement
      else best_achievement_of rest
  end.

(** A template, as a function of what [format] is given. *)
Definition template : Type := string -> string -> string -> string -> string.

Definition software_templates : list template := [
  (fun soft domain exp skills =>
     soft ^^ " software engineer " ^^ exp ^^ " specializing in " ^^ skills
     ^^ ". Proven track record of designing and delivering scalable, high-performance systems that align with business objectives. Expertise in full-stack development, cross-functional collaboration, and engineering best practices.");
  (fun soft domain exp skills =>
     "Accomplished " ^^ domain ^^ " professional " ^^ exp ^^ " in " ^^ skills
     ^^ ". Demonstrated ability to architect and implement robust solutions across the SDLC, from requirements gathering to production deployment. Recognized for clean code practices, proactive problem-solving, and delivering measurable impact in agile environments.")
].

Definition data_templates : list template := [
  (fun soft domain exp skills =>
     soft ^^ " data professional " ^^ exp ^^ " specializing in " ^^ skills
     ^^ ". Proven ability to transform complex datasets into actionable insights and production-ready machine learning models. Experienced in building data pipelines, statistical modeling, and A/B testing.")
].

Definition devops_templates : list template := [
  (fun soft domain exp skills =>
     soft ^^ " DevOps/Cloud engineer " ^^ exp ^^ " with expertise in " ^^ skills
     ^^ ". Proven record of building and maintaining reliable, scalable infrastructure using infrastructure-as-code and CI/CD best practices. Committed to improving deployment velocity and system observability.")
].

(** [domain_templates.get(domain, domain_templates["Software Engineering"])] *)
Definition templates_of (domain : string) : list template :=
  if String.eqb domain "Software Engineering" then software_templates
  else if String.eqb domain "Data Science/ML" then data_templates
  else if String.eqb domain "DevOps/Cloud" then devops_templates
  else software_templates.

(** The end of [rewrite_summary]: the achievement is appended when it has
    a digit once trimmed. *)
Definition with_achievement (summary best_achievement : string) : string :=
  if Str.truthy best_achievement then
    let clean_achievement := rstrip_dots (Str.strip best_achievement) in
    match search digits1 clean_achievement with
    | Some _ =>
        rstrip_dots summary ^^ ". Notable achievement: " ^^ clean_achievement ^^ "."
    | None => summary
    end
  else summary.

Definition rewrite_summary (resume_data : resume) (jd_analysis : jd_profile)
  (g : rng) : string * rng :=
  let years_exp := years_experience resume_data in
  let domain := domain jd_analysis in
  let experience_level := experience_level jd_analysis in
  let soft_skills := soft_skills jd_analysis in
  let resume_skills_list := skills resume_data in
  let matching_tech_skills := matching_tech_skills resume_data jd_analysis in
  let matching_display := map (display_of resume_skills_list) matching_tech_skills in
  let skills_str := skills_str domain matching_display in
  let exp_phrase := exp_phrase experience_level years_exp in
  let best_achievement := best_achievement_of (experience resume_data) in
  let selected_soft :=
    match soft_skills with
    | first :: _ => JdAnalyzer.capitalize first
    | [] => "Results-driven"
    end in
  let templates := templates_of domain in
  let '(template, g) := choose (fun _ _ _ _ => EmptyString) templates g in
  let summary := template selected_soft domain exp_phrase skills_str in
  let summary := with_achievement summary best_achievement in
  (Str.strip summary, g).

End Summary.

(** ** The formulas of the specification

    The quantities that the specification names, written from its words;
    the properties below compare them with what the code computes. *)

Module Spec.

(** The share of a category as the specification words it: the floor of
    [matched / all * cap]. *)
Definition floor_share (matched all cap : nat) : Z :=
  (Z.of_nat matched * Z.of_nat cap) / Z.of_nat all.

(** The binary64 computation against the floor, for every list of up to
    [bound] entries and every number of matches: [int] returns, and it
    returns the floor. *)
Definition agree (cap bound : nat) : bool :=
  forallb (fun all =>
             forallb (fun matched =>
                        match Float64.to_int (Ats.ratio_float matched all cap) with
                        | Some z => Z.eqb z (floor_share matched all cap)
                        | None => false
                        end)
               (seq 0 (S all)))
    (seq 1 bound).

(** The number of entries of a JD-side list that are found, lowercased,
    in the lowercased full text. *)
Definition matched_count (R : resume) (jd : list string) : nat :=
  length (List.filter
            (fun s => Str.contains (Str.lower s) (Str.lower (full_text R))) jd).

(** What the specification says of one category: no entry when the
    JD-side list is empty, the floor share out of [cap] otherwise. *)
Definition category_ok (R : resume) (jd : list string) (cap : nat)
  (entry : option category_entry) : Prop :=
  match jd with
  | [] => entry = None
  | _ :: _ =>
      exists e, entry = Some e
                /\ ce_score e = floor_share (matched_count R jd) (length jd) cap
                /\ ce_max e = Z.of_nat cap
  end.

(** The points that a category adds to the score. *)
Definition share (R : resume) (jd : list string) (cap : nat) : Z :=
  match jd with
  | [] => 0
  | _ :: _ => floor_share (matched_count R jd) (length jd) cap
  end.

(** The bullets of an entry that are not blank, in their order. *)
Definition kept_bullets (bs : list string) : list string :=
  List.filter (fun b => negb (Str.blank b)) bs.

(** An output bullet is the enhancement of an input bullet, at some state
    of the run. *)
Definition enhanced_from (J : jd_profile) (b b' : string) : Prop :=
  exists (used : list string) (g : rng),
    b' = fst (fst (Optimizer.enhance_bullet b (take 10 (keywords J))
                     (take 12 (technical_skills J)) used g)).

(** An output entry is its input entry with one enhanced bullet for each
    kept bullet, in the same order, and nothing else changed. *)
Definition entry_preserved (J : jd_profile) (e e' : experience_entry) : Prop :=
  e' = Optimizer.with_bullets e (bullets e')
  /\ length (bullets e') = length (kept_bullets (bullets e))
  /\ Forall2 (enhanced_from J) (kept_bullets (bullets e)) (bullets e').

(** One call of the enhancer on [bullet], from the list [used] of the
    keywords that earlier bullets received to the list [used'] after it,
    with the text [text] that it returns, [rewritten] being the bullet
    after the verb rewriting.  Nothing is inserted, and the text is the
    bullet as it came or the rewritten bullet, capitalised; or exactly
    one keyword is inserted, a skill of the list that no bullet has
    received before. *)
Definition at_most_one_insertion (jd_skills used : list string)
  (bullet rewritten text : string) (used' : list string) : Prop :=
  (used' = used /\ (text = bullet \/ text = Str.upper_first rewritten))
  \/ (exists k, In k jd_skills /\ ~ In k used /\ used' = used ++ [k]
                /\ Insertion.insert_keyword_naturally rewritten k <> rewritten
                /\ text = Str.upper_first
                            (Insertion.insert_keyword_naturally rewritten k)).

(** What a bullet has received when it comes out as [text]: nothing,
    and the text is the bullet as it came or the rewritten bullet,
    capitalised; or one keyword of the list, and the text is the
    rewritten bullet with the keyword inserted, capitalised. *)
Definition received (jd_skills : list string) (bullet text : string)
  (event : option string) : Prop :=
  exists g : rng,
    let rewritten := fst (Rewriter.replace_weak_verb bullet g) in
    match event with
    | None => text = bullet \/ text = Str.upper_first rewritten
    | Some k =>
        In k jd_skills
        /\ Insertion.insert_keyword_naturally rewritten k <> rewritten
        /\ text = Str.upper_first (Insertion.insert_keyword_naturally rewritten k)
    end.

(** The keywords that a list of bullets has received, in the order of
    the bullets. *)
Fixpoint inserted (events : list (option string)) : list string :=
  match events with
  | [] => []
  | Some k :: rest => k :: inserted rest
  | None :: rest => inserted rest
  end.

(** The bullets of an experience that are not blank, entry after entry. *)
Definition all_kept (E : list experience_entry) : list string :=
  concat (map (fun e => kept_bullets (bullets e)) E).

(** The bullets of an experience, entry after entry. *)
Definition all_bullets (E : list experience_entry) : list string :=
  concat (map bullets E).

(** A skill belongs to a category of the taxonomy, whatever its case. *)
Definition in_category (db : list (string * list string)) (category skill : string)
  : Prop :=
  exists category_skills,
    In (category, category_skills) db
    /\ Optimizer.in_domain skill category_skills = true.

(** The year count as the specification describes it: the four patterns
    in their order, the first that is found giving the count, the upper
    bound for a range.  [None] when no pattern is found; the count is
    [None] where [int] would raise. *)
Definition year_count (text_lower : string) : option (option Z) :=
  match Re.search JdAnalyzer.range_pattern text_lower with
  | Some m => Some (JdAnalyzer.py_int (Re.group 2 m))
  | None =>
  match Re.search JdAnalyzer.plus_pattern text_lower with
  | Some m => Some (JdAnalyzer.py_int (Re.group 1 m))
  | None =>
  match Re.search JdAnalyzer.min_pattern text_lower with
  | Some m => Some (JdAnalyzer.py_int (Re.group 1 m))
  | None =>
  match Re.search JdAnalyzer.atleast_pattern text_lower with
  | Some m => Some (JdAnalyzer.py_int (Re.group 1 m))
  | None => None
  end end end end.

(** The digits of the year count, as a text: the four patterns in their
    order, the first that is found giving the digits, those of the upper
    bound for a range.  [None] when no pattern is found. *)
Definition year_digits (text_lower : string) : option string :=
  match Re.search JdAnalyzer.range_pattern text_lower with
  | Some m => Some (Re.group 2 m)
  | None =>
  match Re.search JdAnalyzer.plus_pattern text_lower with
  | Some m => Some (Re.group 1 m)
  | None =>
  match Re.search JdAnalyzer.min_pattern text_lower with
  | Some m => Some (Re.group 1 m)
  | None =>
  match Re.search JdAnalyzer.atleast_pattern text_lower with
  | Some m => Some (Re.group 1 m)
  | None => None
  end end end end.

(** The thresholds of the specification. *)
Definition level_table (years : Z) (level : string) : Prop :=
  (years <= 2 /\ level = "junior")
  \/ (2 < years <= 5 /\ level = "mid-level")
  \/ (5 < years <= 8 /\ level = "senior")
  \/ (8 < years /\ level = "staff/principal").

(** No decimal digit occurs in the text. *)
Definition digit_free (s : string) : bool :=
  Re.all_chars (fun c => negb (Str.is_digit c)) s.

(** The phrase of the scenario. *)
Definition five_to_seven : string := "5-7 years of experience required".

End Spec.

(** ** Sample inputs *)

Module Samples.

(** A résumé with three of the four sections and an e-mail address. *)
Definition resume_1 : resume := {|
  name := "Ada Martin";
  contact_email := "ada@example.org";
  summary := "Backend engineer";
  skills := ["Python"; "Docker"];
  experience := [
    {| company := "Acme"; role := "Engineer"; dates := "2019-2023";
       location := "Lyon";
       bullets := ["Built the billing API"; "   ";
                   "Worked on the login API development";
                   "Deployed the service to production."];
       raw := "" |}];
  experience_raw := "";
  education := "BSc";
  projects := "";
  certifications := "";
  raw_sections := {["experience" := "Acme"; "skills" := "Python, Docker";
                    "education" := "BSc"]};
  full_text := "Ada Martin Backend engineer Python Docker Built the billing API";
  years_experience := 4
|}.

(** A profile with three skills, two keywords and no soft skill. *)
Definition profile_1 : jd_profile := {|
  job_title := "Backend Engineer";
  domain := "Software Engineering";
  experience_level := "senior";
  technical_skills := ["python"; "java"; "kubernetes"];
  soft_skills := [];
  keywords := ["billing"; "payments"];
  action_verbs := [];
  skills_by_category := [];
  sections := {| responsibilities := ""; requirements := "";
                 nice_to_have := ""; about_company := "" |};
  raw_text := ""
|}.

(** A summary writer to run the orchestrator with. *)
Definition plain_summary (R : resume) (J : jd_profile) (g : rng) : string * rng :=
  (summary R, g).

(** A bullet of 190 characters that no rule rewrites and that starts
    with a small letter. *)
Definition long_bullet : string :=
  "implemented a distributed event processing platform that ingests telemetry from thousands of devices, normalises every record and stores the result for the analytics team to query each morning".

(** [c * n] *)
Fixpoint copies (n : nat) (c : ascii) : string :=
  match n with
  | O => EmptyString
  | S n' => String c (copies n' c)
  end.

(** A text whose year count has 4301 digits. *)
Definition long_count : string := "1-" ^^ copies 4301 "9" ^^ " years".

(** A text with two year ranges, the wanted one second. *)
Definition two_ranges : string :=
  "Junior track: 1-2 years of scripting. Senior track: 5-7 years of experience required.".

(** A résumé with the four sections and an e-mail address: the format
    score is 15. *)
Definition resume_2 : resume := {|
  name := "Lin Okafor";
  contact_email := "lin@example.org";
  summary := "Data engineer";
  skills := ["Python"];
  experience := [];
  experience_raw := "";
  education := "MSc";
  projects := "";
  certifications := "";
  raw_sections := {["experience" := "x"; "skills" := "Python";
                    "education" := "MSc"; "summary" := "Data engineer"]};
  full_text := "Lin Okafor Data engineer Python billing";
  years_experience := 6
|}.

(** A profile with the given technical skills and keywords and nothing
    else. *)
Definition profile_of (tech kws : list string) : jd_profile := {|
  job_title := ""; domain := ""; experience_level := "";
  technical_skills := tech; soft_skills := []; keywords := kws;
  action_verbs := []; skills_by_category := [];
  sections := {| responsibilities := ""; requirements := "";
                 nice_to_have := ""; about_company := "" |};
  raw_text := ""
|}.

(** A bullet that spans two lines, with a space after the period. *)
Definition two_line_bullet : string :=
  "Worked on the login API. " ^^ String "010" "more".

End Samples.

(** ** Notions for the further properties *)

Module Derived.

Import Insertion.

(** The four ways in which a keyword is attached. *)
Definition leads : list string := [", leveraging "; " with "; " on "; " using "].

(** The keyword families that have a gate of their own. *)
Definition gated_kws : list string :=
  infra_kws ++ cicd_kws ++ db_kws ++ frontend_kws ++ backend_kws
  ++ map fst lang_kws.

(** The number of bullets of an experience that are not blank. *)
Definition kept_count (E : list experience_entry) : nat :=
  length (concat (map (fun e => Spec.kept_bullets (bullets e)) E)).

(** The number of keywords of a list that occur in a text. *)
Definition hits (kws : list string) (text_lower : string) : nat :=
  length (List.filter (fun kw => Str.contains kw text_lower) kws).

(** The five levels that the analysis can name. *)
Definition level_names : list string :=
  ["junior"; "mid-level"; "senior"; "staff/principal"; "executive/director"].

(** The keywords of all the levels of [EXPERIENCE_LEVELS]. *)
Definition level_keywords : list string :=
  concat (map snd JdAnalyzer.EXPERIENCE_LEVELS).

(** The sample résumé with text before and after its full text. *)
Definition resume_1_more : resume := {|
  name := name Samples.resume_1;
  contact_email := contact_email Samples.resume_1;
  summary := summary Samples.resume_1;
  skills := skills Samples.resume_1;
  experience := experience Samples.resume_1;
  experience_raw := experience_raw Samples.resume_1;
  education := education Samples.resume_1;
  projects := projects Samples.resume_1;
  certifications := certifications Samples.resume_1;
  raw_sections := raw_sections Samples.resume_1;
  full_text := "Curriculum: " ^^ full_text Samples.resume_1 ^^ " Java and payments";
  years_experience := years_experience Samples.resume_1
|}.

(** The entry of the technical skills in the report on the sample
    résumé and the sample profile. *)
Definition technical_entry_1 : category_entry := {|
  ce_score := 13;
  ce_max := 40;
  ce_matched := ["python"];
  ce_missing := Some ["java"; "kubernetes"]
|}.

(** A sentence of a job description that names skills. *)
Definition skills_sentence : string := "We use Python, C++ and React.js daily".

(** A sentence of a job description that names soft skills. *)
Definition soft_sentence : string :=
  "Strong Leadership and teamwork; good communications".

(** A text is a part of another: some text before it and some after it
    give the other. *)
Definition part (x s : string) : Prop := exists a b, s = a ^^ x ^^ b.

(** A sentence of a job description that names what is to be done. *)
Definition verbs_sentence : string := "You will design and build payment APIs".

(** The entry of the technical skills in the report after the
    optimization of the sample résumé for the sample profile. *)
Definition technical_entry_after : category_entry := {|
  ce_score := 40;
  ce_max := 40;
  ce_matched := ["python"; "java"; "kubernetes"];
  ce_missing := Some []
|}.

(** An iteration of a set that keeps the order of the list. *)
Definition listed_order (l : list string) : list string := l.

(** A text that is not empty, is on one line, and has no whitespace
    before or after it. *)
Definition tidy (x : string) : bool :=
  match x with
  | EmptyString => false
  | String c _ => negb (Str.is_space c)
  end
  && Re.all_chars Re.dot x && String.eqb (Str.rstrip x) x.

(** The openings that a rule of [SMART_TRANSFORMS] replaces whatever
    follows them, with what the rule puts in their place. *)
Definition opening_rules : list (string * string) := [
  ("was involved in", "Contributed to");
  ("was part of", "Served as integral member of");
  ("helped with", "Enhanced");
  ("helped to", "Supported");
  ("assisted in", "Collaborated on");
  ("did", "Executed");
  ("participated in", "Actively contributed to");
  ("tried to", "Successfully")
].

(** The least number of years that the summary states for a level. *)
Definition level_floor (level : string) : nat :=
  if String.eqb level "junior" then 1
  else if String.eqb level "mid-level" then 2
  else if String.eqb level "senior" then 4
  else if String.eqb level "staff/principal" then 6
  else if String.eqb level "executive/director" then 8
  else 2.

End Derived.

(** * Properties *)

(** ** Strings *)

Lemma lower_cat (a b : string) : Str.lower (a ^^ b) = Str.lower a ^^ Str.lower b.
Proof. induction a as [|c a IH]; simpl; [reflexivity | now rewrite IH]. Qed.

Lemma len_cat (a b : string) : Str.len (a ^^ b) = (Str.len a + Str.len b)%nat.
Proof. induction a as [|c a IH]; simpl; [reflexivity | now rewrite IH]. Qed.

Lemma len_lower (s : string) : Str.len (Str.lower s) = Str.len s.
Proof. induction s as [|c s IH]; simpl; [reflexivity | now rewrite IH]. Qed.

Lemma mem_In (x : string) (xs : list string) : Str.mem x xs = true <-> In x xs.
Proof.
  unfold Str.mem. rewrite existsb_exists. split.
  - intros [y [Hy Heq]]. apply String.eqb_eq in Heq. now subst.
  - intros Hin. exists x. split; [assumption | apply String.eqb_refl].
Qed.

(** ** The ATS scorer *)

Section AtsProperties.

Import Ats Spec.

(** The shape of every report: some raw score, floored at 15, capped at
    100 for the total, graded before the cap. *)
Lemma calculate_ats_score_shape (R : resume) (J : jd_profile) :
  exists raw : Z,
    total (calculate_ats_score R J) = Z.min (Z.max raw 15) 100 /\
    grade (calculate_ats_score R J) = grade_of (Z.max raw 15).
Proof.
  unfold calculate_ats_score.
  destruct (is_empty (map Str.lower (technical_skills J)));
    destruct (is_empty (map Str.lower (keywords J)));
    destruct (is_empty (map Str.lower (soft_skills J)));
    cbn [total grade]; eexists; split; reflexivity.
Qed.

Lemma format_score_le (R : resume) : format_score R <= 15.
Proof. unfold format_score. destruct (Str.truthy (contact_email R)); lia. Qed.

(** Against the empty mapping nothing but the format is scored, and the
    floor decides: the total is 15. *)
Lemma score_on_empty_mapping (R : resume) :
  total (calculate_ats_score R empty_profile) = 15
  /\ bd_technical_skills (breakdown (calculate_ats_score R empty_profile)) = None
  /\ bd_keywords (breakdown (calculate_ats_score R empty_profile)) = None
  /\ bd_soft_skills (breakdown (calculate_ats_score R empty_profile)) = None.
Proof.
  unfold calculate_ats_score. cbn [empty_profile technical_skills keywords
    soft_skills map is_empty total breakdown bd_technical_skills bd_keywords
    bd_soft_skills].
  pose proof (format_score_le R). repeat split. lia.
Qed.

Lemma grade_of_table (s : Z) :
  (85 <= Z.min s 100 /\ grade_of s = "A") \/
  (70 <= Z.min s 100 < 85 /\ grade_of s = "B") \/
  (55 <= Z.min s 100 < 70 /\ grade_of s = "C") \/
  (Z.min s 100 < 55 /\ grade_of s = "D").
Proof.
  unfold grade_of.
  destruct (85 <=? s) eqn:H85; [left; split; [lia | reflexivity] |].
  destruct (70 <=? s) eqn:H70; [right; left; split; [lia | reflexivity] |].
  destruct (55 <=? s) eqn:H55; [right; right; left; split; [lia | reflexivity] |].
  right; right; right; split; [lia | reflexivity].
Qed.

(** C1.  The total of every ATS report lies between 15 and 100, and the
    grade is the one of the threshold table read on that total: A from
    85, B from 70 up to 84, C from 55 up to 69, D below 55. *)
Theorem C1_score_bounds_and_grade (R : resume) (J : jd_profile) :
  15 <= total (calculate_ats_score R J) <= 100 /\
  ((85 <= total (calculate_ats_score R J)
    /\ grade (calculate_ats_score R J) = "A") \/
   (70 <= total (calculate_ats_score R J) < 85
    /\ grade (calculate_ats_score R J) = "B") \/
   (55 <= total (calculate_ats_score R J) < 70
    /\ grade (calculate_ats_score R J) = "C") \/
   (total (calculate_ats_score R J) < 55
    /\ grade (calculate_ats_score R J) = "D")).
Proof.
  destruct (calculate_ats_score_shape R J) as [raw [Ht Hg]].
  rewrite Ht, Hg. split; [lia |].
  apply grade_of_table.
Qed.

Lemma agree_100 : agree 40 100 && agree 30 100 && agree 15 100 = true.
Proof. vm_compute. reflexivity. Qed.

(** On lists of up to 100 entries [int] does not raise and gives the
    floor of the exact quotient. *)
Lemma ratio_float_floor (matched all cap : nat) :
  (matched <= all)%nat -> (1 <= all <= 100)%nat ->
  cap = 40%nat \/ cap = 30%nat \/ cap = 15%nat ->
  Float64.to_int (ratio_float matched all cap)
  = Some (floor_share matched all cap).
Proof.
  intros Hm Hall Hcap.
  pose proof agree_100 as H.
  apply andb_true_iff in H as [H H15]. apply andb_true_iff in H as [H40 H30].
  assert (Hc : agree cap 100 = true)
    by (destruct Hcap as [-> | [-> | ->]]; assumption).
  unfold agree in Hc. rewrite forallb_forall in Hc.
  specialize (Hc all). rewrite forallb_forall in Hc.
  assert (Hin : In all (seq 1 100)) by (apply in_seq; lia).
  assert (Hin' : In matched (seq 0 (S all))) by (apply in_seq; lia).
  specialize (Hc Hin matched Hin').
  destruct (Float64.to_int (ratio_float matched all cap)) as [z|];
    [| discriminate].
  apply Z.eqb_eq in Hc. now subst.
Qed.

Lemma ratio_points_floor (matched all cap : nat) :
  (matched <= all)%nat -> (1 <= all <= 100)%nat ->
  cap = 40%nat \/ cap = 30%nat \/ cap = 15%nat ->
  ratio_points matched all cap = floor_share matched all cap.
Proof.
  intros Hm Hall Hcap. unfold ratio_points.
  now rewrite ratio_float_floor.
Qed.

Lemma matched_in_length (text : string) (jd : list string) :
  length (matched_in text (map Str.lower jd))
  = length (List.filter (fun s => Str.contains (Str.lower s) text) jd).
Proof.
  unfold matched_in. induction jd as [|s jd IH]; simpl; [reflexivity |].
  destruct (Str.contains (Str.lower s) text); simpl; now rewrite IH.
Qed.

Lemma matched_count_le (R : resume) (jd : list string) :
  (matched_count R jd <= length jd)%nat.
Proof. unfold matched_count. apply List.filter_length_le. Qed.

(** C5.  A category with a non-empty JD-side list scores the floor of
    [matched / all * cap], the matches being the entries found,
    case-insensitively, as substrings of the full text, with the caps 40,
    30 and 15; a category with an empty list has no breakdown entry and
    adds nothing, the other caps being kept as they are.  The lists are
    those of a JD profile: at most 100 entries each (the analyzer keeps
    30 skills, 25 keywords and 10 soft skills). *)
Theorem C5_category_scores (R : resume) (J : jd_profile) :
  (length (technical_skills J) <= 100)%nat ->
  (length (keywords J) <= 100)%nat ->
  (length (soft_skills J) <= 100)%nat ->
  category_ok R (technical_skills J) 40
    (bd_technical_skills (breakdown (calculate_ats_score R J))) /\
  category_ok R (keywords J) 30
    (bd_keywords (breakdown (calculate_ats_score R J))) /\
  category_ok R (soft_skills J) 15
    (bd_soft_skills (breakdown (calculate_ats_score R J))) /\
  total (calculate_ats_score R J)
  = Z.min (Z.max (share R (technical_skills J) 40 + share R (keywords J) 30
                  + share R (soft_skills J) 15 + format_score R) 15) 100.
Proof.
  intros Ht Hk Hs.
  assert (Hpts : forall jd cap, (length jd <= 100)%nat -> jd <> [] ->
             cap = 40%nat \/ cap = 30%nat \/ cap = 15%nat ->
             ratio_points
               (length (matched_in (Str.lower (full_text R)) (map Str.lower jd)))
               (length (map Str.lower jd)) cap
             = floor_share (matched_count R jd) (length jd) cap).
  { intros jd cap Hlen Hne Hcap. rewrite matched_in_length, length_map.
    apply ratio_points_floor; [apply matched_count_le | | assumption].
    destruct jd; [congruence | simpl in *; lia]. }
  unfold calculate_ats_score, category_ok, share.
  destruct (technical_skills J) as [|t ts] eqn:Et;
    destruct (keywords J) as [|k ks] eqn:Ek;
    destruct (soft_skills J) as [|s ss] eqn:Es;
    cbn [map is_empty total breakdown bd_technical_skills bd_keywords
         bd_soft_skills];
    repeat match goal with
      | |- context [ratio_points (length (matched_in _ (Str.lower ?x :: map Str.lower ?xs))) _ ?cap] =>
          change (Str.lower x :: map Str.lower xs) with (map Str.lower (x :: xs));
          rewrite (Hpts (x :: xs) cap) by (try assumption; try discriminate; auto)
      end;
    repeat split; try reflexivity;
    try (eexists; repeat split; reflexivity); f_equal; f_equal; lia.
Qed.

End AtsProperties.

(** ** The insertion gate *)

Section InsertionProperties.

Import Insertion.

Lemma any_in_false (ws : list string) (s : string) :
  (forall w, In w ws -> Str.contains w s = false) -> Str.any_in ws s = false.
Proof.
  intros H. unfold Str.any_in.
  destruct (existsb (fun w => Str.contains w s) ws) eqn:E; [| reflexivity].
  apply existsb_exists in E as [w [Hw Hc]]. rewrite (H w Hw) in Hc. discriminate.
Qed.

(** An infra or cloud keyword passes the gate only in a devops bullet. *)
Lemma infra_gate (keyword bullet : string) :
  In (Str.lower keyword) infra_kws ->
  is_contextually_relevant keyword bullet = true ->
  bullet_is_devops (Str.lower bullet) = true.
Proof.
  intros Hin. unfold is_contextually_relevant.
  destruct (Str.contains (Str.lower keyword) (Str.lower bullet)); [discriminate |].
  apply mem_In in Hin. rewrite Hin. trivial.
Qed.

(** C8.  A bullet whose lowercased text contains none of the devops
    trigger terms never receives an infra or cloud keyword such as
    "Kubernetes": the insertion function returns it unchanged. *)
Theorem C8_infra_keyword_needs_devops (bullet keyword : string) :
  In (Str.lower keyword) infra_kws ->
  (forall t, In t devops_terms -> Str.contains t (Str.lower bullet) = false) ->
  insert_keyword_naturally bullet keyword = bullet.
Proof.
  intros Hkw Hnone. unfold insert_keyword_naturally.
  destruct (Str.contains (Str.lower keyword) (Str.lower bullet)); [reflexivity |].
  destruct (is_contextually_relevant keyword bullet) eqn:Hrel; [| reflexivity].
  apply (infra_gate _ _ Hkw) in Hrel.
  unfold bullet_is_devops in Hrel. rewrite (any_in_false _ _ Hnone) in Hrel.
  discriminate.
Qed.

Lemma C8_witness :
  In (Str.lower "Kubernetes") infra_kws
  /\ (forall t, In t devops_terms ->
        Str.contains t (Str.lower "Wrote unit tests for the checkout API") = false)
  /\ insert_keyword_naturally "Wrote unit tests for the checkout API" "Kubernetes"
     = "Wrote unit tests for the checkout API".
Proof.
  assert (Hkw : In (Str.lower "Kubernetes") infra_kws)
    by (cbv; tauto).
  assert (Hnone : forall t, In t devops_terms ->
            Str.contains t (Str.lower "Wrote unit tests for the checkout API")
            = false).
  { intros t Ht. unfold devops_terms in Ht.
    repeat (destruct Ht as [<- | Ht]; [reflexivity |]). destruct Ht. }
  split; [exact Hkw | split; [exact Hnone |]].
  exact (C8_infra_keyword_needs_devops _ _ Hkw Hnone).
Defined.

(** The clause goes before the final period when nothing follows it. *)
Lemma rstrip_cat_period (body : string) : Str.rstrip (body ^^ ".") = body ^^ ".".
Proof.
  induction body as [|c body IH]; [reflexivity |].
  simpl. rewrite IH. destruct body; reflexivity.
Qed.

Lemma endswith_cat_period (body : string) : Str.endswith_period (body ^^ ".") = true.
Proof.
  induction body as [|c body IH]; [reflexivity |].
  simpl. destruct body; [reflexivity | exact IH].
Qed.

Lemma drop_last_cat_period (body : string) : Str.drop_last (body ^^ ".") = body.
Proof.
  induction body as [|c body IH]; [reflexivity |].
  simpl. rewrite IH. destruct body; reflexivity.
Qed.

Lemma append_clause_after_period (body clause : string) :
  append_clause (body ^^ ".") clause = body ^^ clause ^^ ".".
Proof.
  unfold append_clause.
  now rewrite rstrip_cat_period, endswith_cat_period, drop_last_cat_period.
Qed.

(** C9.  On a bullet that ends with a period and a space the code cuts
    the space, not the period: the period stays inside the sentence,
    followed by the comma of the clause, and a second period ends the
    result. *)
Theorem C9_period_left_inside :
  insert_keyword_naturally "Built the API. " "Docker"
  = "Built the API., leveraging Docker.".
Proof. vm_compute. reflexivity. Qed.

End InsertionProperties.

(** ** The experience optimizer *)

Section ExperienceProperties.

Import Optimizer Spec.

Lemma NoDup_snoc_fresh (l : list string) (k : string) :
  List.NoDup l -> ~ In k l -> List.NoDup (l ++ [k]).
Proof.
  induction 1 as [|x l Hx Hl IH]; intros Hk; simpl.
  - constructor; [intros [] | constructor].
  - constructor.
    + rewrite in_app_iff. intros [Hin | [-> | []]]; [contradiction |].
      apply Hk. now left.
    + apply IH. intros Hin. apply Hk. now right.
Qed.

(** The loop of step 2 leaves text and list alone, or inserts the first
    skill that is fresh and that the engine accepts. *)
Lemma insert_one_skill_spec (jd_skills : list string) :
  forall (enhanced : string) (used : list string),
    (insert_one_skill enhanced jd_skills used = (enhanced, used))
    \/ (exists k, In k jd_skills /\ ~ In k used
                  /\ Insertion.insert_keyword_naturally enhanced k <> enhanced
                  /\ insert_one_skill enhanced jd_skills used
                     = (Insertion.insert_keyword_naturally enhanced k, used ++ [k])).
Proof.
  induction jd_skills as [|skill rest IH]; intros enhanced used; simpl.
  - now left.
  - assert (Hrest :
        insert_one_skill enhanced rest used = (enhanced, used)
        \/ (exists k, In k (skill :: rest) /\ ~ In k used
              /\ Insertion.insert_keyword_naturally enhanced k <> enhanced
              /\ insert_one_skill enhanced rest used
                 = (Insertion.insert_keyword_naturally enhanced k, used ++ [k]))).
    { destruct (IH enhanced used) as [H | [k [Hk [Hf [Hne H]]]]]; [now left |].
      right. exists k. repeat split; [now right | assumption..]. }
    destruct (Str.mem skill used) eqn:Hmem; [exact Hrest |].
    destruct (Str.contains (Str.lower skill) (Str.lower enhanced)); [exact Hrest |].
    destruct (String.eqb (Insertion.insert_keyword_naturally enhanced skill) enhanced)
      eqn:Heq; simpl; [exact Hrest |].
    right. exists skill. repeat split.
    + now left.
    + intros Hin. apply mem_In in Hin. congruence.
    + now apply String.eqb_neq.
Qed.

(** One call of [enhance_bullet]: what it returns, case by case. *)
Lemma enhance_bullet_cases (bullet : string) (jd_keywords jd_skills used : list string)
  (g : rng) :
  let rewritten := fst (Rewriter.replace_weak_verb bullet g) in
  let g' := snd (Rewriter.replace_weak_verb bullet g) in
  (* the bullet is returned as it is *)
  ((Str.len bullet < 5)%nat
   /\ enhance_bullet bullet jd_keywords jd_skills used g = (bullet, used, g))
  (* the rewritten bullet is returned, capitalised *)
  \/ ((5 <= Str.len bullet)%nat
      /\ enhance_bullet bullet jd_keywords jd_skills used g
         = (Str.upper_first rewritten, used, g'))
  (* one keyword is inserted in the rewritten bullet *)
  \/ ((5 <= Str.len bullet)%nat /\ (Str.len rewritten < 160)%nat
      /\ exists k, In k jd_skills /\ ~ In k used
           /\ Insertion.insert_keyword_naturally rewritten k <> rewritten
           /\ enhance_bullet bullet jd_keywords jd_skills used g
              = (Str.upper_first (Insertion.insert_keyword_naturally rewritten k),
                 used ++ [k], g')).
Proof.
  intros rewritten g'. unfold enhance_bullet.
  destruct (Nat.ltb_spec (Str.len bullet) 5) as [Hshort | Hlong].
  - left. split; [assumption |]. now rewrite orb_true_r.
  - right. rewrite orb_false_r.
    assert (Htruthy : Str.truthy bullet = true)
      by (destruct bullet; [simpl in Hlong; lia | reflexivity]).
    rewrite Htruthy. simpl negb. cbv iota.
    subst rewritten g'.
    destruct (Rewriter.replace_weak_verb bullet g) as [rewritten g'] eqn:Hrw.
    cbn [fst snd].
    destruct (Nat.ltb_spec (Str.len rewritten) 160) as [Hlt | Hge].
    + destruct (insert_one_skill_spec jd_skills rewritten used)
        as [H | [k [Hk [Hf [Hne H]]]]]; rewrite H.
      * left. split; [assumption | reflexivity].
      * right. repeat split; try assumption.
        exists k. repeat split; assumption.
    + left. split; [assumption | reflexivity].
Qed.

Lemma enhance_bullet_insertion (bullet : string) (jd_keywords jd_skills used : list string)
  (g : rng) :
  at_most_one_insertion jd_skills used bullet
    (fst (Rewriter.replace_weak_verb bullet g))
    (fst (fst (enhance_bullet bullet jd_keywords jd_skills used g)))
    (snd (fst (enhance_bullet bullet jd_keywords jd_skills used g))).
Proof.
  destruct (enhance_bullet_cases bullet jd_keywords jd_skills used g)
    as [[_ H] | [[_ H] | [_ [_ [k [Hk [Hf [Hne H]]]]]]]]; rewrite H; cbn [fst snd].
  - left. split; [reflexivity | now left].
  - left. split; [reflexivity | now right].
  - right. exists k. repeat split; assumption.
Qed.

Lemma enhance_bullet_NoDup (bullet : string) (jd_keywords jd_skills used : list string)
  (g : rng) :
  List.NoDup used ->
  List.NoDup (snd (fst (enhance_bullet bullet jd_keywords jd_skills used g))).
Proof.
  intros Hnd.
  destruct (enhance_bullet_insertion bullet jd_keywords jd_skills used g)
    as [[-> _] | [k [_ [Hf [-> _]]]]]; [assumption |].
  now apply NoDup_snoc_fresh.
Qed.

Lemma optimize_bullets_NoDup (jd_keywords jd_skills : list string) :
  forall (bs used : list string) (g : rng),
    List.NoDup used ->
    List.NoDup (snd (fst (optimize_bullets bs jd_keywords jd_skills used g))).
Proof.
  induction bs as [|b bs IH]; intros used g Hnd; simpl; [assumption |].
  destruct (Str.blank b); [now apply IH |].
  pose proof (enhance_bullet_NoDup b jd_keywords jd_skills used g Hnd) as H1.
  destruct (enhance_bullet b jd_keywords jd_skills used g) as [[text used1] g1].
  cbn [fst snd] in H1.
  specialize (IH used1 g1 H1).
  destruct (optimize_bullets bs jd_keywords jd_skills used1 g1) as [[out used2] g2].
  exact IH.
Qed.

Lemma optimize_entries_NoDup (jd_keywords jd_skills : list string) :
  forall (es : list experience_entry) (used : list string) (g : rng),
    List.NoDup used ->
    List.NoDup (snd (fst (optimize_entries es jd_keywords jd_skills used g))).
Proof.
  induction es as [|e es IH]; intros used g Hnd; simpl; [assumption |].
  pose proof (optimize_bullets_NoDup jd_keywords jd_skills (bullets e) used g Hnd)
    as H1.
  destruct (optimize_bullets (bullets e) jd_keywords jd_skills used g)
    as [[out used1] g1].
  cbn [fst snd] in H1.
  specialize (IH used1 g1 H1).
  destruct (optimize_entries es jd_keywords jd_skills used1 g1) as [[out' used2] g2].
  exact IH.
Qed.

(** The keyword diff: what is in [added] has its lowercase form in
    [seen], and no two entries share it. *)
Lemma diff_loop_added (before_lower after_lower : string) :
  forall (kws : list string) (seen : gset string) (added already_had : list string),
    List.NoDup (map Str.lower added) ->
    (forall x, In x added -> Str.lower x ∈ seen) ->
    List.NoDup
      (map Str.lower
         (fst (diff_loop kws before_lower after_lower seen added already_had))).
Proof.
  induction kws as [|kw kws IH]; intros seen added already_had Hnd Hseen; simpl;
    [assumption |].
  destruct (bool_decide (Str.lower kw ∈ seen)) eqn:Hin; simpl;
    [now apply IH |].
  apply bool_decide_eq_false in Hin.
  destruct (Str.len (Str.lower kw) <? 3)%nat; [now apply IH |].
  assert (Hseen' : forall x, In x added -> Str.lower x ∈ {[Str.lower kw]} ∪ seen)
    by (intros x Hx; specialize (Hseen x Hx); set_solver).
  destruct (Str.contains (Str.lower kw) after_lower); [| now apply IH].
  destruct (Str.contains (Str.lower kw) before_lower); [now apply IH |].
  apply IH.
  - rewrite map_app. simpl. apply NoDup_snoc_fresh; [assumption |].
    intros Hin'. apply in_map_iff in Hin' as [x [Hx Hinx]].
    apply Hin. rewrite <- Hx. now apply Hseen.
  - intros x Hx. apply in_app_iff in Hx as [Hx | [<- | []]].
    + now apply Hseen'.
    + set_solver.
Qed.

Lemma NoDup_map_take (f : string -> string) (n : nat) (l : list string) :
  List.NoDup (map f l) -> List.NoDup (map f (take n l)).
Proof.
  revert n. induction l as [|x l IH]; intros n Hnd; destruct n; simpl;
    try constructor.
  - inversion Hnd as [|? ? Hx Hl]; subst.
    intros Hin. apply Hx. apply in_map_iff in Hin as [y [Hy Hin]].
    apply in_map_iff. exists y. split; [assumption |].
    clear -Hin. revert n Hin. induction l as [|z l IHl]; intros n Hin;
      destruct n; simpl in *; try contradiction.
    destruct Hin as [-> | Hin]; [now left | right; eauto].
  - inversion Hnd; subst. now apply IH.
Qed.

Lemma compute_keyword_diff_added (before_text after_text : string)
  (jd_keywords : list string) :
  List.NoDup (map Str.lower (added (compute_keyword_diff before_text after_text
                                      jd_keywords))).
Proof.
  unfold compute_keyword_diff.
  pose proof (diff_loop_added (Str.lower before_text) (Str.lower after_text)
                jd_keywords ∅ [] [] (List.NoDup_nil _)) as H.
  destruct (diff_loop jd_keywords (Str.lower before_text) (Str.lower after_text)
              ∅ [] []) as [added0 had0].
  cbn [fst added] in *. apply NoDup_map_take. apply H. intros x [].
Qed.

Lemma inserted_app (a b : list (option string)) :
  inserted (a ++ b) = inserted a ++ inserted b.
Proof.
  induction a as [|[k|] a IH]; simpl; [reflexivity | now rewrite IH | exact IH].
Qed.

Lemma inserted_length (events : list (option string)) :
  (length (inserted events) <= length events)%nat.
Proof. induction events as [|[k|] events IH]; simpl; lia. Qed.

Lemma received_inserted (jd_skills : list string) (bs texts : list string)
  (events : list (option string)) :
  Forall3 (received jd_skills) bs texts events ->
  forall k, In k (inserted events) -> In k jd_skills.
Proof.
  induction 1 as [|b text event bs texts events Hr _ IH]; [intros k [] |].
  intros k Hk. destruct event as [k'|]; [| now apply IH].
  destruct Hk as [<- | Hk]; [| now apply IH].
  destruct Hr as [g0 [Hin _]]. exact Hin.
Qed.

(** One call of the enhancer, as an event: what the bullet that it
    returns has received, and what it adds to the list. *)
Lemma enhance_bullet_event (bullet : string) (jd_keywords jd_skills used : list string)
  (g : rng) :
  exists event,
    received jd_skills bullet
      (fst (fst (enhance_bullet bullet jd_keywords jd_skills used g))) event
    /\ snd (fst (enhance_bullet bullet jd_keywords jd_skills used g))
       = used ++ inserted [event].
Proof.
  destruct (enhance_bullet_cases bullet jd_keywords jd_skills used g)
    as [[_ H] | [[_ H] | [_ [_ [k [Hk [Hf [Hne H]]]]]]]]; rewrite H; cbn [fst snd].
  - exists None. split; [exists g; now left | simpl; now rewrite app_nil_r].
  - exists None. split; [exists g; now right | simpl; now rewrite app_nil_r].
  - exists (Some k). split; [exists g; now repeat split | reflexivity].
Qed.

Lemma optimize_bullets_events (jd_keywords jd_skills : list string) :
  forall (bs used : list string) (g : rng),
    exists events,
      Forall3 (received jd_skills) (kept_bullets bs)
        (fst (fst (optimize_bullets bs jd_keywords jd_skills used g))) events
      /\ snd (fst (optimize_bullets bs jd_keywords jd_skills used g))
         = used ++ inserted events.
Proof.
  unfold kept_bullets.
  induction bs as [|b bs IH]; intros used g; simpl.
  - exists []. split; [constructor | now rewrite app_nil_r].
  - destruct (Str.blank b); simpl; [apply IH |].
    destruct (enhance_bullet_event b jd_keywords jd_skills used g)
      as [event [Hr Hu]].
    destruct (enhance_bullet b jd_keywords jd_skills used g) as [[text used1] g1].
    cbn [fst snd] in Hr, Hu.
    destruct (IH used1 g1) as [events [Hrs Hus]].
    destruct (optimize_bullets bs jd_keywords jd_skills used1 g1)
      as [[out used2] g2].
    cbn [fst snd] in *.
    exists (event :: events). split; [now constructor |].
    rewrite Hus, Hu, <- app_assoc.
    change (event :: events) with ([event] ++ events). now rewrite inserted_app.
Qed.

Lemma optimize_entries_events (jd_keywords jd_skills : list string) :
  forall (es : list experience_entry) (used : list string) (g : rng),
    exists events,
      Forall3 (received jd_skills) (all_kept es)
        (all_bullets (fst (fst (optimize_entries es jd_keywords jd_skills used g))))
        events
      /\ snd (fst (optimize_entries es jd_keywords jd_skills used g))
         = used ++ inserted events.
Proof.
  unfold all_kept, all_bullets.
  induction es as [|e es IH]; intros used g; simpl.
  - exists []. split; [constructor | now rewrite app_nil_r].
  - destruct (optimize_bullets_events jd_keywords jd_skills (bullets e) used g)
      as [events1 [Hr1 Hu1]].
    destruct (optimize_bullets (bullets e) jd_keywords jd_skills used g)
      as [[out used1] g1].
    cbn [fst snd] in Hr1, Hu1.
    destruct (IH used1 g1) as [events2 [Hr2 Hu2]].
    destruct (optimize_entries es jd_keywords jd_skills used1 g1)
      as [[out' used2] g2].
    cbn [fst snd map concat bullets with_bullets] in *.
    exists (events1 ++ events2). split; [now apply Forall3_app |].
    now rewrite Hu2, Hu1, <- app_assoc, inserted_app.
Qed.

Lemma optimize_experience_fst (E : list experience_entry) (J : jd_profile) (g : rng) :
  fst (optimize_experience E J g) = fst (fst (optimize_experience_run E J g)).
Proof.
  unfold optimize_experience.
  now destruct (optimize_experience_run E J g) as [[out used] g'].
Qed.

(** A run of the experience optimizer, bullet by bullet: every bullet
    that is kept comes out with what its event says, the keywords of the
    events are the list that the run keeps, in its order, no keyword is
    there twice, and each is one of the first twelve technical skills. *)
Lemma run_events (E : list experience_entry) (J : jd_profile) (g : rng) :
  exists events,
    Forall3 (received (take 12 (technical_skills J))) (all_kept E)
      (all_bullets (fst (optimize_experience E J g))) events
    /\ inserted events = snd (fst (optimize_experience_run E J g))
    /\ List.NoDup (inserted events)
    /\ (forall k, In k (inserted events) -> In k (take 12 (technical_skills J))).
Proof.
  rewrite optimize_experience_fst. unfold optimize_experience_run.
  destruct (optimize_entries_events (take 10 (keywords J))
              (take 12 (technical_skills J)) E [] g) as [events [Hr Hu]].
  pose proof (optimize_entries_NoDup (take 10 (keywords J))
                (take 12 (technical_skills J)) E [] g (List.NoDup_nil _)) as Hnd.
  cbn [app] in Hu. rewrite Hu in Hnd.
  exists events. split; [exact Hr | split; [now rewrite Hu | split; [exact Hnd |]]].
  exact (received_inserted _ _ _ _ Hr).
Qed.

(** C3.  In a run of the experience optimizer each bullet that is kept
    receives nothing or one keyword, and the keywords that the bullets
    of the whole résumé receive are pairwise distinct: no keyword goes
    into two bullets.  They are the list that the run keeps.  Each call
    of the enhancer inserts at most one keyword, a fresh one; and the
    [added] list of the keyword diff has no two entries that are equal
    up to case. *)
Theorem C3_keyword_uniqueness (E : list experience_entry) (J : jd_profile) (g : rng) :
  (exists events,
     Forall3 (received (take 12 (technical_skills J))) (all_kept E)
       (all_bullets (fst (optimize_experience E J g))) events
     /\ inserted events = snd (fst (optimize_experience_run E J g))
     /\ List.NoDup (inserted events))
  /\ (forall (bullet : string) (jd_keywords jd_skills used : list string) (g0 : rng),
        at_most_one_insertion jd_skills used bullet
          (fst (Rewriter.replace_weak_verb bullet g0))
          (fst (fst (enhance_bullet bullet jd_keywords jd_skills used g0)))
          (snd (fst (enhance_bullet bullet jd_keywords jd_skills used g0))))
  /\ (forall (before_text after_text : string) (jd_keywords : list string),
        List.NoDup
          (map Str.lower
             (added (compute_keyword_diff before_text after_text jd_keywords)))).
Proof.
  split; [| split].
  - destruct (run_events E J g) as [events [Hr [Hu [Hnd _]]]].
    exists events. now repeat split.
  - intros. apply enhance_bullet_insertion.
  - intros. apply compute_keyword_diff_added.
Qed.

End ExperienceProperties.

(** ** Bullets are kept, one for one *)

Section BulletProperties.

Import Optimizer Spec.

Lemma optimize_bullets_kept (J : jd_profile) :
  forall (bs used : list string) (g : rng),
    Forall2 (enhanced_from J) (kept_bullets bs)
      (fst (fst (optimize_bullets bs (take 10 (keywords J))
                   (take 12 (technical_skills J)) used g))).
Proof.
  induction bs as [|b bs IH]; intros used g; simpl; [constructor |].
  destruct (Str.blank b) eqn:Hb; simpl; [apply IH |].
  destruct (enhance_bullet b (take 10 (keywords J)) (take 12 (technical_skills J))
              used g) as [[text used1] g1] eqn:He.
  specialize (IH used1 g1).
  destruct (optimize_bullets bs (take 10 (keywords J))
              (take 12 (technical_skills J)) used1 g1) as [[out used2] g2].
  cbn [fst] in *. constructor; [| exact IH].
  exists used, g. now rewrite He.
Qed.

Lemma optimize_entries_preserved (J : jd_profile) :
  forall (es : list experience_entry) (used : list string) (g : rng),
    Forall2 (entry_preserved J) es
      (fst (fst (optimize_entries es (take 10 (keywords J))
                   (take 12 (technical_skills J)) used g))).
Proof.
  induction es as [|e es IH]; intros used g; simpl; [constructor |].
  pose proof (optimize_bullets_kept J (bullets e) used g) as Hb.
  destruct (optimize_bullets (bullets e) (take 10 (keywords J))
              (take 12 (technical_skills J)) used g) as [[out used1] g1].
  specialize (IH used1 g1).
  destruct (optimize_entries es (take 10 (keywords J))
              (take 12 (technical_skills J)) used1 g1) as [[out' used2] g2].
  cbn [fst] in *. constructor; [| exact IH].
  unfold entry_preserved. cbn [with_bullets bullets].
  split; [reflexivity | split; [| exact Hb]].
  symmetry. exact (Forall2_length _ _ _ Hb).
Qed.

(** C4.  The optimized experience has the entries of the input, in their
    order; each has exactly one bullet for each input bullet that is not
    blank, in the same order, every output bullet being the enhancement
    of the input bullet at its place, and nothing else of the entry
    changes.  Blank bullets are dropped; none is added, merged or moved. *)
Theorem C4_bullets_one_for_one (E : list experience_entry) (J : jd_profile) (g : rng) :
  Forall2 (entry_preserved J) E (fst (optimize_experience E J g)).
Proof.
  unfold optimize_experience, optimize_experience_run.
  pose proof (optimize_entries_preserved J E [] g) as H.
  destruct (optimize_entries E (take 10 (keywords J))
              (take 12 (technical_skills J)) [] g) as [[out used] g'].
  exact H.
Qed.

(** The amended C10.  Insertion is tried only on a rewritten text of
    fewer than 160 characters.  When the rewritten text has 160
    characters or more, no keyword is inserted, and the bullet that went
    through the rewriting (five characters or more) comes back as the
    rewritten text with its first letter capitalised by step 3. *)
Theorem C10_length_gate (bullet : string) (jd_keywords jd_skills used : list string)
  (g : rng) :
  (160 <= Str.len (fst (Rewriter.replace_weak_verb bullet g)))%nat ->
  snd (fst (enhance_bullet bullet jd_keywords jd_skills used g)) = used
  /\ ((5 <= Str.len bullet)%nat ->
      fst (fst (enhance_bullet bullet jd_keywords jd_skills used g))
      = Str.upper_first (fst (Rewriter.replace_weak_verb bullet g))).
Proof.
  intros Hlong.
  destruct (enhance_bullet_cases bullet jd_keywords jd_skills used g)
    as [[Hs H] | [[Hl H] | [Hl [Hlt _]]]].
  - rewrite H. cbn [fst snd]. split; [reflexivity | lia].
  - rewrite H. cbn [fst snd]. split; reflexivity.
  - lia.
Qed.

End BulletProperties.

(** ** The skills section stays within the candidate's domains *)

Section SkillsProperties.

Import Optimizer Spec.

Lemma add_domains_elem (db : list (string * list string)) (r : string) :
  forall (acc : gset string) (d : string),
    d ∈ add_domains db r acc ->
    d ∈ acc \/ exists ds, In (d, ds) db /\ in_domain r ds = true.
Proof.
  unfold add_domains.
  induction db as [|[domain ds] db IH]; intros acc d Hd; simpl in Hd; [now left |].
  apply IH in Hd as [Hd | [ds' [Hin Hdom]]].
  - destruct (in_domain r ds) eqn:Hr; [| now left].
    apply elem_of_union in Hd as [Hd | Hd]; [| now left].
    apply elem_of_singleton in Hd as ->. right. exists ds. split; [now left | exact Hr].
  - right. exists ds'. split; [now right | exact Hdom].
Qed.

Lemma existing_domains_elem (db : list (string * list string)) :
  forall (rs : list string) (acc : gset string) (d : string),
    d ∈ fold_left (fun acc skill => add_domains db skill acc) rs acc ->
    d ∈ acc \/ exists r ds, In r rs /\ In (d, ds) db /\ in_domain r ds = true.
Proof.
  induction rs as [|r rs IH]; intros acc d Hd; simpl in Hd; [now left |].
  apply IH in Hd as [Hd | [r' [ds [Hr [Hin Hdom]]]]].
  - apply add_domains_elem in Hd as [Hd | [ds [Hin Hdom]]]; [now left |].
    right. exists r, ds. repeat split; [now left | assumption..].
  - right. exists r', ds. repeat split; [now right | assumption..].
Qed.

Lemma skill_domain_in_Some (db : list (string * list string)) (s d : string) :
  skill_domain_in db s = Some d ->
  exists ds, In (d, ds) db /\ in_domain s ds = true.
Proof.
  induction db as [|[domain ds] db IH]; simpl; [discriminate |].
  destruct (in_domain s ds) eqn:Hs.
  - intros [= <-]. exists ds. split; [now left | exact Hs].
  - intros H. destruct (IH H) as [ds' [Hin Hdom]].
    exists ds'. split; [now right | exact Hdom].
Qed.

Lemma add_jd_skills_In (db : list (string * list string)) (text : string)
  (existing : gset string) (s : string) :
  forall (jd current : list string),
    In s (add_jd_skills db jd text existing current) ->
    In s current
    \/ exists d, skill_domain_in db s = Some d /\ d ∈ existing.
Proof.
  induction jd as [|jd_skill jd IH]; intros current Hs; simpl in Hs; [now left |].
  destruct (Str.contains (Str.lower jd_skill) text); [now apply IH |].
  destruct (skill_domain_in db jd_skill) as [d|] eqn:Hd; [| now apply IH].
  destruct (Str.truthy d && bool_decide (d ∈ existing)) eqn:Hok; [| now apply IH].
  apply IH in Hs as [Hs | Hs]; [| now right].
  apply in_app_iff in Hs as [Hs | [<- | []]]; [now left |].
  right. exists d. split; [exact Hd |].
  apply andb_true_iff in Hok as [_ Hok]. now apply bool_decide_eq_true in Hok.
Qed.

Lemma dedupe_In (s : string) :
  forall (l : list string) (seen : gset string) (deduped : list string),
    In s (dedupe l seen deduped) -> In s l \/ In s deduped.
Proof.
  induction l as [|x l IH]; intros seen deduped Hs; simpl in Hs;
    [now right |].
  destruct (bool_decide (Str.lower x ∈ seen)).
  - apply IH in Hs as [Hs | Hs]; [left; now right | now right].
  - apply IH in Hs as [Hs | Hs]; [left; now right |].
    apply in_app_iff in Hs as [Hs | [<- | []]]; [now right | left; now left].
Qed.

(** The keys of a dictionary are distinct. *)
Lemma unique_key (db : list (string * list string)) (d : string) (ds ds' : list string) :
  List.NoDup (map fst db) -> In (d, ds) db -> In (d, ds') db -> ds = ds'.
Proof.
  induction db as [|[k v] db IH]; simpl; intros Hnd H1 H2; [contradiction |].
  inversion Hnd as [|? ? Hk Hrest]; subst.
  destruct H1 as [[= -> ->] | H1], H2 as [[= <-] | H2]; try reflexivity.
  - exfalso. apply Hk. apply in_map_iff. now exists (d, ds').
  - exfalso. apply Hk. apply in_map_iff. now exists (k, ds).
  - now apply IH.
Qed.

Lemma optimize_skills_in_truthful (db : list (string * list string))
  (rs : list string) (J : jd_profile) (s : string) :
  List.NoDup (map fst db) ->
  In s (optimize_skills_in db rs J) -> ~ In s rs ->
  exists category category_skills r,
    In (category, category_skills) db
    /\ in_domain s category_skills = true
    /\ In r rs
    /\ in_domain r category_skills = true.
Proof.
  intros Hkeys Hs Hnew. unfold optimize_skills_in in Hs.
  apply dedupe_In in Hs as [Hs | []].
  apply add_jd_skills_In in Hs as [Hs | [d [Hd Hex]]]; [contradiction |].
  apply skill_domain_in_Some in Hd as [ds [Hin Hdom]].
  apply existing_domains_elem in Hex as [Hex | [r [ds' [Hr [Hin' Hdom']]]]];
    [set_solver |].
  rewrite <- (unique_key db d ds ds' Hkeys Hin Hin') in Hdom'.
  exists d, ds, r. repeat split; assumption.
Qed.

Lemma SKILLS_DB_keys : List.NoDup (map fst SkillsDb.SKILLS_DB).
Proof.
  vm_compute.
  repeat (constructor; [simpl; intuition discriminate |]). constructor.
Qed.

Lemma optimize_resume_skills (rewrite_summary : resume -> jd_profile -> rng -> string * rng)
  (R : resume) (J : jd_profile) (g : rng) :
  o_skills (optimized (fst (optimize_resume rewrite_summary R J g)))
  = optimize_skills_section (skills R) J.
Proof.
  unfold optimize_resume.
  destruct (rewrite_summary R J g) as [new_summary g1].
  destruct (optimize_experience (experience R) J g1) as [optimized_experience g2].
  reflexivity.
Qed.

(** C2.  Every skill of the optimized résumé that the résumé did not
    list belongs, whatever its case, to a category of the taxonomy
    [SKILLS_DB] in which a skill of the résumé already appears. *)
Theorem C2_skills_truthful
  (rewrite_summary : resume -> jd_profile -> rng -> string * rng)
  (R : resume) (J : jd_profile) (g : rng) (s : string) :
  In s (o_skills (optimized (fst (optimize_resume rewrite_summary R J g)))) ->
  ~ In s (skills R) ->
  exists category category_skills r,
    In (category, category_skills) SkillsDb.SKILLS_DB
    /\ in_domain s category_skills = true
    /\ In r (skills R)
    /\ in_domain r category_skills = true.
Proof.
  rewrite optimize_resume_skills. unfold optimize_skills_section.
  apply optimize_skills_in_truthful. exact SKILLS_DB_keys.
Qed.

End SkillsProperties.

(** ** The matcher reports matches of the pattern only *)

Section RegexProperties.

Import Re.

Lemma cat_assoc (a b c : string) : (a ^^ b) ^^ c = a ^^ (b ^^ c).
Proof. induction a as [|x a IH]; simpl; [reflexivity | now rewrite IH]. Qed.

Lemma cat_empty_r (a : string) : a ^^ "" = a.
Proof. induction a as [|x a IH]; simpl; [reflexivity | now rewrite IH]. Qed.

Lemma prefix_cat (d s : string) : Str.prefix (Str.len d) (d ^^ s) = d.
Proof. induction d as [|x d IH]; simpl; [now destruct s | now rewrite IH]. Qed.

Lemma eat_sound (ci : bool) (l : string) :
  forall prev pos s prev' pos' s',
    eat ci l prev pos s = Some (prev', pos', s') ->
    exists d, s = d ^^ s' /\ same_text ci l d = true /\ pos' = (pos + Str.len d)%nat.
Proof.
  induction l as [|a l IH]; intros prev pos s prev' pos' s'; simpl.
  - intros [= <- <- <-]. exists EmptyString. simpl. repeat split. lia.
  - destruct s as [|b s]; [discriminate |].
    destruct (same_char ci a b) eqn:Hab; [| discriminate].
    intros H. apply IH in H as [d [-> [Hd ->]]].
    exists (String b d). simpl. rewrite Hab, Hd. repeat split. lia.
Qed.

Lemma rep_greedy_sound (p : ascii -> bool) (least : nat) (k : cont)
  (caps res : list string) :
  forall s n prev pos,
    rep_greedy p least k caps n prev pos s = Some res ->
    exists d s' prev',
      s = d ^^ s' /\ all_chars p d = true /\ (least <= n + Str.len d)%nat
      /\ k prev' (pos + Str.len d)%nat s' caps = Some res.
Proof.
  assert (Hstop : forall s n prev pos,
            (if (least <=? n)%nat then k prev pos s caps else None) = Some res ->
            exists d s' prev',
              s = d ^^ s' /\ all_chars p d = true /\ (least <= n + Str.len d)%nat
              /\ k prev' (pos + Str.len d)%nat s' caps = Some res).
  { intros s n prev pos H. destruct (Nat.leb_spec least n); [| discriminate].
    exists EmptyString, s, prev. simpl. rewrite ?Nat.add_0_r.
    repeat split; [lia | exact H]. }
  induction s as [|c t IH]; intros n prev pos; simpl; [apply Hstop |].
  destruct (p c) eqn:Hc; [| apply Hstop].
  destruct (rep_greedy p least k caps (S n) (Some c) (S pos) t) as [res'|] eqn:Hrec;
    [| apply Hstop].
  intros [= ->]. apply IH in Hrec as [d [s' [prev' [-> [Hd [Hn Hk]]]]]].
  exists (String c d), s', prev'. simpl. rewrite Hc, Hd.
  repeat split; [lia |]. now rewrite Nat.add_succ_r.
Qed.

Lemma rep_lazy_sound (p : ascii -> bool) (least : nat) (k : cont)
  (caps res : list string) :
  forall s n prev pos,
    rep_lazy p least k caps n prev pos s = Some res ->
    exists d s' prev',
      s = d ^^ s' /\ all_chars p d = true /\ (least <= n + Str.len d)%nat
      /\ k prev' (pos + Str.len d)%nat s' caps = Some res.
Proof.
  induction s as [|c t IH]; intros n prev pos; simpl.
  - destruct (Nat.leb_spec least n); [| discriminate].
    destruct (k prev pos EmptyString caps) as [res'|] eqn:Hk; [| discriminate].
    intros [= ->]. exists EmptyString, EmptyString, prev. simpl.
    rewrite ?Nat.add_0_r. repeat split; [lia | exact Hk].
  - assert (Hmore :
        (if p c then rep_lazy p least k caps (S n) (Some c) (S pos) t else None)
        = Some res ->
        exists d s' prev',
          String c t = d ^^ s' /\ all_chars p d = true
          /\ (least <= n + Str.len d)%nat
          /\ k prev' (pos + Str.len d)%nat s' caps = Some res).
    { destruct (p c) eqn:Hc; [| discriminate]. intros Hrec.
      apply IH in Hrec as [d [s' [prev' [-> [Hd [Hn Hk]]]]]].
      exists (String c d), s', prev'. simpl. rewrite Hc, Hd.
      repeat split; [lia |]. now rewrite Nat.add_succ_r. }
    destruct (Nat.leb_spec least n); [| exact Hmore].
    destruct (k prev pos (String c t) caps) as [res'|] eqn:Hk; [| exact Hmore].
    intros [= ->]. exists EmptyString, (String c t), prev. simpl.
    rewrite ?Nat.add_0_r. repeat split; [lia | exact Hk].
Qed.

(** Soundness of the matcher: when [run] answers, the continuation was
    entered after a text [d] that the pattern matches. *)
Lemma run_sound (r : regex) :
  forall prev pos s caps (k : cont) res,
    run r prev pos s caps k = Some res ->
    exists d s' prev' caps',
      s = d ^^ s' /\ matches r d caps caps'
      /\ k prev' (pos + Str.len d)%nat s' caps' = Some res.
Proof.
  assert (Hzero : forall prev pos s caps (k : cont) res,
            k prev pos s caps = Some res ->
            exists d s' prev' caps',
              s = d ^^ s' /\ (d = EmptyString /\ caps' = caps)
              /\ k prev' (pos + Str.len d)%nat s' caps' = Some res).
  { intros prev pos s caps k res H. exists EmptyString, s, prev, caps.
    simpl. rewrite ?Nat.add_0_r. repeat split. exact H. }
  induction r as [| ci l | p | r1 IH1 r2 IH2 | r1 IH1 r2 IH2 | greedy least p
                  | r1 IH1 | r1 IH1 | r1 IH1 | | | | | ];
    intros prev pos s caps k res; simpl.
  - apply Hzero.
  - destruct (eat ci l prev pos s) as [[[prev' pos'] s']|] eqn:He; [| discriminate].
    intros Hk. apply eat_sound in He as [d [-> [Hd ->]]].
    exists d, s', prev', caps. repeat split; assumption.
  - destruct s as [|c t]; [discriminate |].
    destruct (p c) eqn:Hc; [| discriminate]. intros Hk.
    exists (String c EmptyString), t, (Some c), caps. simpl.
    repeat split; [now exists c | now rewrite Nat.add_1_r].
  - intros H. apply IH1 in H as [d1 [s1 [prev1 [caps1 [-> [Hm1 H]]]]]].
    apply IH2 in H as [d2 [s2 [prev2 [caps2 [-> [Hm2 H]]]]]].
    exists (d1 ^^ d2), s2, prev2, caps2.
    rewrite cat_assoc, len_cat, Nat.add_assoc. repeat split; [| exact H].
    now exists d1, d2, caps1.
  - destruct (run r1 prev pos s caps k) as [res'|] eqn:H1.
    + intros [= ->]. apply IH1 in H1 as [d [s' [prev' [caps' [-> [Hm H]]]]]].
      exists d, s', prev', caps'. repeat split; [now left | exact H].
    + intros H. apply IH2 in H as [d [s' [prev' [caps' [-> [Hm H]]]]]].
      exists d, s', prev', caps'. repeat split; [now right | exact H].
  - destruct greedy; intros H;
      [apply rep_greedy_sound in H | apply rep_lazy_sound in H];
      destruct H as [d [s' [prev' [-> [Hd [Hn H]]]]]];
      exists d, s', prev', caps; repeat split; assumption.
  - destruct (run r1 prev pos s caps k) as [res'|] eqn:H1.
    + intros [= ->]. apply IH1 in H1 as [d [s' [prev' [caps' [-> [Hm H]]]]]].
      exists d, s', prev', caps'. repeat split; [now left | exact H].
    + intros H. exists EmptyString, s, prev, caps. simpl. rewrite ?Nat.add_0_r.
      repeat split; [now right | exact H].
  - intros H. apply IH1 in H as [d [s' [prev' [caps' [-> [Hm H]]]]]].
    exists d, s', prev', (caps' ++ [d]).
    replace (pos + Str.len d - pos)%nat with (Str.len d) in H by lia.
    rewrite prefix_cat in H. repeat split; [now exists caps' | exact H].
  - destruct (run r1 prev pos s caps (fun _ _ _ c => Some c)); [| discriminate].
    apply Hzero.
  - destruct (xorb (word_before prev) (word_after s)); [| discriminate]. apply Hzero.
  - destruct prev; [discriminate |]. apply Hzero.
  - destruct prev as [c|]; [| apply Hzero].
    destruct (Ascii.eqb c "010"); [| discriminate]. apply Hzero.
  - destruct s as [|c [|c' t]]; [apply Hzero | | discriminate].
    destruct (Ascii.eqb c "010"); [| discriminate]. apply Hzero.
  - destruct s; [| discriminate]. apply Hzero.
Qed.

(** What [re.search] returns are the groups of a match of the pattern. *)
Lemma search_sound (r : regex) (m : list string) :
  forall prev s, search_from r prev s = Some m -> exists d, matches r d [] m.
Proof.
  intros prev s. revert prev. induction s as [|c t IH]; intros prev; simpl.
  - destruct (run r prev 0 EmptyString [] accept) as [m'|] eqn:H; [| discriminate].
    intros [= ->]. apply run_sound in H as [d [s' [prev' [caps' [_ [Hm H]]]]]].
    injection H as ->. now exists d.
  - destruct (run r prev 0 (String c t) [] accept) as [m'|] eqn:H; [| apply IH].
    intros [= ->]. apply run_sound in H as [d [s' [prev' [caps' [_ [Hm H]]]]]].
    injection H as ->. now exists d.
Qed.

End RegexProperties.

(** ** The experience level *)

Section LevelProperties.

Import Re JdAnalyzer Spec.

Lemma is_digit_lower_char (c : ascii) :
  Str.is_digit (Str.lower_char c) = Str.is_digit c.
Proof. destruct c as [[] [] [] [] [] [] [] []]; reflexivity. Qed.

Lemma digit_free_lower (s : string) : digit_free (Str.lower s) = digit_free s.
Proof.
  unfold digit_free. induction s as [|c s IH]; simpl; [reflexivity |].
  now rewrite is_digit_lower_char, IH.
Qed.

Lemma digits_value_total (d : string) :
  all_chars Str.is_digit d = true ->
  forall acc, exists y, digits_value acc d = Some y.
Proof.
  induction d as [|c d IH]; simpl; intros H acc; [now exists acc |].
  apply andb_true_iff in H as [Hc Hd]. rewrite Hc. apply IH. exact Hd.
Qed.

(** [int] reads what [\d+] captures, up to the limit on the digits. *)
Lemma py_int_digits (d : string) :
  all_chars Str.is_digit d = true -> (1 <= Str.len d)%nat ->
  (Str.len d <= max_str_digits)%nat ->
  exists y, py_int d = Some y.
Proof.
  intros Hd Hlen Hmax. destruct d as [|c d]; [simpl in Hlen; lia |].
  unfold py_int. destruct (Nat.ltb_spec max_str_digits (Str.len (String c d)));
    [lia |].
  now apply digits_value_total.
Qed.

(** Above the limit [int] raises. *)
Lemma py_int_long (d : string) :
  (max_str_digits < Str.len d)%nat -> py_int d = None.
Proof.
  intros Hmax. destruct d as [|c d]; [reflexivity |].
  unfold py_int. destruct (Nat.ltb_spec max_str_digits (Str.len (String c d)));
    [reflexivity | lia].
Qed.

Ltac open_match :=
  repeat match goal with
    | H : exists _, _ |- _ => destruct H
    | H : _ /\ _ |- _ => destruct H
    | H : _ \/ _ |- _ => destruct H
    end;
  subst; cbn [years_of app group nth Nat.sub].

Lemma range_groups (d : string) (m : list string) :
  matches range_pattern d [] m ->
  all_chars Str.is_digit (group 2 m) = true /\ (1 <= Str.len (group 2 m))%nat.
Proof.
  unfold range_pattern, digits1, sp0, sp1. cbn [seq_of matches]. intros H.
  open_match; now split.
Qed.

Lemma plus_groups (d : string) (m : list string) :
  matches plus_pattern d [] m ->
  all_chars Str.is_digit (group 1 m) = true /\ (1 <= Str.len (group 1 m))%nat.
Proof.
  unfold plus_pattern, digits1, sp0, sp1. cbn [seq_of matches]. intros H.
  open_match; now split.
Qed.

Lemma min_groups (d : string) (m : list string) :
  matches min_pattern d [] m ->
  all_chars Str.is_digit (group 1 m) = true /\ (1 <= Str.len (group 1 m))%nat.
Proof.
  unfold min_pattern, digits1, sp0, sp1. cbn [seq_of matches]. intros H.
  open_match; now split.
Qed.

Lemma atleast_groups (d : string) (m : list string) :
  matches atleast_pattern d [] m ->
  all_chars Str.is_digit (group 1 m) = true /\ (1 <= Str.len (group 1 m))%nat.
Proof.
  unfold atleast_pattern, digits1, sp0, sp1. cbn [seq_of matches]. intros H.
  open_match; now split.
Qed.

(** What the year patterns capture as the count is one digit or more. *)
Lemma year_digits_are_digits (text_lower d : string) :
  year_digits text_lower = Some d ->
  all_chars Str.is_digit d = true /\ (1 <= Str.len d)%nat.
Proof.
  unfold year_digits.
  destruct (search range_pattern text_lower) as [m|] eqn:H1.
  { intros [= <-]. apply search_sound in H1 as [x Hx]. now apply range_groups in Hx. }
  destruct (search plus_pattern text_lower) as [m|] eqn:H2.
  { intros [= <-]. apply search_sound in H2 as [x Hx]. now apply plus_groups in Hx. }
  destruct (search min_pattern text_lower) as [m|] eqn:H3.
  { intros [= <-]. apply search_sound in H3 as [x Hx]. now apply min_groups in Hx. }
  destruct (search atleast_pattern text_lower) as [m|] eqn:H4.
  { intros [= <-]. apply search_sound in H4 as [x Hx]. now apply atleast_groups in Hx. }
  discriminate.
Qed.

(** The count is what [int] makes of the digits. *)
Lemma year_count_of_digits (text_lower : string) :
  year_count text_lower
  = match year_digits text_lower with
    | Some d => Some (py_int d)
    | None => None
    end.
Proof.
  unfold year_count, year_digits.
  destruct (search range_pattern text_lower); [reflexivity |].
  destruct (search plus_pattern text_lower); [reflexivity |].
  destruct (search min_pattern text_lower); [reflexivity |].
  destruct (search atleast_pattern text_lower); reflexivity.
Qed.

(** The code follows the order of the specification. *)
Lemma extract_experience_level_order (text : string) :
  extract_experience_level text
  = match year_count (Str.lower text) with
    | Some (Some years) => Some (level_of_years years)
    | Some None => None
    | None => Some (keyword_level EXPERIENCE_LEVELS (Str.lower text))
    end.
Proof.
  unfold extract_experience_level, year_count, year_patterns.
  cbn [first_year_match].
  destruct (search range_pattern (Str.lower text)); [reflexivity |].
  destruct (search plus_pattern (Str.lower text)); [reflexivity |].
  destruct (search min_pattern (Str.lower text)); [reflexivity |].
  destruct (search atleast_pattern (Str.lower text)); reflexivity.
Qed.

(** The level in terms of the digits of the count: without a year
    pattern the keywords decide; a count within the limit is read, and
    the thresholds give the level; above the limit [int] raises. *)
Lemma level_by_digits (text : string) :
  match year_digits (Str.lower text) with
  | Some d =>
      all_chars Str.is_digit d = true /\ (1 <= Str.len d)%nat
      /\ ((Str.len d <= max_str_digits)%nat ->
          exists years,
            py_int d = Some years
            /\ extract_experience_level text = Some (level_of_years years))
      /\ ((max_str_digits < Str.len d)%nat -> extract_experience_level text = None)
  | None =>
      extract_experience_level text
      = Some (keyword_level EXPERIENCE_LEVELS (Str.lower text))
  end.
Proof.
  rewrite extract_experience_level_order, year_count_of_digits.
  destruct (year_digits (Str.lower text)) as [d|] eqn:Hd; [| reflexivity].
  destruct (year_digits_are_digits _ _ Hd) as [Hdig Hlen].
  split; [exact Hdig | split; [exact Hlen | split]].
  - intros Hmax. destruct (py_int_digits d Hdig Hlen Hmax) as [y Hy].
    exists y. now rewrite Hy.
  - intros Hmax. now rewrite (py_int_long d Hmax).
Qed.

(** The level is returned when the count is within the limit, and only
    then. *)
Lemma level_returns_or_raises (text : string) :
  (exists d, year_digits (Str.lower text) = Some d
             /\ (max_str_digits < Str.len d)%nat
             /\ extract_experience_level text = None)
  \/ ((forall d, year_digits (Str.lower text) = Some d ->
                 (Str.len d <= max_str_digits)%nat)
      /\ exists level, extract_experience_level text = Some level).
Proof.
  pose proof (level_by_digits text) as H.
  destruct (year_digits (Str.lower text)) as [d|] eqn:Hd.
  - destruct H as [_ [_ [Hin Hout]]].
    destruct (Nat.le_gt_cases (Str.len d) max_str_digits) as [Hle | Hgt].
    + right. split; [now intros d' [= <-] |].
      destruct (Hin Hle) as [y [_ Hy]]. eauto.
    + left. exists d. repeat split; [exact Hgt | now apply Hout].
  - right. split; [discriminate | eauto].
Qed.

Lemma level_of_years_table (years : Z) : level_table years (level_of_years years).
Proof.
  unfold level_table, level_of_years.
  destruct (Z.leb_spec years 2); [left; split; [lia | reflexivity] |].
  destruct (Z.leb_spec years 5); [right; left; split; [lia | reflexivity] |].
  destruct (Z.leb_spec years 8); [right; right; left; split; [lia | reflexivity] |].
  right; right; right; split; [lia | reflexivity].
Qed.

(** The range pattern cannot start on a character that is not a digit. *)
Lemma range_needs_digit (c : ascii) (t : string) (prev : option ascii) :
  Str.is_digit c = false ->
  run range_pattern prev 0 (String c t) [] accept = None.
Proof. intros Hc. cbn. rewrite Hc. reflexivity. Qed.

(** At the phrase, the range pattern reads 5 and 7, whatever surrounds it. *)
Lemma range_at_phrase (prev : option ascii) (post : string) :
  run range_pattern prev 0 (five_to_seven ^^ post) [] accept = Some ["5"; "7"].
Proof. reflexivity. Qed.

Lemma search_range_after (post : string) :
  forall (pre : string) (prev : option ascii),
    digit_free pre = true ->
    search_from range_pattern prev (pre ^^ five_to_seven ^^ post)
    = Some ["5"; "7"].
Proof.
  induction pre as [|c pre IH]; intros prev Hfree.
  - change (EmptyString ^^ five_to_seven ^^ post) with (five_to_seven ^^ post).
    change (five_to_seven ^^ post)
      with (String "5" ("-7 years of experience required" ^^ post)).
    cbn [search_from].
    change (String "5" ("-7 years of experience required" ^^ post))
      with (five_to_seven ^^ post).
    now rewrite range_at_phrase.
  - unfold digit_free in Hfree. simpl in Hfree.
    apply andb_true_iff in Hfree as [Hc Hfree]. apply negb_true_iff in Hc.
    change (String c pre ^^ five_to_seven ^^ post)
      with (String c (pre ^^ five_to_seven ^^ post)).
    cbn [search_from]. rewrite (range_needs_digit _ _ _ Hc). now apply IH.
Qed.

(** The scenario, for a text with no digit before the phrase. *)
Lemma five_to_seven_senior (pre post : string) :
  digit_free pre = true ->
  extract_experience_level (pre ^^ five_to_seven ^^ post) = Some "senior".
Proof.
  intros Hfree. unfold extract_experience_level, year_patterns.
  cbn [first_year_match]. unfold search.
  rewrite !lower_cat.
  change (Str.lower five_to_seven) with five_to_seven.
  rewrite search_range_after by now rewrite digit_free_lower.
  reflexivity.
Qed.

(** The amended C7.  The level comes from the four year patterns, tried
    in the order "N to M years" (or "N-M years"), "N+ years", "minimum N
    years", "at least N years": the first pattern that is found in the
    lowercased text gives the count, at its leftmost match, the upper
    bound for a range.  The count is one digit or more; when it has no
    more digits than [int] converts, it is read and the level is the one
    of the thresholds, up to 2 junior, up to 5 mid-level, up to 8 senior,
    staff/principal above; without a year pattern the level keywords
    decide.  A text that contains "5-7 years of experience required" with
    no digit before it is senior. *)
Theorem C7_experience_level (text : string) :
  match year_digits (Str.lower text) with
  | Some d =>
      all_chars Str.is_digit d = true /\ (1 <= Str.len d)%nat
      /\ ((Str.len d <= max_str_digits)%nat ->
          exists years,
            py_int d = Some years
            /\ extract_experience_level text = Some (level_of_years years))
  | None =>
      extract_experience_level text
      = Some (keyword_level EXPERIENCE_LEVELS (Str.lower text))
  end
  /\ (forall years, level_table years (level_of_years years))
  /\ (forall pre post,
        digit_free pre = true ->
        extract_experience_level (pre ^^ five_to_seven ^^ post) = Some "senior").
Proof.
  split; [| split; [apply level_of_years_table | apply five_to_seven_senior]].
  pose proof (level_by_digits text) as H.
  destruct (year_digits (Str.lower text)) as [d|]; [| exact H].
  destruct H as [H1 [H2 [H3 _]]]. now repeat split.
Qed.

(** The claim as it stands fails on a text that has an earlier range. *)
Lemma C7_counterexample :
  Str.contains five_to_seven Samples.two_ranges = true
  /\ extract_experience_level Samples.two_ranges = Some "junior"
  /\ extract_experience_level Samples.two_ranges <> Some "senior".
Proof. repeat split; [vm_compute; reflexivity.. | vm_compute; discriminate]. Qed.

End LevelProperties.

(** ** The guard of the analysis *)

Section AnalysisProperties.

Import JdAnalyzer.

Variable set_order : list string -> list string.
Variable extract_top_keywords : string -> nat -> list string.

(** The analysis on any text: the empty mapping for a text of fewer
    than 50 characters once trimmed; for a longer text, the exception of
    [int] when the year count has more digits than [int] converts, and a
    profile otherwise. *)
Lemma analysis_cases (jd_text : string) :
  ((Str.len (Str.strip jd_text) < 50)%nat
   /\ analyze_jd set_order extract_top_keywords jd_text = EmptyMapping)
  \/ ((50 <= Str.len (Str.strip jd_text))%nat
      /\ ((exists d, Spec.year_digits (Str.lower jd_text) = Some d
                     /\ (max_str_digits < Str.len d)%nat
                     /\ analyze_jd set_order extract_top_keywords jd_text = Raised)
          \/ ((forall d, Spec.year_digits (Str.lower jd_text) = Some d ->
                         (Str.len d <= max_str_digits)%nat)
              /\ exists p,
                   analyze_jd set_order extract_top_keywords jd_text = Profile p
                   /\ raw_text p = jd_text
                   /\ extract_experience_level jd_text = Some (experience_level p)
                   /\ (length (technical_skills p) <= 30)%nat
                   /\ (length (soft_skills p) <= 10)%nat))).
Proof.
  unfold analyze_jd.
  destruct (Nat.ltb_spec (Str.len (Str.strip jd_text)) 50) as [Hshort | Hlong].
  - left. split; [assumption |]. now rewrite orb_true_r.
  - right. split; [assumption |].
    assert (Htruthy : Str.truthy jd_text = true)
      by (destruct jd_text; [simpl in Hlong; lia | reflexivity]).
    rewrite Htruthy. cbn [negb orb].
    destruct (level_returns_or_raises jd_text)
      as [[d [Hd [Hgt Hnone]]] | [Hmax [level Hlevel]]].
    + left. exists d. rewrite Hnone. now repeat split.
    + right. split; [exact Hmax |].
      rewrite Hlevel. eexists. split; [reflexivity |].
      cbn [raw_text experience_level technical_skills soft_skills].
      repeat split; rewrite length_take; lia.
Qed.

(** C6.  The claim holds of a text of fewer than 50 characters once
    trimmed, which gives the empty mapping, and of a longer text whose
    year count [int] converts, which gives a profile.  It fails on a
    longer text whose year count has more than 4300 digits: there [int]
    raises ValueError, nothing catches it, and the analysis raises.  The
    text "1-" followed by 4301 nines and " years" is such a text. *)
Theorem C6_analysis_raises_on_a_long_count :
  (forall jd_text,
     (Str.len (Str.strip jd_text) < 50)%nat ->
     analyze_jd set_order extract_top_keywords jd_text = EmptyMapping)
  /\ (forall jd_text,
        (50 <= Str.len (Str.strip jd_text))%nat ->
        (forall d, Spec.year_digits (Str.lower jd_text) = Some d ->
                   (Str.len d <= max_str_digits)%nat) ->
        exists p, analyze_jd set_order extract_top_keywords jd_text = Profile p)
  /\ (50 <= Str.len (Str.strip Samples.long_count))%nat
  /\ extract_experience_level Samples.long_count = None
  /\ analyze_jd set_order extract_top_keywords Samples.long_count = Raised.
Proof.
  assert (Hlen : (50 <= Str.len (Str.strip Samples.long_count))%nat)
    by (vm_compute; apply Nat.leb_le; vm_compute; reflexivity).
  assert (Hnone : extract_experience_level Samples.long_count = None)
    by (vm_compute; reflexivity).
  split; [| split; [| split; [exact Hlen | split; [exact Hnone |]]]].
  - intros jd_text Hshort.
    destruct (analysis_cases jd_text) as [[_ H] | [Hlong _]]; [exact H | lia].
  - intros jd_text Hlong Hmax.
    destruct (analysis_cases jd_text)
      as [[Hshort _] | [_ [[d [Hd [Hgt _]]] | [_ [p [Hp _]]]]]];
      [lia | specialize (Hmax d Hd); lia | now exists p].
  - destruct (analysis_cases Samples.long_count)
      as [[Hshort _] | [_ [[d [_ [_ H]]] | [_ [p [_ [_ [Hp _]]]]]]]];
      [lia | exact H | congruence].
Qed.

End AnalysisProperties.

(** ** The claims on sample inputs *)

Section Witnesses.

Import Samples.

Lemma C2_witness :
  In "java" (Optimizer.o_skills
               (Optimizer.optimized
                  (fst (Optimizer.optimize_resume plain_summary resume_1
                          profile_1 []))))
  /\ ~ In "java" (skills resume_1)
  /\ exists category category_skills r,
       In (category, category_skills) SkillsDb.SKILLS_DB
       /\ Optimizer.in_domain "java" category_skills = true
       /\ In r (skills resume_1)
       /\ Optimizer.in_domain r category_skills = true.
Proof.
  assert (H1 : In "java" (Optimizer.o_skills
                            (Optimizer.optimized
                               (fst (Optimizer.optimize_resume plain_summary
                                       resume_1 profile_1 [])))))
    by (vm_compute; tauto).
  assert (H2 : ~ In "java" (skills resume_1))
    by (simpl; intros [H | [H | []]]; discriminate H).
  split; [exact H1 | split; [exact H2 |]].
  exact (C2_skills_truthful plain_summary resume_1 profile_1 [] "java" H1 H2).
Defined.

Lemma C5_witness :
  (length (technical_skills profile_1) <= 100)%nat
  /\ (length (keywords profile_1) <= 100)%nat
  /\ (length (soft_skills profile_1) <= 100)%nat
  /\ Spec.category_ok resume_1 (technical_skills profile_1) 40
       (bd_technical_skills (breakdown (Ats.calculate_ats_score resume_1 profile_1)))
  /\ Spec.category_ok resume_1 (keywords profile_1) 30
       (bd_keywords (breakdown (Ats.calculate_ats_score resume_1 profile_1)))
  /\ Spec.category_ok resume_1 (soft_skills profile_1) 15
       (bd_soft_skills (breakdown (Ats.calculate_ats_score resume_1 profile_1)))
  /\ total (Ats.calculate_ats_score resume_1 profile_1)
     = Z.min (Z.max (Spec.share resume_1 (technical_skills profile_1) 40
                     + Spec.share resume_1 (keywords profile_1) 30
                     + Spec.share resume_1 (soft_skills profile_1) 15
                     + Ats.format_score resume_1) 15) 100.
Proof.
  assert (H1 : (length (technical_skills profile_1) <= 100)%nat) by (simpl; lia).
  assert (H2 : (length (keywords profile_1) <= 100)%nat) by (simpl; lia).
  assert (H3 : (length (soft_skills profile_1) <= 100)%nat) by (simpl; lia).
  split; [exact H1 | split; [exact H2 | split; [exact H3 |]]].
  exact (C5_category_scores resume_1 profile_1 H1 H2 H3).
Defined.

Lemma C10_witness :
  (160 <= Str.len (fst (Rewriter.replace_weak_verb long_bullet [])))%nat
  /\ snd (fst (Optimizer.enhance_bullet long_bullet [] ["docker"] [] [])) = []
  /\ ((5 <= Str.len long_bullet)%nat ->
      fst (fst (Optimizer.enhance_bullet long_bullet [] ["docker"] [] []))
      = Str.upper_first (fst (Rewriter.replace_weak_verb long_bullet []))).
Proof.
  assert (H : (160 <= Str.len (fst (Rewriter.replace_weak_verb long_bullet [])))%nat)
    by (apply Nat.leb_le; vm_compute; reflexivity).
  split; [exact H |].
  exact (C10_length_gate long_bullet [] ["docker"] [] [] H).
Defined.

(** The claim C10 as it stands fails on a long bullet that starts with a
    small letter: the text that comes back is not the rewritten text, its
    first letter is capitalised. *)
Lemma C10_counterexample :
  (160 <= Str.len (fst (Rewriter.replace_weak_verb long_bullet [])))%nat
  /\ fst (fst (Optimizer.enhance_bullet long_bullet [] ["docker"] [] []))
     <> fst (Rewriter.replace_weak_verb long_bullet []).
Proof.
  split; [apply Nat.leb_le; vm_compute; reflexivity |].
  vm_compute. discriminate.
Qed.

Lemma C7_witness :
  Spec.digit_free "We ask for " = true
  /\ JdAnalyzer.extract_experience_level
       ("We ask for " ^^ Spec.five_to_seven ^^ ", Python a plus.")
     = Some "senior".
Proof.
  assert (H : Spec.digit_free "We ask for " = true) by reflexivity.
  split; [exact H |].
  exact (proj2 (proj2 (C7_experience_level EmptyString))
           "We ask for " ", Python a plus." H).
Defined.

End Witnesses.

(** ** The scenarios of the specification, run on the embedding *)

Section Scenarios.

Import Samples.

(** The weak-phrase rewrite: the first rule decides, no draw is made. *)
Lemma rewrite_was_responsible (g : rng) :
  Rewriter.replace_weak_verb "Was responsible for managing a team of 5 engineers" g
  = ("Managed a team of 5 engineers", g).
Proof. reflexivity. Qed.

(** A weak opening verb takes a verb of the pool of its context, here
    the one of the collaboration pool that the draw names. *)
Lemma rewrite_helped_team :
  Rewriter.replace_weak_verb "helped the team ship" [3%nat]
  = ("Facilitated the team ship", []).
Proof. reflexivity. Qed.

(** No domain keyword: the domain is the default. *)
Lemma domain_default :
  JdAnalyzer.detect_industry_domain "We sell fresh bread every morning" = "Technology".
Proof. vm_compute. reflexivity. Qed.

(** The scenario of the year range. *)
Lemma level_five_to_seven :
  JdAnalyzer.extract_experience_level "5-7 years of experience required"
  = Some "senior".
Proof. vm_compute. reflexivity. Qed.

(** The grade at the three boundaries and just below the first. *)
Lemma grade_at_85 :
  let r := Ats.calculate_ats_score resume_2 (profile_of ["Python"] ["billing"]) in
  total r = 85 /\ grade r = "A".
Proof. vm_compute. split; reflexivity. Qed.

Lemma grade_at_70 :
  let r := Ats.calculate_ats_score resume_2
             (profile_of ["Python"] ["billing"; "ledger"]) in
  total r = 70 /\ grade r = "B".
Proof. vm_compute. split; reflexivity. Qed.

Lemma grade_at_55 :
  let r := Ats.calculate_ats_score resume_2 (profile_of ["Python"] []) in
  total r = 55 /\ grade r = "C".
Proof. vm_compute. split; reflexivity. Qed.

Lemma grade_at_15 :
  let r := Ats.calculate_ats_score resume_2 (profile_of ["cobol"] ["ledger"]) in
  total r = 15 /\ grade r = "D".
Proof. vm_compute. split; reflexivity. Qed.

(** The period left inside, as a run of the experience optimizer reaches
    it: the rewrite of a bullet of two lines keeps the space that
    follows the period of the first line. *)
Lemma period_left_inside_in_run :
  Optimizer.enhance_bullet two_line_bullet [] ["Docker"] [] []
  = ("Developed the login API., leveraging Docker.", ["Docker"], []).
Proof. vm_compute. reflexivity. Qed.

(** One run of the orchestrator on the sample résumé. *)
Lemma optimize_resume_sample :
  let o := fst (Optimizer.optimize_resume plain_summary resume_1 profile_1 []) in
  Optimizer.o_skills (Optimizer.optimized o)
  = ["Python"; "Docker"; "java"; "kubernetes"]
  /\ map bullets (Optimizer.o_experience (Optimizer.optimized o))
     = [["Built the billing API"; "Developed the login API";
         "Deployed the service to production using kubernetes."]]
  /\ Optimizer.ats_before o = 40
  /\ Optimizer.ats_after o = 67
  /\ Optimizer.keywords_added o = ["java"; "kubernetes"].
Proof. vm_compute. repeat split; reflexivity. Qed.

End Scenarios.

(** * Further properties of the code *)

(** ** More on strings *)

Lemma startswith_cat (p a b : string) :
  Str.startswith p a = true -> Str.startswith p (a ^^ b) = true.
Proof.
  revert a. induction p as [|x p IH]; intros a; [reflexivity |].
  destruct a as [|y a]; simpl; [discriminate |].
  intros H. apply andb_true_iff in H as [Hxy H]. rewrite Hxy. now apply IH.
Qed.

Lemma startswith_self_cat (p b : string) : Str.startswith p (p ^^ b) = true.
Proof.
  induction p as [|x p IH]; simpl; [reflexivity |].
  now rewrite Ascii.eqb_refl, IH.
Qed.

Lemma contains_cat_l (n a b : string) :
  Str.contains n a = true -> Str.contains n (a ^^ b) = true.
Proof.
  induction a as [|x a IH]; simpl.
  - rewrite orb_false_r. intros H. destruct n; [| discriminate].
    destruct b; reflexivity.
  - intros H. apply orb_true_iff in H as [H | H].
    + apply (startswith_cat n (String x a) b) in H. simpl in H. rewrite H.
      reflexivity.
    + rewrite (IH H). apply orb_true_r.
Qed.

Lemma contains_cat_r (n a b : string) :
  Str.contains n b = true -> Str.contains n (a ^^ b) = true.
Proof.
  intros H. induction a as [|x a IH]; simpl; [exact H |].
  rewrite IH. apply orb_true_r.
Qed.

Lemma contains_middle (n a b : string) : Str.contains n (a ^^ n ^^ b) = true.
Proof.
  apply contains_cat_r. destruct (n ^^ b) eqn:E.
  - destruct n; [reflexivity | discriminate].
  - rewrite <- E. simpl.
    pose proof (startswith_self_cat n b) as H. rewrite E in *. simpl in H.
    destruct n; [reflexivity |]. simpl. simpl in H. rewrite H. reflexivity.
Qed.

Lemma lower_char_upper_char (c : ascii) :
  Str.lower_char (Str.upper_char c) = Str.lower_char c.
Proof. destruct c as [[] [] [] [] [] [] [] []]; reflexivity. Qed.

Lemma lower_upper_first (s : string) : Str.lower (Str.upper_first s) = Str.lower s.
Proof. destruct s; simpl; [reflexivity | now rewrite lower_char_upper_char]. Qed.

Lemma drop_last_cons (c c' : ascii) (s : string) :
  Str.drop_last (String c (String c' s)) = String c (Str.drop_last (String c' s)).
Proof. reflexivity. Qed.

Lemma len_drop_last (s : string) : Str.len (Str.drop_last s) = (Str.len s - 1)%nat.
Proof.
  induction s as [|c s IH]; [reflexivity |].
  destruct s as [|c' s]; [reflexivity |].
  rewrite drop_last_cons.
  change (Str.len (String c (Str.drop_last (String c' s))))
    with (S (Str.len (Str.drop_last (String c' s)))).
  rewrite IH. simpl. lia.
Qed.

Lemma startswith_drop_last (s : string) : Str.startswith (Str.drop_last s) s = true.
Proof.
  induction s as [|c s IH]; [reflexivity |].
  destruct s as [|c' s]; [reflexivity |].
  rewrite drop_last_cons.
  change (Str.startswith (String c (Str.drop_last (String c' s)))
            (String c (String c' s)))
    with (Ascii.eqb c c
          && Str.startswith (Str.drop_last (String c' s)) (String c' s)).
  now rewrite Ascii.eqb_refl, IH.
Qed.

Lemma endswith_period_nonempty (s : string) :
  Str.endswith_period s = true -> s <> EmptyString.
Proof. destruct s; [discriminate | discriminate]. Qed.

Lemma rstrip_empty_inv (s : string) :
  Str.endswith_period (Str.rstrip s) = true -> s <> EmptyString.
Proof. destruct s; [discriminate | discriminate]. Qed.

(** ** What an insertion does to a bullet *)

Section InsertionShape.

Import Insertion Derived.

Lemma append_clause_shape (bullet clause : string) :
  append_clause bullet clause = bullet ^^ clause
  \/ (bullet <> EmptyString
      /\ append_clause bullet clause = Str.drop_last bullet ^^ clause ^^ ".").
Proof.
  unfold append_clause.
  destruct (Str.endswith_period (Str.rstrip bullet)) eqn:E; [| now left].
  right. split; [| reflexivity]. now apply rstrip_empty_inv.
Qed.

Lemma insert_keyword_shape (bullet keyword : string) :
  insert_keyword_naturally bullet keyword = bullet
  \/ (Str.contains (Str.lower keyword) (Str.lower bullet) = false
      /\ is_contextually_relevant keyword bullet = true
      /\ exists lead, In lead leads
           /\ insert_keyword_naturally bullet keyword
              = append_clause bullet (lead ^^ keyword)).
Proof.
  unfold insert_keyword_naturally.
  destruct (Str.contains (Str.lower keyword) (Str.lower bullet)) eqn:Hc;
    [now left |].
  destruct (is_contextually_relevant keyword bullet) eqn:Hr; [| now left].
  cbn [negb].
  match goal with |- context [if ?c then _ else _] => destruct c end.
  { right. repeat split. exists ", leveraging ". split; [cbv; tauto | reflexivity]. }
  match goal with |- context [if ?c then _ else _] => destruct c end.
  { right. repeat split. exists " with ". split; [cbv; tauto | reflexivity]. }
  match goal with |- context [if ?c then _ else _] => destruct c end; [| now left].
  right. repeat split.
  destruct (Str.mem (Str.lower keyword) ["aws"; "azure"; "gcp"; "eks"; "gke"]).
  - exists " on ". split; [cbv; tauto | reflexivity].
  - exists " using ". split; [cbv; tauto | reflexivity].
Qed.

Lemma contains_lower_inside (k a lead b : string) :
  Str.contains (Str.lower k) (Str.lower (a ^^ (lead ^^ k) ^^ b)) = true.
Proof.
  rewrite !lower_cat.
  rewrite (cat_assoc (Str.lower lead)), <- (cat_assoc (Str.lower a)).
  apply contains_middle.
Qed.

Lemma insertion_contains_keyword (bullet keyword : string) :
  insert_keyword_naturally bullet keyword <> bullet ->
  Str.contains (Str.lower keyword)
    (Str.lower (insert_keyword_naturally bullet keyword)) = true.
Proof.
  intros Hne.
  destruct (insert_keyword_shape bullet keyword)
    as [H | [_ [_ [lead [_ H]]]]]; [contradiction |].
  rewrite H.
  destruct (append_clause_shape bullet (lead ^^ keyword)) as [-> | [_ ->]].
  - rewrite <- (cat_empty_r (bullet ^^ lead ^^ keyword)), cat_assoc.
    apply contains_lower_inside.
  - apply contains_lower_inside.
Qed.

(** An insertion that changes the bullet puts the keyword in it. *)
Theorem inserted_keyword_is_present (bullet keyword : string) :
  insert_keyword_naturally bullet keyword <> bullet ->
  Str.contains (Str.lower keyword)
    (Str.lower (insert_keyword_naturally bullet keyword)) = true.
Proof. exact (insertion_contains_keyword bullet keyword). Qed.

Lemma inserted_keyword_is_present_witness :
  insert_keyword_naturally "Built the billing API" "Docker" <> "Built the billing API"
  /\ Str.contains (Str.lower "Docker")
       (Str.lower (insert_keyword_naturally "Built the billing API" "Docker"))
     = true.
Proof.
  assert (H : insert_keyword_naturally "Built the billing API" "Docker"
              <> "Built the billing API") by (vm_compute; discriminate).
  split; [exact H |].
  exact (inserted_keyword_is_present _ _ H).
Defined.

(** Inserting the same keyword a second time changes nothing. *)
Theorem insert_keyword_idempotent (bullet keyword : string) :
  insert_keyword_naturally (insert_keyword_naturally bullet keyword) keyword
  = insert_keyword_naturally bullet keyword.
Proof.
  destruct (String.eqb (insert_keyword_naturally bullet keyword) bullet) eqn:E.
  - apply String.eqb_eq in E. now rewrite !E.
  - apply String.eqb_neq in E. apply insertion_contains_keyword in E.
    unfold insert_keyword_naturally at 1. now rewrite E.
Qed.

Lemma insertion_appends (bullet keyword : string) :
  Str.startswith (Str.drop_last bullet) (insert_keyword_naturally bullet keyword)
  = true
  /\ (Str.len bullet <= Str.len (insert_keyword_naturally bullet keyword))%nat.
Proof.
  destruct (insert_keyword_shape bullet keyword)
    as [-> | [_ [_ [lead [_ ->]]]]].
  - split; [apply startswith_drop_last | lia].
  - destruct (append_clause_shape bullet (lead ^^ keyword)) as [-> | [Hne ->]].
    + split; [apply startswith_cat, startswith_drop_last |].
      rewrite len_cat. lia.
    + split; [apply startswith_self_cat |].
      rewrite !len_cat, len_drop_last. simpl.
      destruct bullet; [congruence | simpl; lia].
Qed.

(** An insertion only appends: the bullet, its last character apart, is
    the beginning of the result, and the result is not shorter. *)
Theorem insert_keyword_only_appends (bullet keyword : string) :
  Str.startswith (Str.drop_last bullet) (insert_keyword_naturally bullet keyword)
  = true
  /\ (Str.len bullet <= Str.len (insert_keyword_naturally bullet keyword))%nat.
Proof. exact (insertion_appends bullet keyword). Qed.

(** A database keyword is inserted in a data bullet only. *)
Theorem database_keyword_needs_data (bullet keyword : string) :
  In (Str.lower keyword) db_kws ->
  (forall t, In t data_terms -> Str.contains t (Str.lower bullet) = false) ->
  insert_keyword_naturally bullet keyword = bullet.
Proof.
  intros Hkw Hnone.
  destruct (insert_keyword_shape bullet keyword) as [H | [Hc [Hr _]]];
    [exact H |].
  exfalso. unfold is_contextually_relevant in Hr. rewrite Hc in Hr.
  assert (Hdb : exists k, k = Str.lower keyword /\ In k db_kws) by eauto.
  destruct Hdb as [k [Hk Hin]]. rewrite <- Hk in Hr.
  unfold db_kws in Hin.
  assert (Hdata : bullet_is_data (Str.lower bullet) = false)
    by (apply any_in_false; exact Hnone).
  set (is_data := bullet_is_data (Str.lower bullet)) in *.
  clearbody is_data.
  repeat (destruct Hin as [<- | Hin]; [cbn in Hr; congruence |]).
  destruct Hin.
Qed.

Lemma database_keyword_needs_data_witness :
  In (Str.lower "PostgreSQL") db_kws
  /\ (forall t, In t data_terms ->
        Str.contains t (Str.lower "Built the login page") = false)
  /\ insert_keyword_naturally "Built the login page" "PostgreSQL"
     = "Built the login page".
Proof.
  assert (Hkw : In (Str.lower "PostgreSQL") db_kws) by (cbv; tauto).
  assert (Hnone : forall t, In t data_terms ->
            Str.contains t (Str.lower "Built the login page") = false).
  { intros t Ht. unfold data_terms in Ht.
    repeat (destruct Ht as [<- | Ht]; [reflexivity |]). destruct Ht. }
  split; [exact Hkw | split; [exact Hnone |]].
  exact (database_keyword_needs_data _ _ Hkw Hnone).
Defined.

Lemma mem_false (x : string) (xs : list string) : ~ In x xs -> Str.mem x xs = false.
Proof.
  intros H. destruct (Str.mem x xs) eqn:E; [| reflexivity].
  apply mem_In in E. contradiction.
Qed.

Lemma lang_triggers_none (k : string) :
  ~ In k (map fst lang_kws) -> lang_triggers k lang_kws = None.
Proof.
  unfold lang_kws. simpl. intros H.
  repeat match goal with
    | |- context [String.eqb k ?l] =>
        destruct (String.eqb_spec k l); [exfalso; apply H; subst; tauto |]
    end.
  reflexivity.
Qed.

(** A keyword of three characters or fewer that belongs to no gated
    family ("Git", "SQL", "R") is never inserted. *)
Theorem short_keyword_is_never_inserted (bullet keyword : string) :
  (Str.len keyword <= 3)%nat ->
  ~ In (Str.lower keyword) gated_kws ->
  insert_keyword_naturally bullet keyword = bullet.
Proof.
  intros Hlen Hfree.
  destruct (insert_keyword_shape bullet keyword) as [H | [Hc [Hr _]]];
    [exact H |].
  exfalso. unfold is_contextually_relevant in Hr. rewrite Hc in Hr.
  unfold gated_kws in Hfree. rewrite !in_app_iff in Hfree.
  rewrite !mem_false in Hr by tauto.
  rewrite lang_triggers_none in Hr by tauto.
  apply andb_true_iff in Hr as [_ Hr]. apply Nat.ltb_lt in Hr. lia.
Qed.

Lemma short_keyword_is_never_inserted_witness :
  (Str.len "Git" <= 3)%nat
  /\ ~ In (Str.lower "Git") gated_kws
  /\ insert_keyword_naturally "Built the billing API" "Git"
     = "Built the billing API".
Proof.
  assert (Hlen : (Str.len "Git" <= 3)%nat) by (simpl; lia).
  assert (Hfree : ~ In (Str.lower "Git") gated_kws).
  { intros H. cbv in H.
    repeat (destruct H as [H | H]; [discriminate H |]). exact H. }
  split; [exact Hlen | split; [exact Hfree |]].
  exact (short_keyword_is_never_inserted _ _ Hlen Hfree).
Defined.

End InsertionShape.

(** ** The rewriter and the enhancer at the edges *)

Section EnhancerEdges.

Import Optimizer Spec Derived.

Lemma truthy_cat_r (a b : string) : Str.truthy b = true -> Str.truthy (a ^^ b) = true.
Proof. destruct a; [trivial | reflexivity]. Qed.

Lemma truthy_len (s : string) : Str.truthy s = true <-> (1 <= Str.len s)%nat.
Proof. destruct s; simpl; split; try discriminate; try lia; reflexivity. Qed.

Lemma choice_draws (xs : list string) (g : rng) : snd (choice xs g) = tl g.
Proof. destruct g; reflexivity. Qed.

Lemma replace_weak_verb_cases (sentence : string) (g : rng) :
  (Str.blank sentence = true
   /\ Rewriter.replace_weak_verb sentence g = (EmptyString, g))
  \/ (Str.blank sentence = false
      /\ Str.truthy (fst (Rewriter.replace_weak_verb sentence g)) = true
      /\ (snd (Rewriter.replace_weak_verb sentence g) = g
          \/ snd (Rewriter.replace_weak_verb sentence g) = tl g)).
Proof.
  unfold Str.blank, Rewriter.replace_weak_verb.
  destruct (Str.strip sentence) as [|c0 s0] eqn:Hs; [left; now split |].
  right. split; [reflexivity |]. cbn [Str.truthy negb].
  destruct (Str.truthy (Str.strip (Rewriter.drop_glyphs (String c0 s0))));
    cbn [negb]; [| split; [reflexivity | now left]].
  destruct (Rewriter.apply_smart_transform
              (Str.strip (Rewriter.drop_glyphs (String c0 s0)))) as [[|c t]|];
    try (split; [reflexivity | now left]);
    (destruct (Str.split (Str.strip (Rewriter.drop_glyphs (String c0 s0))))
       as [|w ws]; [split; [reflexivity | now left] |];
     destruct (List.find (Rewriter.is_weak_opening (Str.lower w))
                 SkillsDb.WEAK_VERBS); [| split; [reflexivity | now left]];
     match goal with
     | |- context [choice ?pool g] =>
         pose proof (choice_draws pool g) as Hd;
         destruct (choice pool g) as [verb g1]
     end;
     cbn [snd] in Hd;
     destruct (Str.truthy (Str.join " " ws)); cbn [fst snd];
     (split; [try reflexivity; apply truthy_cat_r; reflexivity | now right])).
Qed.

(** The rewriter gives the empty text on a blank sentence, without a
    draw, and a text that is not empty on any other, with one draw at
    most. *)
Theorem rewrite_blank_or_nonempty (sentence : string) (g : rng) :
  (Str.blank sentence = true
   /\ Rewriter.replace_weak_verb sentence g = (EmptyString, g))
  \/ (Str.blank sentence = false
      /\ Str.truthy (fst (Rewriter.replace_weak_verb sentence g)) = true
      /\ (snd (Rewriter.replace_weak_verb sentence g) = g
          \/ snd (Rewriter.replace_weak_verb sentence g) = tl g)).
Proof. exact (replace_weak_verb_cases sentence g). Qed.

Lemma blank_false_truthy (s : string) : Str.blank s = false -> Str.truthy s = true.
Proof. destruct s; [discriminate | reflexivity]. Qed.

Lemma truthy_upper_first (s : string) :
  Str.truthy (Str.upper_first s) = Str.truthy s.
Proof. destruct s; reflexivity. Qed.

(** The enhancer never empties a bullet that is not blank. *)
Lemma enhance_bullet_nonempty (bullet : string) (jd_keywords jd_skills used : list string)
  (g : rng) :
  Str.blank bullet = false ->
  Str.truthy (fst (fst (enhance_bullet bullet jd_keywords jd_skills used g))) = true.
Proof.
  intros Hb.
  assert (Hrw : Str.truthy (fst (Rewriter.replace_weak_verb bullet g)) = true).
  { destruct (replace_weak_verb_cases bullet g) as [[H _] | [_ [H _]]];
      [congruence | exact H]. }
  destruct (enhance_bullet_cases bullet jd_keywords jd_skills used g)
    as [[_ H] | [[_ H] | [_ [_ [k [_ [_ [_ H]]]]]]]]; rewrite H; cbn [fst].
  - now apply blank_false_truthy.
  - now rewrite truthy_upper_first.
  - rewrite truthy_upper_first. apply truthy_len.
    apply truthy_len in Hrw.
    pose proof (proj2 (insertion_appends
                         (fst (Rewriter.replace_weak_verb bullet g)) k)).
    lia.
Qed.

Lemma optimize_bullets_nonempty (jd_keywords jd_skills : list string) :
  forall (bs used : list string) (g : rng),
    Forall (fun b => Str.truthy b = true)
      (fst (fst (optimize_bullets bs jd_keywords jd_skills used g))).
Proof.
  induction bs as [|b bs IH]; intros used g; simpl; [constructor |].
  destruct (Str.blank b) eqn:Hb; [apply IH |].
  pose proof (enhance_bullet_nonempty b jd_keywords jd_skills used g Hb) as H1.
  destruct (enhance_bullet b jd_keywords jd_skills used g) as [[text used1] g1].
  specialize (IH used1 g1).
  destruct (optimize_bullets bs jd_keywords jd_skills used1 g1) as [[out used2] g2].
  cbn [fst] in *. now constructor.
Qed.

Lemma optimize_entries_nonempty (jd_keywords jd_skills : list string) :
  forall (es : list experience_entry) (used : list string) (g : rng),
    Forall (fun e => Forall (fun b => Str.truthy b = true) (bullets e))
      (fst (fst (optimize_entries es jd_keywords jd_skills used g))).
Proof.
  induction es as [|e es IH]; intros used g; simpl; [constructor |].
  pose proof (optimize_bullets_nonempty jd_keywords jd_skills (bullets e) used g)
    as H1.
  destruct (optimize_bullets (bullets e) jd_keywords jd_skills used g)
    as [[out used1] g1].
  specialize (IH used1 g1).
  destruct (optimize_entries es jd_keywords jd_skills used1 g1) as [[out' used2] g2].
  cbn [fst] in *. constructor; [exact H1 | exact IH].
Qed.

(** No bullet of the optimized experience is empty. *)
Theorem optimized_bullets_are_nonempty (E : list experience_entry) (J : jd_profile)
  (g : rng) :
  Forall (fun e => Forall (fun b => Str.truthy b = true) (bullets e))
    (fst (optimize_experience E J g)).
Proof.
  unfold optimize_experience, optimize_experience_run.
  pose proof (optimize_entries_nonempty (take 10 (keywords J))
                (take 12 (technical_skills J)) E [] g) as H.
  destruct (optimize_entries E (take 10 (keywords J))
              (take 12 (technical_skills J)) [] g) as [[out used] g'].
  exact H.
Qed.

(** The keyword that a call of the enhancer records as inserted is in
    the text that the call returns. *)
Theorem recorded_keyword_is_in_the_text (bullet : string)
  (jd_keywords jd_skills used : list string) (g : rng) (k : string) :
  snd (fst (enhance_bullet bullet jd_keywords jd_skills used g)) = used ++ [k] ->
  Str.contains (Str.lower k)
    (Str.lower (fst (fst (enhance_bullet bullet jd_keywords jd_skills used g))))
  = true.
Proof.
  destruct (enhance_bullet_cases bullet jd_keywords jd_skills used g)
    as [[_ H] | [[_ H] | [_ [_ [k' [_ [_ [Hne H]]]]]]]]; rewrite H; cbn [fst snd].
  - intros Hu. apply (f_equal (@length string)) in Hu.
    rewrite length_app in Hu. simpl in Hu. lia.
  - intros Hu. apply (f_equal (@length string)) in Hu.
    rewrite length_app in Hu. simpl in Hu. lia.
  - intros Hu. apply app_inv_head in Hu. injection Hu as ->.
    rewrite lower_upper_first. now apply insertion_contains_keyword.
Qed.

Lemma recorded_keyword_is_in_the_text_witness :
  snd (fst (enhance_bullet "Built the billing API" [] ["Docker"] [] []))
  = [] ++ ["Docker"]
  /\ Str.contains (Str.lower "Docker")
       (Str.lower (fst (fst (enhance_bullet "Built the billing API" []
                               ["Docker"] [] []))))
     = true.
Proof.
  assert (H : snd (fst (enhance_bullet "Built the billing API" [] ["Docker"] [] []))
              = [] ++ ["Docker"]) by (vm_compute; reflexivity).
  split; [exact H |].
  exact (recorded_keyword_is_in_the_text _ _ _ _ _ _ H).
Defined.

(** In a run of the experience optimizer every keyword that a bullet
    receives is one of the first twelve technical skills of the profile;
    twelve bullets at most of the whole résumé receive a keyword, and no
    more than there are bullets that are kept. *)
Theorem insertions_are_bounded (E : list experience_entry) (J : jd_profile) (g : rng) :
  exists events,
    Forall3 (received (take 12 (technical_skills J))) (all_kept E)
      (all_bullets (fst (optimize_experience E J g))) events
    /\ (forall k, In k (inserted events) -> In k (take 12 (technical_skills J)))
    /\ (length (inserted events) <= 12)%nat
    /\ (length (inserted events) <= kept_count E)%nat.
Proof.
  destruct (run_events E J g) as [events [Hr [_ [Hnd Hsub]]]].
  exists events. split; [exact Hr | split; [exact Hsub | split]].
  - apply (List.NoDup_incl_length Hnd) in Hsub.
    rewrite length_take in Hsub. lia.
  - pose proof (inserted_length events) as Hlen.
    apply Forall3_length_lr in Hr. unfold kept_count.
    unfold all_kept in Hr. lia.
Qed.

End EnhancerEdges.

(** ** The keyword diff *)

Section KeywordDiff.

Import Optimizer.

(** What the loop keeps true of its two lists. *)
Lemma diff_loop_sound (kws0 : list string) (before_lower after_lower : string) :
  forall (kws : list string) (seen : gset string) (added had : list string),
    (forall k, In k kws -> In k kws0) ->
    (forall x, In x added \/ In x had -> Str.lower x ∈ seen) ->
    List.NoDup (map Str.lower had) ->
    (forall x y, In x added -> In y had -> Str.lower x <> Str.lower y) ->
    (forall k, In k added ->
       In k kws0 /\ (3 <= Str.len k)%nat
       /\ Str.contains (Str.lower k) after_lower = true
       /\ Str.contains (Str.lower k) before_lower = false) ->
    (forall k, In k had ->
       In k kws0 /\ (3 <= Str.len k)%nat
       /\ Str.contains (Str.lower k) after_lower = true
       /\ Str.contains (Str.lower k) before_lower = true) ->
    let r := diff_loop kws before_lower after_lower seen added had in
    List.NoDup (map Str.lower (snd r))
    /\ (forall x y, In x (fst r) -> In y (snd r) -> Str.lower x <> Str.lower y)
    /\ (forall k, In k (fst r) ->
          In k kws0 /\ (3 <= Str.len k)%nat
          /\ Str.contains (Str.lower k) after_lower = true
          /\ Str.contains (Str.lower k) before_lower = false)
    /\ (forall k, In k (snd r) ->
          In k kws0 /\ (3 <= Str.len k)%nat
          /\ Str.contains (Str.lower k) after_lower = true
          /\ Str.contains (Str.lower k) before_lower = true).
Proof.
  induction kws as [|kw kws IH]; intros seen added had Hsub Hseen Hnd Hdis Ha Hh;
    cbn [diff_loop]; [cbn [fst snd]; tauto |].
  assert (Hsub' : forall k, In k kws -> In k kws0)
    by (intros k Hk; apply Hsub; now right).
  destruct (bool_decide (Str.lower kw ∈ seen)) eqn:Hin; cbn [orb];
    [now apply IH |].
  apply bool_decide_eq_false in Hin.
  destruct (Nat.ltb_spec (Str.len (Str.lower kw)) 3) as [Hshort | Hlong];
    [now apply IH |].
  rewrite len_lower in Hlong.
  assert (Hseen' : forall x, In x added \/ In x had ->
                             Str.lower x ∈ {[Str.lower kw]} ∪ seen)
    by (intros x Hx; apply elem_of_union_r, Hseen, Hx).
  assert (Hfresh : forall x, In x added \/ In x had -> Str.lower x <> Str.lower kw)
    by (intros x Hx Heq; apply Hin; rewrite <- Heq; now apply Hseen).
  destruct (Str.contains (Str.lower kw) after_lower) eqn:Hafter;
    [| now apply IH].
  destruct (Str.contains (Str.lower kw) before_lower) eqn:Hbefore.
  - apply IH; try assumption.
    + intros x [Hx | Hx]; [apply Hseen'; now left |].
      apply in_app_iff in Hx as [Hx | [<- | []]];
        [apply Hseen'; now right
        | apply elem_of_union_l, elem_of_singleton; reflexivity].
    + rewrite map_app. cbn [map]. apply NoDup_snoc_fresh; [assumption |].
      intros Hx. apply in_map_iff in Hx as [x [Hx Hinx]].
      apply (Hfresh x); [now right | exact Hx].
    + intros x y Hx Hy. apply in_app_iff in Hy as [Hy | [<- | []]];
        [now apply Hdis | apply Hfresh; now left].
    + intros k Hk. apply in_app_iff in Hk as [Hk | [<- | []]];
        [now apply Hh |].
      repeat split; try assumption. apply Hsub. now left.
  - apply IH; try assumption.
    + intros x [Hx | Hx]; [| apply Hseen'; now right].
      apply in_app_iff in Hx as [Hx | [<- | []]];
        [apply Hseen'; now left
        | apply elem_of_union_l, elem_of_singleton; reflexivity].
    + intros x y Hx Hy. apply in_app_iff in Hx as [Hx | [<- | []]];
        [now apply Hdis |].
      intros Heq. apply (Hfresh y); [now right | now symmetry].
    + intros k Hk. apply in_app_iff in Hk as [Hk | [<- | []]];
        [now apply Ha |].
      repeat split; try assumption. apply Hsub. now left.
Qed.

Lemma In_take (n : nat) (l : list string) (x : string) : In x (take n l) -> In x l.
Proof.
  revert n. induction l as [|y l IH]; intros n; destruct n; simpl;
    try contradiction.
  intros [-> | H]; [now left | right; eauto].
Qed.

(** The keyword diff reports what it should: an added keyword is a JD
    keyword of three characters or more that the text has after the
    optimization and did not have before, an existing one is in both;
    no keyword is in the two lists, even up to case, and each list has
    fifteen entries at most. *)
Theorem keyword_diff_is_sound (before_text after_text : string)
  (jd_keywords : list string) :
  (forall k, In k (added (compute_keyword_diff before_text after_text jd_keywords)) ->
     In k jd_keywords /\ (3 <= Str.len k)%nat
     /\ Str.contains (Str.lower k) (Str.lower after_text) = true
     /\ Str.contains (Str.lower k) (Str.lower before_text) = false)
  /\ (forall k,
        In k (already_had (compute_keyword_diff before_text after_text jd_keywords)) ->
        In k jd_keywords /\ (3 <= Str.len k)%nat
        /\ Str.contains (Str.lower k) (Str.lower after_text) = true
        /\ Str.contains (Str.lower k) (Str.lower before_text) = true)
  /\ (forall x y,
        In x (added (compute_keyword_diff before_text after_text jd_keywords)) ->
        In y (already_had (compute_keyword_diff before_text after_text jd_keywords)) ->
        Str.lower x <> Str.lower y)
  /\ List.NoDup
       (map Str.lower
          (already_had (compute_keyword_diff before_text after_text jd_keywords)))
  /\ (length (added (compute_keyword_diff before_text after_text jd_keywords))
      <= 15)%nat
  /\ (length (already_had (compute_keyword_diff before_text after_text jd_keywords))
      <= 15)%nat.
Proof.
  unfold compute_keyword_diff.
  pose proof (diff_loop_sound jd_keywords (Str.lower before_text)
                (Str.lower after_text) jd_keywords ∅ [] []) as H.
  cbv zeta in H.
  destruct (diff_loop jd_keywords (Str.lower before_text) (Str.lower after_text)
              ∅ [] []) as [added0 had0].
  cbn [fst snd added already_had] in *.
  destruct H as [Hnd [Hdis [Ha Hh]]];
    [tauto | intros x [[] | []] | constructor | intros x y []
    | intros k [] | intros k [] |].
  refine (conj _ (conj _ (conj _ (conj _ (conj _ _))))).
  - intros k Hk. apply Ha. eapply In_take, Hk.
  - intros k Hk. apply Hh. eapply In_take, Hk.
  - intros x y Hx Hy. apply Hdis; eapply In_take; eassumption.
  - now apply NoDup_map_take.
  - rewrite length_take. lia.
  - rewrite length_take. lia.
Qed.

End KeywordDiff.

(** ** The skills section: what is kept and what is added *)

Section SkillsSection.

Import Optimizer.

Lemma dedupe_NoDup :
  forall (l : list string) (seen : gset string) (acc : list string),
    List.NoDup (map Str.lower acc) ->
    (forall x, In x acc -> Str.lower x ∈ seen) ->
    List.NoDup (map Str.lower (dedupe l seen acc)).
Proof.
  induction l as [|x l IH]; intros seen acc Hnd Hseen; simpl; [assumption |].
  destruct (bool_decide (Str.lower x ∈ seen)) eqn:Hin; [now apply IH |].
  apply bool_decide_eq_false in Hin. apply IH.
  - rewrite map_app. simpl. apply NoDup_snoc_fresh; [assumption |].
    intros Hx. apply in_map_iff in Hx as [y [Hy Hiny]].
    apply Hin. rewrite <- Hy. now apply Hseen.
  - intros y Hy. apply in_app_iff in Hy as [Hy | [<- | []]].
    + apply elem_of_union_r. now apply Hseen.
    + apply elem_of_union_l, elem_of_singleton. reflexivity.
Qed.

Lemma dedupe_keeps :
  forall (l : list string) (seen : gset string) (acc : list string),
    (forall k, k ∈ seen -> exists s, In s acc /\ Str.lower s = k) ->
    forall x, In x l \/ In x acc ->
              exists s, In s (dedupe l seen acc) /\ Str.lower s = Str.lower x.
Proof.
  induction l as [|y l IH]; intros seen acc Hseen x Hx; simpl.
  - destruct Hx as [[] | Hx]. now exists x.
  - destruct (bool_decide (Str.lower y ∈ seen)) eqn:Hin.
    + apply bool_decide_eq_true in Hin.
      destruct Hx as [[-> | Hx] | Hx].
      * destruct (Hseen _ Hin) as [s [Hs Heq]].
        destruct (IH seen acc Hseen s (or_intror Hs)) as [s' [Hs' Heq']].
        exists s'. split; [assumption | congruence].
      * apply (IH seen acc Hseen). now left.
      * apply (IH seen acc Hseen). now right.
    + assert (Hseen' : forall k, k ∈ {[Str.lower y]} ∪ seen ->
                exists s, In s (acc ++ [y]) /\ Str.lower s = k).
      { intros k Hk. apply elem_of_union in Hk as [Hk | Hk].
        - apply elem_of_singleton in Hk as ->. exists y.
          split; [apply in_app_iff; right; now left | reflexivity].
        - destruct (Hseen k Hk) as [s [Hs Heq]]. exists s.
          split; [apply in_app_iff; now left | assumption]. }
      apply (IH _ _ Hseen').
      destruct Hx as [[-> | Hx] | Hx].
      * right. apply in_app_iff. right. now left.
      * now left.
      * right. apply in_app_iff. now left.
Qed.

Lemma dedupe_extends :
  forall (m : list string) (seen : gset string) (acc : list string),
    exists extra, dedupe m seen acc = acc ++ extra
                  /\ forall s, In s extra -> In s m.
Proof.
  induction m as [|y m IH]; intros seen acc; simpl.
  - exists []. split; [now rewrite app_nil_r | intros s []].
  - destruct (bool_decide (Str.lower y ∈ seen)).
    + destruct (IH seen acc) as [extra [-> Hsub]]. exists extra.
      split; [reflexivity | intros s Hs; right; now apply Hsub].
    + destruct (IH ({[Str.lower y]} ∪ seen) (acc ++ [y])) as [extra [-> Hsub]].
      exists (y :: extra). split; [now rewrite <- app_assoc |].
      intros s [-> | Hs]; [now left | right; now apply Hsub].
Qed.

Lemma dedupe_app_fresh :
  forall (l : list string) (seen : gset string) (acc m : list string),
    List.NoDup (map Str.lower l) ->
    (forall x, In x l -> ~ Str.lower x ∈ seen) ->
    exists extra, dedupe (l ++ m) seen acc = acc ++ l ++ extra
                  /\ forall s, In s extra -> In s m.
Proof.
  induction l as [|x l IH]; intros seen acc m Hnd Hfresh; simpl.
  - apply dedupe_extends.
  - inversion Hnd as [|? ? Hx Hl]; subst.
    destruct (bool_decide (Str.lower x ∈ seen)) eqn:Hin.
    + apply bool_decide_eq_true in Hin. exfalso.
      apply (Hfresh x); [now left | exact Hin].
    + destruct (IH ({[Str.lower x]} ∪ seen) (acc ++ [x]) m Hl)
        as [extra [-> Hsub]].
      * intros y Hy Hiny. apply elem_of_union in Hiny as [Hiny | Hiny].
        -- apply elem_of_singleton in Hiny. apply Hx. rewrite <- Hiny.
           now apply in_map.
        -- apply (Hfresh y); [now right | exact Hiny].
      * exists extra. split; [now rewrite <- app_assoc | exact Hsub].
Qed.

Lemma add_jd_skills_extends (db : list (string * list string)) (text : string)
  (existing : gset string) :
  forall (jd current : list string),
    exists extra, add_jd_skills db jd text existing current = current ++ extra
                  /\ forall s, In s extra -> In s jd.
Proof.
  induction jd as [|y jd IH]; intros current; simpl.
  - exists []. split; [now rewrite app_nil_r | intros s []].
  - assert (Hskip : exists extra,
               add_jd_skills db jd text existing current = current ++ extra
               /\ forall s, In s extra -> In s (y :: jd)).
    { destruct (IH current) as [extra [-> Hsub]]. exists extra.
      split; [reflexivity | intros s Hs; right; now apply Hsub]. }
    destruct (Str.contains (Str.lower y) text); [exact Hskip |].
    destruct (skill_domain_in db y) as [d|]; [| exact Hskip].
    destruct (Str.truthy d && bool_decide (d ∈ existing)); [| exact Hskip].
    destruct (IH (current ++ [y])) as [extra [-> Hsub]].
    exists (y :: extra). split; [now rewrite <- app_assoc |].
    intros s [-> | Hs]; [now left | right; now apply Hsub].
Qed.

(** No two skills of the optimized list are equal up to case. *)
Theorem optimized_skills_have_no_case_duplicates (resume_skills : list string)
  (J : jd_profile) :
  List.NoDup (map Str.lower (optimize_skills_section resume_skills J)).
Proof.
  unfold optimize_skills_section, optimize_skills_in.
  apply dedupe_NoDup; [constructor | intros x []].
Qed.

(** Every skill of the résumé is kept, in its first spelling up to case,
    and every skill of the result is one of the résumé or a technical
    skill of the profile. *)
Theorem optimized_skills_come_from_both_lists (resume_skills : list string)
  (J : jd_profile) :
  (forall r, In r resume_skills ->
     exists s, In s (optimize_skills_section resume_skills J)
               /\ Str.lower s = Str.lower r)
  /\ (forall s, In s (optimize_skills_section resume_skills J) ->
        In s resume_skills \/ In s (technical_skills J)).
Proof.
  unfold optimize_skills_section, optimize_skills_in.
  destruct (add_jd_skills_extends SkillsDb.SKILLS_DB
              (Str.join " " (map Str.lower resume_skills))
              (existing_domains_in SkillsDb.SKILLS_DB resume_skills)
              (technical_skills J) resume_skills) as [extra [-> Hsub]].
  split.
  - intros r Hr. apply dedupe_keeps.
    + intros k Hk. exfalso. revert Hk. apply not_elem_of_empty.
    + left. apply in_app_iff. now left.
  - intros s Hs. apply dedupe_In in Hs as [Hs | []].
    apply in_app_iff in Hs as [Hs | Hs]; [now left | right; now apply Hsub].
Qed.

(** When the skills of the résumé are distinct up to case, the optimized
    list is the list of the résumé, in its order and spelling, followed
    by technical skills of the profile. *)
Theorem optimized_skills_extend_the_list (resume_skills : list string)
  (J : jd_profile) :
  List.NoDup (map Str.lower resume_skills) ->
  exists extra,
    optimize_skills_section resume_skills J = resume_skills ++ extra
    /\ forall s, In s extra -> In s (technical_skills J).
Proof.
  intros Hnd. unfold optimize_skills_section, optimize_skills_in.
  destruct (add_jd_skills_extends SkillsDb.SKILLS_DB
              (Str.join " " (map Str.lower resume_skills))
              (existing_domains_in SkillsDb.SKILLS_DB resume_skills)
              (technical_skills J) resume_skills) as [extra [-> Hsub]].
  destruct (dedupe_app_fresh resume_skills ∅ [] extra Hnd)
    as [extra' [-> Hsub']].
  - intros x _. apply not_elem_of_empty.
  - exists extra'. split; [reflexivity |].
    intros s Hs. apply Hsub, Hsub', Hs.
Qed.

Lemma optimized_skills_extend_the_list_witness :
  List.NoDup (map Str.lower (skills Samples.resume_1))
  /\ exists extra,
       optimize_skills_section (skills Samples.resume_1) Samples.profile_1
       = skills Samples.resume_1 ++ extra
       /\ forall s, In s extra -> In s (technical_skills Samples.profile_1).
Proof.
  assert (H : List.NoDup (map Str.lower (skills Samples.resume_1))).
  { simpl. repeat (constructor; [simpl; intuition discriminate |]). constructor. }
  split; [exact H |].
  exact (optimized_skills_extend_the_list _ _ H).
Defined.

End SkillsSection.

(** ** The score and the text *)

Section ScoreAndText.

Import Ats Spec Optimizer.

Lemma total_as_shares (R : resume) (J : jd_profile) :
  (length (technical_skills J) <= 100)%nat ->
  (length (keywords J) <= 100)%nat ->
  (length (soft_skills J) <= 100)%nat ->
  total (calculate_ats_score R J)
  = Z.min (Z.max (share R (technical_skills J) 40 + share R (keywords J) 30
                  + share R (soft_skills J) 15 + format_score R) 15) 100.
Proof.
  intros Ht Hk Hs.
  assert (Hpts : forall jd cap, (length jd <= 100)%nat -> jd <> [] ->
             cap = 40%nat \/ cap = 30%nat \/ cap = 15%nat ->
             ratio_points
               (length (matched_in (Str.lower (full_text R)) (map Str.lower jd)))
               (length (map Str.lower jd)) cap
             = floor_share (matched_count R jd) (length jd) cap).
  { intros jd cap Hlen Hne Hcap. rewrite matched_in_length, length_map.
    apply ratio_points_floor; [apply matched_count_le | | assumption].
    destruct jd; [congruence | simpl in *; lia]. }
  unfold calculate_ats_score, share.
  destruct (technical_skills J) as [|t ts] eqn:Et;
    destruct (keywords J) as [|k ks] eqn:Ek;
    destruct (soft_skills J) as [|s ss] eqn:Es;
    cbn [map is_empty total];
    repeat match goal with
      | |- context [ratio_points (length (matched_in _ (Str.lower ?x :: map Str.lower ?xs))) _ ?cap] =>
          change (Str.lower x :: map Str.lower xs) with (map Str.lower (x :: xs));
          rewrite (Hpts (x :: xs) cap) by (try assumption; try discriminate; auto)
      end;
    f_equal; f_equal; lia.
Qed.

Lemma filter_length_mono (f h : string -> bool) (l : list string) :
  (forall x, f x = true -> h x = true) ->
  (length (List.filter f l) <= length (List.filter h l))%nat.
Proof.
  intros Hfh. induction l as [|x l IH]; simpl; [lia |].
  destruct (f x) eqn:Hf.
  - rewrite (Hfh x Hf). simpl. lia.
  - destruct (h x); simpl; lia.
Qed.

Lemma floor_share_mono (m m' n cap : nat) :
  (m <= m')%nat -> (1 <= n)%nat -> floor_share m n cap <= floor_share m' n cap.
Proof.
  intros Hm Hn. unfold floor_share. apply Z.div_le_mono; [lia | nia].
Qed.

Lemma share_mono (R R' : resume) (jd : list string) (cap : nat) :
  (forall s, Str.contains s (Str.lower (full_text R)) = true ->
             Str.contains s (Str.lower (full_text R')) = true) ->
  share R jd cap <= share R' jd cap.
Proof.
  intros Hsub. unfold share. destruct jd as [|x jd]; [lia |].
  apply floor_share_mono; [| simpl; lia].
  unfold matched_count. apply filter_length_mono. intros s. apply Hsub.
Qed.

Lemma score_mono_in_text (R R' : resume) (J : jd_profile)
  (pre post : string) :
  full_text R' = pre ^^ full_text R ^^ post ->
  raw_sections R' = raw_sections R ->
  contact_email R' = contact_email R ->
  (length (technical_skills J) <= 100)%nat ->
  (length (keywords J) <= 100)%nat ->
  (length (soft_skills J) <= 100)%nat ->
  total (calculate_ats_score R J) <= total (calculate_ats_score R' J).
Proof.
  intros Htext Hsec Hmail Ht Hk Hs.
  rewrite !total_as_shares by assumption.
  assert (Hsub : forall s, Str.contains s (Str.lower (full_text R)) = true ->
                           Str.contains s (Str.lower (full_text R')) = true).
  { intros s H. rewrite Htext, !lower_cat.
    apply contains_cat_r, contains_cat_l, H. }
  assert (Hfmt : format_score R' = format_score R)
    by (unfold format_score, has_sections; now rewrite Hsec, Hmail).
  pose proof (share_mono R R' (technical_skills J) 40 Hsub).
  pose proof (share_mono R R' (keywords J) 30 Hsub).
  pose proof (share_mono R R' (soft_skills J) 15 Hsub).
  lia.
Qed.

(** Text added around the full text of a résumé, its sections and its
    e-mail address being what they were, never lowers the score. *)
Theorem more_text_never_scores_less (R R' : resume) (J : jd_profile)
  (pre post : string) :
  full_text R' = pre ^^ full_text R ^^ post ->
  raw_sections R' = raw_sections R ->
  contact_email R' = contact_email R ->
  (length (technical_skills J) <= 100)%nat ->
  (length (keywords J) <= 100)%nat ->
  (length (soft_skills J) <= 100)%nat ->
  total (calculate_ats_score R J) <= total (calculate_ats_score R' J).
Proof. exact (score_mono_in_text R R' J pre post). Qed.

(** The score that the orchestrator reports after the optimization is
    never below the score before it. *)
Theorem optimization_never_lowers_the_score
  (rewrite_summary : resume -> jd_profile -> rng -> string * rng)
  (R : resume) (J : jd_profile) (g : rng) :
  (length (technical_skills J) <= 100)%nat ->
  (length (keywords J) <= 100)%nat ->
  (length (soft_skills J) <= 100)%nat ->
  ats_before (fst (optimize_resume rewrite_summary R J g))
  <= ats_after (fst (optimize_resume rewrite_summary R J g)).
Proof.
  intros Ht Hk Hs. unfold optimize_resume.
  destruct (rewrite_summary R J g) as [new_summary g1].
  destruct (optimize_experience (experience R) J g1) as [optimized_experience g2].
  cbn [fst ats_before ats_after].
  match goal with
  | |- _ <= total (calculate_ats_score ?T J) =>
      apply (score_mono_in_text R T J
               (Str.lower
                  (Str.join " "
                     ([new_summary;
                       Str.join " " (optimize_skills_section (skills R) J)]
                      ++ concat (map bullets optimized_experience))) ^^ " ")
               EmptyString)
  end; try assumption; try reflexivity.
  cbn [full_text]. now rewrite cat_empty_r, cat_assoc.
Qed.

End ScoreAndText.

(** ** Matched and missing *)

Section MatchedAndMissing.

Import Ats Spec.

Lemma technical_entry (R : resume) (J : jd_profile) :
  bd_technical_skills (breakdown (calculate_ats_score R J))
  = match technical_skills J with
    | [] => None
    | _ :: _ =>
        let jd := map Str.lower (technical_skills J) in
        let text := Str.lower (full_text R) in
        Some {| ce_score := ratio_points (length (matched_in text jd)) (length jd) 40;
                ce_max := 40;
                ce_matched := matched_in text jd;
                ce_missing := Some (missing_in text jd) |}
    end.
Proof.
  unfold calculate_ats_score.
  destruct (technical_skills J) as [|t ts];
    destruct (is_empty (map Str.lower (keywords J)));
    destruct (is_empty (map Str.lower (soft_skills J))); reflexivity.
Qed.

Lemma matched_missing_length (text : string) (jd : list string) :
  (length (matched_in text jd) + length (missing_in text jd))%nat = length jd.
Proof.
  unfold matched_in, missing_in. induction jd as [|s jd IH]; simpl; [reflexivity |].
  destruct (Str.contains s text); simpl; lia.
Qed.

Lemma floor_share_full (m n : nat) :
  (m <= n)%nat -> (1 <= n)%nat -> (floor_share m n 40 = 40 <-> m = n).
Proof.
  intros Hm Hn. unfold floor_share. split.
  - intros H.
    assert (H1 : 40 * Z.of_nat n <= Z.of_nat m * 40).
    { pose proof (Z.mul_div_le (Z.of_nat m * Z.of_nat 40%nat) (Z.of_nat n)
                    ltac:(lia)) as Hle.
      rewrite H in Hle. lia. }
    lia.
  - intros ->. change (Z.of_nat 40) with 40.
    rewrite Z.mul_comm. apply Z.div_mul. lia.
Qed.

(** In the report on the technical skills every skill of the profile is
    either matched or missing, never both, and the category has its 40
    points exactly when nothing is missing. *)
Theorem technical_skills_matched_or_missing (R : resume) (J : jd_profile)
  (e : category_entry) (missing : list string) :
  (length (technical_skills J) <= 100)%nat ->
  bd_technical_skills (breakdown (calculate_ats_score R J)) = Some e ->
  ce_missing e = Some missing ->
  (length (ce_matched e) + length missing)%nat = length (technical_skills J)
  /\ (forall s, In s (map Str.lower (technical_skills J)) ->
        (In s (ce_matched e) /\ ~ In s missing)
        \/ (In s missing /\ ~ In s (ce_matched e)))
  /\ (ce_score e = 40 <-> missing = []).
Proof.
  intros Hlen He Hm. rewrite technical_entry in He. cbv zeta in He.
  pose proof (matched_missing_length (Str.lower (full_text R))
                (map Str.lower (technical_skills J))) as Hsum.
  assert (Hjdlen : length (map Str.lower (technical_skills J))
                   = length (technical_skills J)) by apply length_map.
  assert (Hpos : (1 <= length (technical_skills J))%nat)
    by (destruct (technical_skills J); [discriminate | simpl; lia]).
  remember (map Str.lower (technical_skills J)) as jd eqn:Hjd.
  remember (Str.lower (full_text R)) as text eqn:Htext.
  destruct (technical_skills J) as [|t ts]; [discriminate |].
  injection He as <-. cbn [ce_missing ce_matched ce_score] in *.
  injection Hm as <-.
  rewrite <- Hjdlen.
  split; [exact Hsum | split].
  - intros s Hs. unfold matched_in, missing_in.
    rewrite !List.filter_In.
    destruct (Str.contains s text) eqn:Hc.
    + left. split; [now split |]. intros [_ Hin]. discriminate.
    + right. split; [now split |]. intros [_ Hin]. discriminate.
  - rewrite ratio_points_floor; [| lia | lia | now left].
    rewrite floor_share_full by lia.
    split.
    + intros Hfull. rewrite Hfull in Hsum.
      destruct (missing_in text jd); [reflexivity | simpl in Hsum; lia].
    + intros Hnone. rewrite Hnone in Hsum. simpl in Hsum. lia.
Qed.

End MatchedAndMissing.

(** ** Where a match lies *)

Section RegexLocation.

Import Re.

(** What [re.search] finds is a piece of the subject. *)
Lemma search_located (r : regex) (m : list string) :
  forall s prev,
    search_from r prev s = Some m ->
    exists pre d post, s = pre ^^ d ^^ post /\ matches r d [] m.
Proof.
  induction s as [|c t IH]; intros prev; simpl.
  - destruct (run r prev 0 EmptyString [] accept) as [m'|] eqn:H; [| discriminate].
    intros [= ->]. apply run_sound in H as [d [s' [prev' [caps' [Hs [Hm H]]]]]].
    injection H as ->. now exists EmptyString, d, s'.
  - destruct (run r prev 0 (String c t) [] accept) as [m'|] eqn:H.
    + intros [= ->]. apply run_sound in H as [d [s' [prev' [caps' [Hs [Hm H]]]]]].
      injection H as ->. now exists EmptyString, d, s'.
    + intros Hrec. apply IH in Hrec as [pre [d [post [-> Hm]]]].
      now exists (String c pre), d, post.
Qed.

Lemma same_text_exact (l d : string) : same_text false l d = true -> d = l.
Proof.
  revert d. induction l as [|a l IH]; intros [|b d]; simpl; try discriminate;
    [reflexivity |].
  intros H. apply andb_true_iff in H as [Hab H].
  apply Ascii.eqb_eq in Hab. subst. f_equal. now apply IH.
Qed.

(** A word that is found between word boundaries is in the text. *)
Lemma whole_word_contains (w text : string) :
  JdAnalyzer.whole_word w text = true -> Str.contains w text = true.
Proof.
  unfold JdAnalyzer.whole_word, search.
  destruct (search_from (seq_of [WordB; Lit false w; WordB]) None text)
    as [m|] eqn:H; [| discriminate].
  intros _. apply search_located in H as [pre [d [post [-> Hm]]]].
  cbn [seq_of matches] in Hm.
  destruct Hm as [d1 [d2 [c1 [-> [[-> ->] [d3 [d4 [c2 [-> [[Hd3 ->] [-> _]]]]]]]]]]].
  apply same_text_exact in Hd3. subst d3.
  cbn [Str.cat]. rewrite cat_empty_r. apply contains_middle.
Qed.

End RegexLocation.

(** ** What the analysis of a job description extracts *)

Section AnalyzerExtras.

Import Re JdAnalyzer Spec Derived.

Lemma extract_skills_in_sound (text_lower : string) :
  forall (db : list (string * list string)) (category : string) (matched : list string),
    In (category, matched) (extract_skills_in db text_lower) ->
    matched <> []
    /\ exists skills,
         In (category, skills) db
         /\ forall skill, In skill matched ->
              In skill skills
              /\ Str.contains (Str.lower skill) text_lower = true.
Proof.
  induction db as [|[cat skills] db IH]; intros category matched Hin;
    simpl in Hin; [contradiction |].
  assert (Hrest : In (category, matched) (extract_skills_in db text_lower) ->
            matched <> []
            /\ exists skills0,
                 In (category, skills0) ((cat, skills) :: db)
                 /\ forall skill, In skill matched ->
                      In skill skills0
                      /\ Str.contains (Str.lower skill) text_lower = true).
  { intros H. destruct (IH _ _ H) as [Hne [skills0 [Hdb Hall]]].
    split; [exact Hne |]. exists skills0. split; [now right | exact Hall]. }
  destruct (List.filter (fun skill => whole_word (Str.lower skill) text_lower) skills)
    as [|s0 rest] eqn:Hf; [now apply Hrest |].
  destruct Hin as [[= <- <-] | Hin]; [| now apply Hrest].
  split; [discriminate |]. exists skills. split; [now left |].
  intros skill Hskill. rewrite <- Hf in Hskill.
  apply List.filter_In in Hskill as [Hs Hw].
  split; [exact Hs | now apply whole_word_contains].
Qed.

(** Every category that the skill extraction reports is a category of
    the taxonomy, with at least one skill, and each skill that it
    reports is a skill of that category that occurs in the lowercased
    text. *)
Theorem extracted_skills_are_in_the_text (text category : string)
  (matched : list string) :
  In (category, matched) (extract_skills_from_text text) ->
  matched <> []
  /\ exists skills,
       In (category, skills) SkillsDb.SKILLS_DB
       /\ forall skill, In skill matched ->
            In skill skills
            /\ Str.contains (Str.lower skill) (Str.lower text) = true.
Proof. apply extract_skills_in_sound. Qed.

(** Every soft skill that is reported is a soft skill of the taxonomy
    and occurs in the lowercased text. *)
Theorem extracted_soft_skills_are_in_the_text (text skill : string) :
  In skill (extract_soft_skills text) ->
  In skill (SkillsDb.lookup_list "soft_skills" SkillsDb.SKILLS_DB)
  /\ Str.contains skill (Str.lower text) = true.
Proof.
  unfold extract_soft_skills. intros H.
  apply List.filter_In in H as [Hs Hw].
  split; [exact Hs | now apply whole_word_contains].
Qed.

Lemma digit_free_cat (a b : string) :
  digit_free (a ^^ b) = digit_free a && digit_free b.
Proof.
  unfold digit_free. induction a as [|c a IH]; simpl; [reflexivity |].
  now rewrite IH, andb_assoc.
Qed.

Lemma digits_are_not_free (d : string) :
  all_chars Str.is_digit d = true -> (1 <= Str.len d)%nat -> digit_free d = false.
Proof.
  destruct d as [|c d]; simpl; [lia |].
  intros H _. apply andb_true_iff in H as [Hc _].
  unfold digit_free. simpl. now rewrite Hc.
Qed.

Ltac has_digit :=
  repeat match goal with
    | H : exists _, _ |- _ => destruct H
    | H : _ /\ _ |- _ => destruct H
    | H : _ \/ _ |- _ => destruct H
    end;
  subst; rewrite ?digit_free_cat;
  repeat match goal with
    | H : all_chars Str.is_digit ?x = true, L : (1 <= Str.len ?x)%nat |- _ =>
        rewrite (digits_are_not_free x H L); clear H
    end;
  rewrite ?andb_false_r, ?andb_false_l; reflexivity.

Lemma year_match_has_digit (p : regex) (kind : ptype) (d : string) (m : list string) :
  In (p, kind) year_patterns -> matches p d [] m -> digit_free d = false.
Proof.
  unfold year_patterns.
  intros [[= <- <-] | [[= <- <-] | [[= <- <-] | [[= <- <-] | []]]]];
    unfold range_pattern, plus_pattern, min_pattern, atleast_pattern,
      digits1, sp0, sp1;
    cbn [seq_of matches]; intros H; has_digit.
Qed.

Lemma no_year_without_digit (text_lower : string) :
  digit_free text_lower = true -> year_count text_lower = None.
Proof.
  intros Hfree.
  assert (Hnone : forall p kind, In (p, kind) year_patterns ->
                                 search p text_lower = None).
  { intros p kind Hp. destruct (search p text_lower) as [m|] eqn:Hs; [| reflexivity].
    apply search_located in Hs as [pre [d [post [-> Hm]]]].
    apply (year_match_has_digit p kind d m Hp) in Hm.
    rewrite !digit_free_cat, Hm in Hfree.
    rewrite andb_false_l, andb_false_r in Hfree. discriminate. }
  unfold year_count.
  rewrite (Hnone range_pattern range), (Hnone plus_pattern plus),
    (Hnone min_pattern min), (Hnone atleast_pattern atleast);
    [reflexivity | unfold year_patterns; simpl; tauto..].
Qed.

Lemma level_map_names (levels : list (string * list string)) (text_lower : string) :
  (forall l kws, In (l, kws) levels -> In (level_map l) level_names) ->
  In (keyword_level levels text_lower) level_names.
Proof.
  induction levels as [|[l kws] levels IH]; intros H; simpl.
  - unfold level_names. simpl. tauto.
  - destruct (Str.any_in kws text_lower).
    + apply (H l kws). now left.
    + apply IH. intros l' kws' Hin. apply (H l' kws'). now right.
Qed.

(** When the year count has no more digits than [int] converts, and
    when there is no year count, the level is returned, and it is one of
    five names. *)
Theorem level_is_one_of_five (text : string) :
  (forall d, year_digits (Str.lower text) = Some d ->
             (Str.len d <= max_str_digits)%nat) ->
  exists level,
    extract_experience_level text = Some level /\ In level level_names.
Proof.
  intros Hmax. pose proof (level_by_digits text) as H.
  destruct (year_digits (Str.lower text)) as [d|].
  - destruct H as [_ [_ [Hin _]]].
    destruct (Hin (Hmax d eq_refl)) as [years [_ Hlevel]].
    exists (level_of_years years). split; [exact Hlevel |].
    destruct (level_of_years_table years)
      as [[_ ->] | [[_ ->] | [[_ ->] | [_ ->]]]];
      unfold level_names; simpl; tauto.
  - eexists. split; [exact H |].
    apply level_map_names. unfold EXPERIENCE_LEVELS.
    intros l kws [[= <- <-] | [[= <- <-] | [[= <- <-] | [[= <- <-] | []]]]];
      unfold level_names; cbn; tauto.
Qed.

Lemma level_is_one_of_five_witness :
  exists level,
    extract_experience_level Samples.two_ranges = Some level
    /\ In level level_names.
Proof.
  apply (level_is_one_of_five Samples.two_ranges).
  intros d Hd. vm_compute in Hd. injection Hd as <-. vm_compute. lia.
Defined.

Lemma keyword_level_none (levels : list (string * list string)) (text_lower : string) :
  (forall kw, In kw (concat (map snd levels)) -> Str.contains kw text_lower = false) ->
  keyword_level levels text_lower = "mid-level".
Proof.
  induction levels as [|[l kws] levels IH]; intros H; simpl; [reflexivity |].
  rewrite any_in_false.
  - apply IH. intros kw Hkw. apply H. simpl. apply in_app_iff. now right.
  - intros kw Hkw. apply H. simpl. apply in_app_iff. now left.
Qed.

Lemma any_in_true (ws : list string) (s w : string) :
  In w ws -> Str.contains w s = true -> Str.any_in ws s = true.
Proof.
  intros Hw Hc. unfold Str.any_in. apply existsb_exists. now exists w.
Qed.

(** A text without a digit has no year count: the level keywords alone
    decide.  It is mid-level when none of them occurs, and junior as
    soon as a keyword of the entry level occurs, were it inside a longer
    word or next to the keywords of another level. *)
Theorem level_of_a_text_without_digits (text : string) :
  digit_free text = true ->
  extract_experience_level text
  = Some (keyword_level EXPERIENCE_LEVELS (Str.lower text))
  /\ ((forall kw, In kw level_keywords ->
         Str.contains kw (Str.lower text) = false) ->
      extract_experience_level text = Some "mid-level")
  /\ (forall kw,
        In kw (SkillsDb.lookup_list "entry" EXPERIENCE_LEVELS) ->
        Str.contains kw (Str.lower text) = true ->
        extract_experience_level text = Some "junior").
Proof.
  intros Hfree.
  assert (H : extract_experience_level text
              = Some (keyword_level EXPERIENCE_LEVELS (Str.lower text))).
  { rewrite extract_experience_level_order, no_year_without_digit;
      [reflexivity | now rewrite digit_free_lower]. }
  split; [exact H | split].
  - intros Hnone. rewrite H. f_equal. now apply keyword_level_none.
  - intros kw Hkw Hc. rewrite H. f_equal.
    pose proof (any_in_true _ _ kw Hkw Hc) as Hany.
    cbv [SkillsDb.lookup_list EXPERIENCE_LEVELS String.eqb Ascii.eqb Bool.eqb]
      in Hany.
    unfold EXPERIENCE_LEVELS. cbn [keyword_level]. now rewrite Hany.
Qed.

Lemma level_of_a_text_without_digits_witness :
  digit_free "Join our internal tools team as a senior engineer" = true
  /\ extract_experience_level "Join our internal tools team as a senior engineer"
     = Some "junior".
Proof.
  assert (H : digit_free "Join our internal tools team as a senior engineer" = true)
    by reflexivity.
  split; [exact H |].
  apply (proj2 (proj2 (level_of_a_text_without_digits _ H)) "intern");
    [cbv; tauto | reflexivity].
Defined.

End AnalyzerExtras.

(** ** The industry domain *)

Section DomainExtras.

Import JdAnalyzer Derived.

Lemma most_common_first_max :
  forall (rest before between : list (string * nat)) (best : string * nat),
    (forall b, In b before -> (snd b < snd best)%nat) ->
    (forall a, In a between -> (snd a <= snd best)%nat) ->
    exists before' x after',
      before ++ best :: between ++ rest = before' ++ x :: after'
      /\ most_common best rest = fst x
      /\ (forall b, In b before' -> (snd b < snd x)%nat)
      /\ (forall a, In a after' -> (snd a <= snd x)%nat).
Proof.
  induction rest as [|e rest IH]; intros before between best Hb Ha; simpl.
  - exists before, best, between. rewrite app_nil_r. repeat split; assumption.
  - destruct (Nat.ltb_spec (snd best) (snd e)) as [Hlt | Hge].
    + destruct (IH (before ++ best :: between) [] e) as [b' [x [a' [Heq H]]]].
      * intros b Hin. apply in_app_iff in Hin as [Hin | [<- | Hin]];
          [specialize (Hb b Hin); lia | lia | specialize (Ha b Hin); lia].
      * intros a [].
      * exists b', x, a'. split; [| exact H].
        rewrite <- Heq. rewrite <- !app_assoc. reflexivity.
    + destruct (IH before (between ++ [e]) best Hb) as [b' [x [a' [Heq H]]]].
      * intros a Hin. apply in_app_iff in Hin as [Hin | [<- | []]];
          [now apply Ha | lia].
      * exists b', x, a'. split; [| exact H].
        rewrite <- Heq. rewrite <- !app_assoc. reflexivity.
Qed.

Lemma filter_map_split {A B : Type} (p : B -> bool) (f : A -> B) :
  forall (l : list A) (b' : list B) (x : B) (a' : list B),
    List.filter p (map f l) = b' ++ x :: a' ->
    exists b y a,
      l = b ++ y :: a /\ f y = x
      /\ (forall z, In z b -> In (f z) b' \/ p (f z) = false)
      /\ (forall z, In z a -> In (f z) a' \/ p (f z) = false).
Proof.
  induction l as [|z l IH]; intros b' x a' H; simpl in H.
  - destruct b'; discriminate.
  - destruct (p (f z)) eqn:Hp.
    + destruct b' as [|w b']; simpl in H.
      * injection H as Hx Ha. exists [], z, l. repeat split; [assumption | intros ? [] |].
        intros u Hu. destruct (p (f u)) eqn:Hpu; [left | now right].
        rewrite <- Ha. apply List.filter_In. split; [now apply in_map | exact Hpu].
      * injection H as Hw H. destruct (IH _ _ _ H) as [b [y [a [-> [Hy [Hb Ha]]]]]].
        exists (z :: b), y, a. repeat split; [assumption | | assumption].
        intros u [<- | Hu]; [left; now left |].
        destruct (Hb u Hu) as [Hin | Hno]; [left; now right | now right].
    + destruct (IH _ _ _ H) as [b [y [a [-> [Hy [Hb Ha]]]]]].
      exists (z :: b), y, a. repeat split; [assumption | | assumption].
      intros u [<- | Hu]; [now right | now apply Hb].
Qed.

(** The domain is "Technology" when no keyword of the table occurs in
    the lowercased text.  Otherwise it is the domain with the most
    keywords in the text, and of several with as many the first of the
    table. *)
Theorem domain_is_the_first_with_most_hits (text : string) :
  ((forall d kws, In (d, kws) domain_keywords -> hits kws (Str.lower text) = 0%nat)
   /\ detect_industry_domain text = "Technology")
  \/ (exists before kws after,
        domain_keywords = before ++ (detect_industry_domain text, kws) :: after
        /\ (0 < hits kws (Str.lower text))%nat
        /\ (forall d' kws', In (d', kws') before ->
              (hits kws' (Str.lower text) < hits kws (Str.lower text))%nat)
        /\ (forall d' kws', In (d', kws') after ->
              (hits kws' (Str.lower text) <= hits kws (Str.lower text))%nat)).
Proof.
  unfold detect_industry_domain, domain_hits.
  set (count := fun '(d, kws) =>
         (d, length (List.filter (fun kw => Str.contains kw (Str.lower text)) kws))
         : string * nat).
  set (positive := fun '(_, n) => (0 <? n)%nat : bool).
  change (map _ domain_keywords) with (map count domain_keywords).
  change (List.filter _ (map count domain_keywords))
    with (List.filter positive (map count domain_keywords)).
  destruct (List.filter positive (map count domain_keywords)) as [|e rest] eqn:Hf.
  - left. split; [| reflexivity].
    intros d kws Hin. unfold hits.
    destruct (length (List.filter (fun kw => Str.contains kw (Str.lower text)) kws))
      as [|n] eqn:Hn; [reflexivity | exfalso].
    assert (Hc : In (count (d, kws)) (List.filter positive (map count domain_keywords))).
    { apply List.filter_In. split; [now apply in_map |].
      unfold count, positive. now rewrite Hn. }
    rewrite Hf in Hc. destruct Hc.
  - right.
    destruct (most_common_first_max rest [] [] e) as [b' [x [a' [Heq [Hr [Hb Ha]]]]]];
      [intros ? [] | intros ? [] |].
    cbn [app] in Heq. rewrite <- Hf in Heq.
    destruct (filter_map_split positive count _ _ _ _ Heq)
      as [b [[d kws] [a [Hdb [Hx [Hbb Haa]]]]]].
    assert (Hpos : positive x = true).
    { assert (Hin : In x (List.filter positive (map count domain_keywords)))
        by (rewrite Heq; apply in_app_iff; right; now left).
      apply List.filter_In in Hin. exact (proj2 Hin). }
    rewrite Hr. subst x. cbn [count fst snd] in *.
    exists b, kws, a. unfold hits. split; [exact Hdb | split].
    + unfold positive in Hpos. now apply Nat.ltb_lt in Hpos.
    + split.
      * intros d' kws' Hin. destruct (Hbb _ Hin) as [Hin' | Hzero].
        -- apply Hb in Hin'. exact Hin'.
        -- unfold count, positive in Hzero. apply Nat.ltb_ge in Hzero.
           unfold positive in Hpos. apply Nat.ltb_lt in Hpos. lia.
      * intros d' kws' Hin. destruct (Haa _ Hin) as [Hin' | Hzero].
        -- apply Ha in Hin'. exact Hin'.
        -- unfold count, positive in Hzero. apply Nat.ltb_ge in Hzero. lia.
Qed.

End DomainExtras.

(** ** The texts of the profile *)

Section ProfileTexts.

Import Re JdAnalyzer Derived.

Lemma part_refl (s : string) : part s s.
Proof. exists EmptyString, EmptyString. simpl. now rewrite cat_empty_r. Qed.

Lemma part_empty (s : string) : part EmptyString s.
Proof. now exists EmptyString, s. Qed.

Lemma part_trans (x y s : string) : part x y -> part y s -> part x s.
Proof.
  intros [a [b ->]] [a' [b' ->]]. exists (a' ^^ a), (b ^^ b').
  now rewrite !cat_assoc.
Qed.

Lemma part_cat_l (x a b : string) : part x a -> part x (a ^^ b).
Proof.
  intros [u [v ->]]. exists u, (v ^^ b). now rewrite !cat_assoc.
Qed.

Lemma part_cat_r (x a b : string) : part x b -> part x (a ^^ b).
Proof.
  intros [u [v ->]]. exists (a ^^ u), v. now rewrite !cat_assoc.
Qed.

Lemma part_contains (x s : string) : part x s -> Str.contains x s = true.
Proof. intros [a [b ->]]. apply contains_middle. Qed.

Lemma part_len (x s : string) : part x s -> (Str.len x <= Str.len s)%nat.
Proof. intros [a [b ->]]. rewrite !len_cat. lia. Qed.

Lemma len_prefix_le (n : nat) (s : string) : (Str.len (Str.prefix n s) <= n)%nat.
Proof.
  revert s. induction n as [|n IH]; intros [|c s]; simpl; try lia.
  specialize (IH s). lia.
Qed.

Lemma prefix_part (n : nat) (s : string) : part (Str.prefix n s) s.
Proof.
  revert s. induction n as [|n IH]; intros [|c s]; simpl; try apply part_empty.
  destruct (IH s) as [a [b H]]. exists EmptyString.
  assert (Hb : exists b', s = Str.prefix n s ^^ b').
  { clear. revert s. induction n as [|n IH]; intros [|c s]; simpl;
      try (eexists; reflexivity).
    destruct (IH s) as [b' Hb]. exists b'. now rewrite <- Hb. }
  destruct Hb as [b' Hb]. exists b'. simpl. now rewrite <- Hb.
Qed.

Lemma rstrip_part (s : string) : part (Str.rstrip s) s.
Proof.
  assert (H : exists w, s = Str.rstrip s ^^ w).
  { induction s as [|c t [w IH]]; simpl; [now exists EmptyString |].
    destruct (Str.rstrip t) as [|x t'] eqn:Ht.
    - destruct (Str.is_space c); [now exists (String c t) |].
      exists t. reflexivity.
    - exists w. simpl. simpl in IH. now rewrite <- IH. }
  destruct H as [w H]. exists EmptyString, w. exact H.
Qed.

Lemma lstrip_part (s : string) : part (Str.lstrip s) s.
Proof.
  induction s as [|c t IH]; simpl; [apply part_empty |].
  destruct (Str.is_space c); [| apply part_refl].
  change (String c t) with (String c EmptyString ^^ t). now apply part_cat_r.
Qed.

Lemma strip_part (s : string) : part (Str.strip s) s.
Proof.
  unfold Str.strip. eapply part_trans; [apply rstrip_part | apply lstrip_part].
Qed.

Lemma first_line_part (s : string) : part (first_line s) s.
Proof.
  assert (H : exists w, s = first_line s ^^ w).
  { induction s as [|c t [w IH]]; simpl; [now exists EmptyString |].
    destruct (Ascii.eqb c "010"); [now exists (String c t) |].
    exists w. simpl. now rewrite <- IH. }
  destruct H as [w H]. exists EmptyString, w. exact H.
Qed.

(** Every group that a match has captured is a part of the matched
    text. *)
Lemma captures_inside (r : regex) :
  forall d caps caps',
    matches r d caps caps' ->
    forall c, In c caps' -> In c caps \/ part c d.
Proof.
  induction r as [| ci l | p | r1 IH1 r2 IH2 | r1 IH1 r2 IH2 | greedy least p
                  | r1 IH1 | r1 IH1 | r1 IH1 | | | | | ];
    intros d caps caps' Hm c Hc; cbn [matches] in Hm;
    try (destruct Hm as [_ ->]; now left).
  - destruct Hm as [d1 [d2 [caps1 [-> [H1 H2]]]]].
    destruct (IH2 _ _ _ H2 c Hc) as [Hin | Hp]; [| right; now apply part_cat_r].
    destruct (IH1 _ _ _ H1 c Hin) as [Hin' | Hp]; [now left |].
    right; now apply part_cat_l.
  - destruct Hm as [H | H]; [exact (IH1 _ _ _ H c Hc) | exact (IH2 _ _ _ H c Hc)].
  - destruct Hm as [_ [_ ->]]. now left.
  - destruct Hm as [H | [_ ->]]; [exact (IH1 _ _ _ H c Hc) | now left].
  - destruct Hm as [caps1 [H ->]]. apply in_app_iff in Hc as [Hc | [<- | []]].
    + exact (IH1 _ _ _ H c Hc).
    + right. apply part_refl.
Qed.

Lemma group_part (r : regex) (s : string) (m : list string) (i : nat) :
  search r s = Some m -> part (group i m) s.
Proof.
  unfold search. intros H. apply search_located in H as [pre [d [post [-> Hm]]]].
  unfold group. destruct (nth_in_or_default (i - 1) m EmptyString) as [Hin | ->];
    [| apply part_empty].
  destruct (captures_inside _ _ _ _ Hm _ Hin) as [[] | Hp].
  apply part_cat_r, part_cat_l, Hp.
Qed.

Lemma section_text_part (pattern : regex) (text_lower : string) :
  part (section_text pattern text_lower) text_lower
  /\ (Str.len (section_text pattern text_lower) <= 2000)%nat.
Proof.
  unfold section_text. destruct (search pattern text_lower) as [m|] eqn:H.
  - split; [| apply len_prefix_le].
    eapply part_trans; [apply prefix_part |].
    eapply part_trans; [apply strip_part |].
    exact (group_part _ _ _ 1 H).
  - split; [apply part_empty | simpl; lia].
Qed.

(** The two sections that the analysis fills are parts of the lowercased
    description, of 2000 characters at most; the two others are always
    empty. *)
Theorem sections_are_parts_of_the_text (text : string) :
  Str.contains (responsibilities (extract_requirements_sections text))
    (Str.lower text) = true
  /\ (Str.len (responsibilities (extract_requirements_sections text)) <= 2000)%nat
  /\ Str.contains (requirements (extract_requirements_sections text))
       (Str.lower text) = true
  /\ (Str.len (requirements (extract_requirements_sections text)) <= 2000)%nat
  /\ nice_to_have (extract_requirements_sections text) = EmptyString
  /\ about_company (extract_requirements_sections text) = EmptyString.
Proof.
  unfold extract_requirements_sections.
  cbn [responsibilities requirements nice_to_have about_company].
  destruct (section_text_part resp_pattern (Str.lower text)) as [Hp1 Hl1].
  destruct (section_text_part req_pattern (Str.lower text)) as [Hp2 Hl2].
  repeat split; try assumption; now apply part_contains.
Qed.

Lemma first_title_part (patterns : list regex) (jd_text : string) :
  part (first_title patterns jd_text) jd_text
  /\ (Str.len (first_title patterns jd_text) <= 60)%nat.
Proof.
  induction patterns as [|pattern rest IH]; cbn [first_title].
  - split; [apply part_empty | simpl; lia].
  - destruct (search pattern jd_text) as [m|] eqn:H; [| exact IH].
    split; [| apply len_prefix_le].
    eapply part_trans; [apply prefix_part |].
    eapply part_trans; [apply strip_part |].
    exact (group_part _ _ _ 1 H).
Qed.

(** The job title is a part of the description as it was given, and it
    is shorter than 80 characters. *)
Theorem job_title_is_part_of_the_text (jd_text : string) :
  Str.contains (extract_job_title jd_text) jd_text = true
  /\ (Str.len (extract_job_title jd_text) < 80)%nat.
Proof.
  unfold extract_job_title.
  destruct (first_title_part title_patterns jd_text) as [Hp Hl].
  destruct (Str.truthy (first_title title_patterns jd_text)).
  - split; [now apply part_contains | lia].
  - destruct (Nat.ltb_spec (Str.len (first_line (Str.strip jd_text))) 80)
      as [Hlt | Hge].
    + assert (Hpart : part (Str.strip (first_line (Str.strip jd_text))) jd_text).
      { eapply part_trans; [apply strip_part |].
        eapply part_trans; [apply first_line_part | apply strip_part]. }
      split; [now apply part_contains |].
      pose proof (part_len _ _ (strip_part (first_line (Str.strip jd_text)))). lia.
    + split; [now apply part_contains | lia].
Qed.

Section ActionVerbs.

Variable set_order : list string -> list string.
Variable extract_top_keywords : string -> nat -> list string.

(** When the iteration of a set gives elements of the set, there are
    twenty action verbs at most, and each is the capitalised form of a
    verb of the lists, in small letters, that occurs in the lowercased
    text. *)
Theorem action_verbs_are_verbs_of_the_text (text : string) :
  (forall l x, In x (set_order l) -> In x l) ->
  (length (extract_action_verbs set_order text) <= 20)%nat
  /\ forall v, In v (extract_action_verbs set_order text) ->
       exists w,
         v = capitalize w
         /\ (In w jd_verbs
             \/ exists category verbs verb,
                  In (category, verbs) SkillsDb.STRONG_VERBS
                  /\ In verb verbs /\ w = Str.lower verb)
         /\ Str.contains w (Str.lower text) = true.
Proof.
  intros Hset. unfold extract_action_verbs. split.
  - rewrite length_take. lia.
  - intros v Hv. apply In_take in Hv. apply Hset in Hv.
    apply in_map_iff in Hv as [w [<- Hw]].
    apply List.filter_In in Hw as [Hw Hword]. apply Hset in Hw.
    exists w. split; [reflexivity |]. split; [| now apply whole_word_contains].
    apply in_app_iff in Hw as [Hw | Hw]; [right | now left].
    apply in_concat in Hw as [l [Hl Hw]].
    apply in_map_iff in Hl as [[category verbs] [<- Hl]].
    apply in_map_iff in Hw as [verb [<- Hverb]].
    now exists category, verbs, verb.
Qed.

End ActionVerbs.

End ProfileTexts.

(** ** The skills section and the report after the optimization *)

Section ListedSkills.

Import Ats Optimizer Derived.

Lemma lower_char_idem (c : ascii) :
  Str.lower_char (Str.lower_char c) = Str.lower_char c.
Proof.
  destruct c as [[] [] [] [] [] [] [] []]; reflexivity.
Qed.

Lemma lower_idem (s : string) : Str.lower (Str.lower s) = Str.lower s.
Proof.
  induction s as [|c s IH]; simpl; [reflexivity |].
  now rewrite lower_char_idem, IH.
Qed.

Lemma part_lower (x s : string) : part x s -> part (Str.lower x) (Str.lower s).
Proof.
  intros [a [b ->]]. exists (Str.lower a), (Str.lower b). now rewrite !lower_cat.
Qed.

Lemma part_join (sep x : string) (l : list string) :
  In x l -> part x (Str.join sep l).
Proof.
  induction l as [|y l IH]; [intros [] |].
  intros Hin. cbn [Str.join]. destruct l as [|z l].
  - destruct Hin as [-> | []]. apply part_refl.
  - destruct Hin as [-> | Hin].
    + apply part_cat_l, part_refl.
    + apply part_cat_r, part_cat_r, IH, Hin.
Qed.

(** A technical skill of the profile that stands in the skills section
    of the optimized résumé is matched in the report after the
    optimization, and is not among the missing ones. *)
Theorem listed_skill_is_reported_matched
  (rewrite_summary : resume -> jd_profile -> rng -> string * rng)
  (R : resume) (J : jd_profile) (g : rng) (skill : string) (e : category_entry) :
  In skill (technical_skills J) ->
  In skill (o_skills (optimized (fst (optimize_resume rewrite_summary R J g)))) ->
  bd_technical_skills (ats_breakdown (fst (optimize_resume rewrite_summary R J g)))
  = Some e ->
  In (Str.lower skill) (ce_matched e)
  /\ forall missing, ce_missing e = Some missing -> ~ In (Str.lower skill) missing.
Proof.
  unfold optimize_resume.
  destruct (rewrite_summary R J g) as [new_summary g1].
  destruct (optimize_experience (experience R) J g1) as [optimized_experience g2].
  cbn [fst optimized o_skills ats_breakdown].
  intros Hjd Hlisted He.
  rewrite technical_entry in He. cbn [full_text] in He. cbv zeta in He.
  remember (optimize_skills_section (skills R) J) as listed eqn:Hl.
  assert (Hin : Str.contains (Str.lower skill)
                  (Str.lower
                     (Str.lower
                        (Str.join " "
                           ([new_summary; Str.join " " listed]
                            ++ concat (map bullets optimized_experience)))
                      ^^ " " ^^ full_text R)) = true).
  { rewrite lower_cat, lower_idem. apply contains_cat_l, part_contains, part_lower.
    eapply part_trans; [apply (part_join " " skill listed Hlisted) |].
    apply part_join. right. now left. }
  assert (Hmap : In (Str.lower skill) (map Str.lower (technical_skills J)))
    by now apply in_map.
  remember (map Str.lower (technical_skills J)) as jd eqn:Hjdl.
  match type of Hin with
  | Str.contains _ ?T = true => remember T as text eqn:Htext
  end.
  destruct (technical_skills J) as [|t ts]; [destruct Hjd |].
  injection He as <-. cbn [ce_matched ce_missing].
  unfold matched_in, missing_in. split.
  - apply List.filter_In. split; [exact Hmap | exact Hin].
  - intros missing [= <-] Hmiss. apply List.filter_In in Hmiss as [_ Hno].
    rewrite Hin in Hno. discriminate.
Qed.

End ListedSkills.

(** ** The rules of the rewriter *)

Section RewriterRules.

Import Re Rewriter Derived.

Lemma rep_greedy_all (p : ascii -> bool) (least : nat) (k : cont)
  (caps res : list string) :
  forall x n prev pos,
    all_chars p x = true ->
    (least <= n + Str.len x)%nat ->
    (forall prev', k prev' (pos + Str.len x)%nat EmptyString caps = Some res) ->
    rep_greedy p least k caps n prev pos x = Some res.
Proof.
  induction x as [|c t IH]; intros n prev pos Hall Hn Hk; simpl.
  - simpl in Hn. destruct (Nat.leb_spec least n); [| lia].
    specialize (Hk prev). simpl in Hk. now rewrite Nat.add_0_r in Hk.
  - simpl in Hall. apply andb_true_iff in Hall as [Hc Ht]. rewrite Hc.
    rewrite (IH (S n) (Some c) (S pos) Ht); [reflexivity | simpl in Hn; lia |].
    intros prev'. specialize (Hk prev'). simpl in Hk.
    now rewrite <- Nat.add_succ_comm in Hk.
Qed.

Lemma rest1_takes_all (x : string) (prev : option ascii) (pos : nat)
  (caps : list string) :
  x <> EmptyString -> all_chars dot x = true ->
  run rest1 prev pos x caps accept = Some (caps ++ [x]).
Proof.
  intros Hne Hall. unfold rest1. cbn [run].
  apply rep_greedy_all; [exact Hall | destruct x; [congruence | simpl; lia] |].
  intros prev'. unfold accept. do 3 f_equal.
  replace (pos + Str.len x - pos)%nat with (Str.len x) by lia.
  rewrite <- (cat_empty_r x) at 2. apply prefix_cat.
Qed.

Lemma eat_complete (ci : bool) (l : string) :
  forall d s prev pos,
    same_text ci l d = true ->
    exists prev', eat ci l prev pos (d ^^ s) = Some (prev', (pos + Str.len d)%nat, s).
Proof.
  induction l as [|a l IH]; intros [|b d] s prev pos; simpl; try discriminate.
  - intros _. exists prev. now rewrite Nat.add_0_r.
  - intros H. apply andb_true_iff in H as [Hab H]. rewrite Hab.
    destruct (IH d s (Some b) (S pos) H) as [prev' ->]. exists prev'.
    now rewrite Nat.add_succ_comm.
Qed.

(** A word of the pattern and the spaces after it take a word of the
    text and the one space after it, when the next character is not a
    space. *)
Lemma word_step (w o s : string) (r : regex) (prev : option ascii) (pos : nat)
  (caps : list string) (k : cont) :
  same_text true w o = true ->
  match s with String c _ => negb (Str.is_space c) | EmptyString => false end = true ->
  run (Seq (word w) (Seq sp1 r)) prev pos (o ^^ " " ^^ s) caps k
  = run r (Some " "%char) (S (pos + Str.len o)) s caps k.
Proof.
  intros Hw Hs. cbn [run word].
  destruct (eat_complete true w o (" " ^^ s) prev pos Hw) as [prev' ->].
  unfold sp1. cbn [run]. destruct s as [|c t]; [discriminate |].
  apply negb_true_iff in Hs.
  change (" " ^^ String c t) with (String " " (String c t)).
  cbn [rep_greedy]. rewrite Hs.
  change (Str.is_space " ") with true. cbn [Nat.leb].
  now destruct (run r (Some " "%char) (S (pos + Str.len o)) (String c t) caps k).
Qed.

Lemma apply_rules_skip (rule : regex * (list string -> string))
  (rest : list (regex * (list string -> string))) (a b : string) :
  rmatch (fst rule) b = None ->
  apply_rules (rule :: rest) a b = apply_rules rest a b.
Proof. destruct rule as [P f]. simpl. now intros ->. Qed.

Lemma apply_rules_hit (P : regex) (f : list string -> string)
  (rest : list (regex * (list string -> string))) (a b : string)
  (m m' : list string) :
  rmatch P b = Some m -> Str.truthy (f m) = true ->
  rmatch P a = Some m' -> Str.truthy (f m') = true ->
  apply_rules ((P, f) :: rest) a b = Some (Str.upper_first (f m')).
Proof. simpl. now intros -> -> -> ->. Qed.

Lemma rstrip_cat_tidy (a x : string) :
  x <> EmptyString -> Str.rstrip x = x -> Str.rstrip (a ^^ x) = a ^^ x.
Proof.
  intros Hne Hx. induction a as [|c a IH]; simpl; [exact Hx |].
  rewrite IH. destruct (a ^^ x) eqn:E; [| reflexivity].
  destruct a; simpl in E; [congruence | discriminate].
Qed.

Lemma replace_by_rule (s result : string) (g : rng) :
  Str.lstrip s = s -> Str.rstrip s = s -> drop_glyphs s = s ->
  Str.truthy s = true ->
  apply_smart_transform s = Some result -> Str.truthy result = true ->
  replace_weak_verb s g = (result, g).
Proof.
  intros Hl Hr Hg Ht Hs Hres. unfold replace_weak_verb.
  assert (Hstrip : Str.strip s = s) by (unfold Str.strip; now rewrite Hl, Hr).
  rewrite Hstrip, Ht. cbn [negb]. rewrite Hg, Hstrip, Ht. cbn [negb].
  rewrite Hs. destruct result; [discriminate | reflexivity].
Qed.

Lemma is_space_lower_char (c : ascii) :
  Str.is_space (Str.lower_char c) = Str.is_space c.
Proof. destruct c as [[] [] [] [] [] [] [] []]; reflexivity. Qed.

Lemma dot_lower_char (c : ascii) : dot (Str.lower_char c) = dot c.
Proof. destruct c as [[] [] [] [] [] [] [] []]; reflexivity. Qed.

Lemma all_chars_dot_lower (x : string) :
  all_chars dot (Str.lower x) = all_chars dot x.
Proof.
  induction x as [|c x IH]; simpl; [reflexivity |].
  now rewrite dot_lower_char, IH.
Qed.


Lemma match1 (w o x : string) :
  same_text true w o = true ->
  match x with String c _ => negb (Str.is_space c) | EmptyString => false end = true ->
  all_chars dot x = true ->
  rmatch (seq_of [Bos; word w; sp1; rest1]) (o ^^ " " ^^ x) = Some [x].
Proof.
  intros Hw Hc Hall.
  change (run (Seq (word w) (Seq sp1 rest1)) None 0 (o ^^ " " ^^ x) [] accept
          = Some [x]).
  rewrite word_step by assumption.
  apply (rest1_takes_all x _ _ []); [destruct x; [discriminate | congruence] | exact Hall].
Qed.

Lemma match2 (w1 w2 o1 o2 x : string) :
  same_text true w1 o1 = true ->
  same_text true w2 o2 = true ->
  match o2 ^^ " " ^^ x with
  | String c _ => negb (Str.is_space c)
  | EmptyString => false
  end = true ->
  match x with String c _ => negb (Str.is_space c) | EmptyString => false end = true ->
  all_chars dot x = true ->
  rmatch (seq_of [Bos; word w1; sp1; word w2; sp1; rest1])
    (o1 ^^ " " ^^ o2 ^^ " " ^^ x) = Some [x].
Proof.
  intros Hw1 Hw2 Hc2 Hc Hall.
  change (run (Seq (word w1) (Seq sp1 (Seq (word w2) (Seq sp1 rest1)))) None 0
            (o1 ^^ " " ^^ o2 ^^ " " ^^ x) [] accept = Some [x]).
  rewrite !word_step by assumption.
  apply (rest1_takes_all x _ _ []); [destruct x; [discriminate | congruence] | exact Hall].
Qed.

Lemma match3 (w1 w2 w3 o1 o2 o3 x : string) :
  same_text true w1 o1 = true ->
  same_text true w2 o2 = true ->
  same_text true w3 o3 = true ->
  match o2 ^^ " " ^^ o3 ^^ " " ^^ x with
  | String c _ => negb (Str.is_space c)
  | EmptyString => false
  end = true ->
  match o3 ^^ " " ^^ x with
  | String c _ => negb (Str.is_space c)
  | EmptyString => false
  end = true ->
  match x with String c _ => negb (Str.is_space c) | EmptyString => false end = true ->
  all_chars dot x = true ->
  rmatch (seq_of [Bos; word w1; sp1; word w2; sp1; word w3; sp1; rest1])
    (o1 ^^ " " ^^ o2 ^^ " " ^^ o3 ^^ " " ^^ x) = Some [x].
Proof.
  intros Hw1 Hw2 Hw3 Hc2 Hc3 Hc Hall.
  change (run (Seq (word w1) (Seq sp1 (Seq (word w2) (Seq sp1
                (Seq (word w3) (Seq sp1 rest1)))))) None 0
            (o1 ^^ " " ^^ o2 ^^ " " ^^ o3 ^^ " " ^^ x) [] accept = Some [x]).
  rewrite !word_step by assumption.
  apply (rest1_takes_all x _ _ []); [destruct x; [discriminate | congruence] | exact Hall].
Qed.

Lemma smart_by_rule (s result : string) :
  Str.strip s = s ->
  apply_rules SMART_TRANSFORMS s (Str.lower s) = Some result ->
  apply_smart_transform s = Some result.
Proof. unfold apply_smart_transform. now intros ->. Qed.

Ltac skip_rules :=
  repeat (rewrite apply_rules_skip by (vm_compute; reflexivity)).

(** A bullet that opens with one of the weak phrases of the table, in
    small letters or with a capital, and goes on with a tidy text, comes
    back with the strong phrase in its place and the text as it was; no
    verb is drawn. *)
Theorem weak_opening_is_replaced (opening replacement x : string) (g : rng) :
  In (opening, replacement) opening_rules ->
  tidy x = true ->
  replace_weak_verb (opening ^^ " " ^^ x) g = (replacement ^^ " " ^^ x, g)
  /\ replace_weak_verb (Str.upper_first opening ^^ " " ^^ x) g
     = (replacement ^^ " " ^^ x, g).
Proof.
  intros Hin Htidy. unfold tidy in Htidy.
  apply andb_true_iff in Htidy as [Htidy Hr].
  apply andb_true_iff in Htidy as [Hc Hall].
  apply String.eqb_eq in Hr.
  assert (Hne : x <> EmptyString) by (destruct x; [discriminate | congruence]).
  assert (Hlc : match Str.lower x with
                | String c _ => negb (Str.is_space c)
                | EmptyString => false
                end = true).
  { destruct x as [|c x']; [discriminate |]. simpl. now rewrite is_space_lower_char. }
  assert (Hlall : all_chars dot (Str.lower x) = true)
    by now rewrite all_chars_dot_lower.
  assert (Hrule : forall o result,
            Str.lstrip (o ^^ " " ^^ x) = o ^^ " " ^^ x ->
            drop_glyphs (o ^^ " " ^^ x) = o ^^ " " ^^ x ->
            Str.truthy (o ^^ " " ^^ x) = true ->
            Str.truthy result = true ->
            apply_rules SMART_TRANSFORMS (o ^^ " " ^^ x)
              (Str.lower o ^^ " " ^^ Str.lower x) = Some result ->
            replace_weak_verb (o ^^ " " ^^ x) g = (result, g)).
  { intros o result Hl Hg Ht Hres Hrules.
    assert (Hrs : Str.rstrip (o ^^ " " ^^ x) = o ^^ " " ^^ x).
    { rewrite <- cat_assoc. apply rstrip_cat_tidy; assumption. }
    apply replace_by_rule; try assumption.
    apply smart_by_rule; [unfold Str.strip; now rewrite Hl, Hrs |].
    now rewrite !lower_cat. }
  unfold opening_rules in Hin. cbn [In] in Hin.
  repeat (destruct Hin as [[= <- <-] | Hin]); [.. | destruct Hin];
    cbn [Str.upper_first]; split; apply Hrule; try reflexivity;
    unfold SMART_TRANSFORMS; skip_rules.
  - rewrite (apply_rules_hit _ _ _ _ _ [Str.lower x] [x]);
      [reflexivity
      | exact (match3 "was" "involved" "in" "was" "involved" "in" (Str.lower x) eq_refl eq_refl eq_refl eq_refl eq_refl Hlc Hlall)
      | reflexivity
      | exact (match3 "was" "involved" "in" "was" "involved" "in" x eq_refl eq_refl eq_refl eq_refl eq_refl Hc Hall)
      | reflexivity].
  - rewrite (apply_rules_hit _ _ _ _ _ [Str.lower x] [x]);
      [reflexivity
      | exact (match3 "was" "involved" "in" "was" "involved" "in" (Str.lower x) eq_refl eq_refl eq_refl eq_refl eq_refl Hlc Hlall)
      | reflexivity
      | exact (match3 "was" "involved" "in" "Was" "involved" "in" x eq_refl eq_refl eq_refl eq_refl eq_refl Hc Hall)
      | reflexivity].
  - rewrite (apply_rules_hit _ _ _ _ _ [Str.lower x] [x]);
      [reflexivity
      | exact (match3 "was" "part" "of" "was" "part" "of" (Str.lower x) eq_refl eq_refl eq_refl eq_refl eq_refl Hlc Hlall)
      | reflexivity
      | exact (match3 "was" "part" "of" "was" "part" "of" x eq_refl eq_refl eq_refl eq_refl eq_refl Hc Hall)
      | reflexivity].
  - rewrite (apply_rules_hit _ _ _ _ _ [Str.lower x] [x]);
      [reflexivity
      | exact (match3 "was" "part" "of" "was" "part" "of" (Str.lower x) eq_refl eq_refl eq_refl eq_refl eq_refl Hlc Hlall)
      | reflexivity
      | exact (match3 "was" "part" "of" "Was" "part" "of" x eq_refl eq_refl eq_refl eq_refl eq_refl Hc Hall)
      | reflexivity].
  - rewrite (apply_rules_hit _ _ _ _ _ [Str.lower x] [x]);
      [reflexivity
      | exact (match2 "helped" "with" "helped" "with" (Str.lower x) eq_refl eq_refl eq_refl Hlc Hlall)
      | reflexivity
      | exact (match2 "helped" "with" "helped" "with" x eq_refl eq_refl eq_refl Hc Hall)
      | reflexivity].
  - rewrite (apply_rules_hit _ _ _ _ _ [Str.lower x] [x]);
      [reflexivity
      | exact (match2 "helped" "with" "helped" "with" (Str.lower x) eq_refl eq_refl eq_refl Hlc Hlall)
      | reflexivity
      | exact (match2 "helped" "with" "Helped" "with" x eq_refl eq_refl eq_refl Hc Hall)
      | reflexivity].
  - rewrite (apply_rules_hit _ _ _ _ _ [Str.lower x] [x]);
      [reflexivity
      | exact (match2 "helped" "to" "helped" "to" (Str.lower x) eq_refl eq_refl eq_refl Hlc Hlall)
      | reflexivity
      | exact (match2 "helped" "to" "helped" "to" x eq_refl eq_refl eq_refl Hc Hall)
      | reflexivity].
  - rewrite (apply_rules_hit _ _ _ _ _ [Str.lower x] [x]);
      [reflexivity
      | exact (match2 "helped" "to" "helped" "to" (Str.lower x) eq_refl eq_refl eq_refl Hlc Hlall)
      | reflexivity
      | exact (match2 "helped" "to" "Helped" "to" x eq_refl eq_refl eq_refl Hc Hall)
      | reflexivity].
  - rewrite (apply_rules_hit _ _ _ _ _ [Str.lower x] [x]);
      [reflexivity
      | exact (match2 "assisted" "in" "assisted" "in" (Str.lower x) eq_refl eq_refl eq_refl Hlc Hlall)
      | reflexivity
      | exact (match2 "assisted" "in" "assisted" "in" x eq_refl eq_refl eq_refl Hc Hall)
      | reflexivity].
  - rewrite (apply_rules_hit _ _ _ _ _ [Str.lower x] [x]);
      [reflexivity
      | exact (match2 "assisted" "in" "assisted" "in" (Str.lower x) eq_refl eq_refl eq_refl Hlc Hlall)
      | reflexivity
      | exact (match2 "assisted" "in" "Assisted" "in" x eq_refl eq_refl eq_refl Hc Hall)
      | reflexivity].
  - rewrite (apply_rules_hit _ _ _ _ _ [Str.lower x] [x]);
      [reflexivity
      | exact (match1 "did" "did" (Str.lower x) eq_refl Hlc Hlall)
      | reflexivity
      | exact (match1 "did" "did" x eq_refl Hc Hall)
      | reflexivity].
  - rewrite (apply_rules_hit _ _ _ _ _ [Str.lower x] [x]);
      [reflexivity
      | exact (match1 "did" "did" (Str.lower x) eq_refl Hlc Hlall)
      | reflexivity
      | exact (match1 "did" "Did" x eq_refl Hc Hall)
      | reflexivity].
  - rewrite (apply_rules_hit _ _ _ _ _ [Str.lower x] [x]);
      [reflexivity
      | exact (match2 "participated" "in" "participated" "in" (Str.lower x) eq_refl eq_refl eq_refl Hlc Hlall)
      | reflexivity
      | exact (match2 "participated" "in" "participated" "in" x eq_refl eq_refl eq_refl Hc Hall)
      | reflexivity].
  - rewrite (apply_rules_hit _ _ _ _ _ [Str.lower x] [x]);
      [reflexivity
      | exact (match2 "participated" "in" "participated" "in" (Str.lower x) eq_refl eq_refl eq_refl Hlc Hlall)
      | reflexivity
      | exact (match2 "participated" "in" "Participated" "in" x eq_refl eq_refl eq_refl Hc Hall)
      | reflexivity].
  - rewrite (apply_rules_hit _ _ _ _ _ [Str.lower x] [x]);
      [reflexivity
      | exact (match2 "tried" "to" "tried" "to" (Str.lower x) eq_refl eq_refl eq_refl Hlc Hlall)
      | reflexivity
      | exact (match2 "tried" "to" "tried" "to" x eq_refl eq_refl eq_refl Hc Hall)
      | reflexivity].
  - rewrite (apply_rules_hit _ _ _ _ _ [Str.lower x] [x]);
      [reflexivity
      | exact (match2 "tried" "to" "tried" "to" (Str.lower x) eq_refl eq_refl eq_refl Hlc Hlall)
      | reflexivity
      | exact (match2 "tried" "to" "Tried" "to" x eq_refl eq_refl eq_refl Hc Hall)
      | reflexivity].
Qed.

End RewriterRules.

(** ** The summary *)

Section SummaryProperties.

Import Summary Derived.

Lemma take_nil_inv {A : Type} (n : nat) (l : list A) :
  take (S n) l = [] -> l = [].
Proof. destruct l; [reflexivity | discriminate]. Qed.

(** The skills that the summary names are technical skills of the
    profile, five at most.  When the résumé has one of the technical
    skills of the profile, in its text or in its skills, it has every
    skill that is named.  When it has none, the first three of the
    profile are named all the same, none of which it has. *)
Theorem summary_skills_are_matches_or_the_first_three (R : resume) (J : jd_profile) :
  (length (matching_tech_skills R J) <= 5)%nat
  /\ Forall (fun s => In s (technical_skills J)) (matching_tech_skills R J)
  /\ ((Exists (fun s => in_resume R s = true) (technical_skills J)
       /\ Forall (fun s => in_resume R s = true) (matching_tech_skills R J))
      \/ (Forall (fun s => in_resume R s = false) (technical_skills J)
          /\ matching_tech_skills R J = take 3 (technical_skills J)
          /\ Forall (fun s => in_resume R s = false) (matching_tech_skills R J))).
Proof.
  unfold matching_tech_skills. cbv zeta.
  destruct (take 5 (List.filter (in_resume R) (technical_skills J)))
    as [|x rest] eqn:Hm.
  - apply take_nil_inv in Hm.
    assert (Hnone : Forall (fun s => in_resume R s = false) (technical_skills J)).
    { apply List.Forall_forall. intros s Hs.
      destruct (in_resume R s) eqn:E; [| reflexivity].
      assert (Hin : In s (List.filter (in_resume R) (technical_skills J)))
        by (apply List.filter_In; now split).
      rewrite Hm in Hin. destruct Hin. }
    assert (Hnamed : match technical_skills J with
                     | [] => []
                     | _ :: _ => take 3 (technical_skills J)
                     end = take 3 (technical_skills J))
      by now destruct (technical_skills J).
    rewrite Hnamed. split; [rewrite length_take; lia |].
    assert (Hsub : forall s, In s (take 3 (technical_skills J)) ->
                             In s (technical_skills J)) by (intros s; apply In_take).
    split; [apply List.Forall_forall; exact Hsub |].
    right. split; [exact Hnone | split; [reflexivity |]].
    apply List.Forall_forall. intros s Hs.
    exact (proj1 (List.Forall_forall _ _) Hnone s (Hsub s Hs)).
  - rewrite <- Hm.
    assert (Hall : forall s,
              In s (take 5 (List.filter (in_resume R) (technical_skills J))) ->
              In s (technical_skills J) /\ in_resume R s = true).
    { intros s Hs. apply In_take in Hs. now apply List.filter_In in Hs. }
    split; [rewrite length_take; lia |].
    split; [apply List.Forall_forall; intros s Hs; exact (proj1 (Hall s Hs)) |].
    left. split.
    + apply List.Exists_exists. exists x.
      apply Hall. rewrite Hm. now left.
    + apply List.Forall_forall. intros s Hs. exact (proj2 (Hall s Hs)).
Qed.

Lemma lstrip_cat (a b : string) :
  Str.lstrip a <> EmptyString -> Str.lstrip (a ^^ b) = Str.lstrip a ^^ b.
Proof.
  induction a as [|c a IH]; simpl; [congruence |].
  destruct (Str.is_space c); [exact IH | reflexivity].
Qed.

Lemma lstrip_cat_nonempty (a b : string) :
  Str.lstrip b <> EmptyString -> Str.lstrip (a ^^ b) <> EmptyString.
Proof.
  intros Hb. induction a as [|c a IH]; simpl; [exact Hb |].
  destruct (Str.is_space c); [exact IH | discriminate].
Qed.

Lemma rstrip_dots_cat (a c : string) :
  rstrip_dots c <> EmptyString -> rstrip_dots (a ^^ c) = a ^^ rstrip_dots c.
Proof.
  intros Hc. induction a as [|x a IH]; simpl; [reflexivity |].
  rewrite IH. destruct (a ^^ rstrip_dots c) eqn:E; [| reflexivity].
  destruct a; simpl in E; [congruence | discriminate].
Qed.

Lemma cat_nonempty_r (a b : string) : b <> EmptyString -> a ^^ b <> EmptyString.
Proof. destruct a; simpl; [auto | discriminate]. Qed.

(** What the end of [rewrite_summary] leaves of a filled template: the
    text before its last sentences stays, less the whitespace that leads
    it. *)
Lemma filled_shape (a m c best : string) :
  Str.lstrip a <> EmptyString ->
  c <> EmptyString -> Str.rstrip c = c -> rstrip_dots c <> EmptyString ->
  exists c',
    Str.strip (with_achievement (a ^^ m ^^ c) best) = Str.lstrip a ^^ m ^^ c'.
Proof.
  intros Ha Hc Hrc Hdc.
  assert (Hstrip : forall c', c' <> EmptyString -> Str.rstrip c' = c' ->
            Str.strip (a ^^ m ^^ c') = Str.lstrip a ^^ m ^^ c').
  { intros c' Hne Hr. unfold Str.strip. rewrite lstrip_cat by exact Ha.
    rewrite <- cat_assoc. rewrite rstrip_cat_tidy by assumption.
    now rewrite cat_assoc. }
  unfold with_achievement. destruct (Str.truthy best).
  - cbv zeta.
    destruct (Re.search Re.digits1 (rstrip_dots (Str.strip best))).
    + rewrite <- (cat_assoc a m c), rstrip_dots_cat by exact Hdc.
      rewrite !cat_assoc. eexists. apply Hstrip.
      * apply cat_nonempty_r. discriminate.
      * rewrite <- !cat_assoc. apply rstrip_cat_tidy; [discriminate | reflexivity].
    + exists c. now apply Hstrip.
  - exists c. now apply Hstrip.
Qed.

Lemma choose_in {A : Type} (d : A) (xs : list A) (g : rng) :
  xs <> [] -> In (fst (choose d xs g)) xs.
Proof.
  intros Hne. unfold choose. destruct g as [|r g']; cbn [fst].
  - destruct xs; [congruence | now left].
  - apply nth_In. apply Nat.mod_upper_bound. destruct xs; [congruence | discriminate].
Qed.

Lemma regroup (a1 a2 e b k c : string) :
  a1 ^^ a2 ^^ e ^^ b ^^ k ^^ c = (a1 ^^ a2) ^^ (e ^^ b ^^ k) ^^ c.
Proof. now rewrite !cat_assoc. Qed.

Lemma regroup3 (a1 a2 a3 e b k c : string) :
  a1 ^^ a2 ^^ a3 ^^ e ^^ b ^^ k ^^ c = (a1 ^^ a2 ^^ a3) ^^ (e ^^ b ^^ k) ^^ c.
Proof. now rewrite !cat_assoc. Qed.

(** The summary has the phrase on the experience and, after it, the
    list of the skills. *)
Lemma summary_shape (R : resume) (J : jd_profile) (g : rng) :
  exists a b c,
    fst (rewrite_summary R J g)
    = a ^^ exp_phrase (experience_level J) (years_experience R) ^^ b
      ^^ skills_str (domain J)
           (map (display_of (skills R)) (matching_tech_skills R J))
      ^^ c.
Proof.
  unfold rewrite_summary. cbv zeta.
  set (exp := exp_phrase (experience_level J) (years_experience R)).
  set (sk := skills_str (domain J)
               (map (display_of (skills R)) (matching_tech_skills R J))).
  set (soft := match soft_skills J with
               | first :: _ => JdAnalyzer.capitalize first
               | [] => "Results-driven"
               end).
  set (best := best_achievement_of (experience R)).
  assert (Hin : In (fst (choose (fun _ _ _ _ => EmptyString) (templates_of (domain J)) g))
                   (software_templates ++ data_templates ++ devops_templates)).
  { unfold templates_of.
    destruct (String.eqb (domain J) "Software Engineering");
      [apply in_app_iff; left; apply choose_in; discriminate |].
    destruct (String.eqb (domain J) "Data Science/ML");
      [apply in_app_iff; right; apply in_app_iff; left; apply choose_in; discriminate |].
    destruct (String.eqb (domain J) "DevOps/Cloud");
      [apply in_app_iff; right; apply in_app_iff; right; apply choose_in; discriminate |].
    apply in_app_iff; left; apply choose_in; discriminate. }
  destruct (choose (fun _ _ _ _ => EmptyString) (templates_of (domain J)) g)
    as [template g'].
  cbn [fst] in *.
  cbn [software_templates data_templates devops_templates app In] in Hin.
  destruct Hin as [<- | [<- | [<- | [<- | []]]]]; cbv beta.
  - rewrite (regroup soft " software engineer " exp " specializing in " sk).
    edestruct (filled_shape (soft ^^ " software engineer ")
                 (exp ^^ " specializing in " ^^ sk)) as [c' ->];
      [apply lstrip_cat_nonempty; discriminate
      | discriminate | reflexivity | discriminate |].
    exists (Str.lstrip (soft ^^ " software engineer ")), " specializing in ", c'.
    now rewrite !cat_assoc.
  - rewrite (regroup3 "Accomplished " (domain J) " professional " exp " in " sk).
    edestruct (filled_shape ("Accomplished " ^^ domain J ^^ " professional ")
                 (exp ^^ " in " ^^ sk)) as [c' ->];
      [discriminate | discriminate | reflexivity | discriminate |].
    exists (Str.lstrip ("Accomplished " ^^ domain J ^^ " professional ")), " in ", c'.
    now rewrite !cat_assoc.
  - rewrite (regroup soft " data professional " exp " specializing in " sk).
    edestruct (filled_shape (soft ^^ " data professional ")
                 (exp ^^ " specializing in " ^^ sk)) as [c' ->];
      [apply lstrip_cat_nonempty; discriminate
      | discriminate | reflexivity | discriminate |].
    exists (Str.lstrip (soft ^^ " data professional ")), " specializing in ", c'.
    now rewrite !cat_assoc.
  - rewrite (regroup soft " DevOps/Cloud engineer " exp " with expertise in " sk).
    edestruct (filled_shape (soft ^^ " DevOps/Cloud engineer ")
                 (exp ^^ " with expertise in " ^^ sk)) as [c' ->];
      [apply lstrip_cat_nonempty; discriminate
      | discriminate | reflexivity | discriminate |].
    exists (Str.lstrip (soft ^^ " DevOps/Cloud engineer ")), " with expertise in ", c'.
    now rewrite !cat_assoc.
Qed.

Lemma in_removelast_or_last (x : string) (l : list string) :
  In x l -> In x (removelast l) \/ x = List.last l EmptyString.
Proof.
  induction l as [|y l IH]; [intros [] |].
  intros [-> | Hin]; destruct l as [|z l].
  - now right.
  - left. now left.
  - destruct Hin.
  - destruct (IH Hin) as [H | H]; [left; now right | now right].
Qed.

Lemma skills_str_part (domain x : string) (display : list string) :
  In x display -> part x (skills_str domain display).
Proof.
  intros Hin. unfold skills_str.
  destruct display as [|y [|z display]]; [destruct Hin | |].
  - destruct Hin as [-> | []]. apply part_refl.
  - destruct (in_removelast_or_last x _ Hin) as [H | ->].
    + apply part_cat_l, part_join, H.
    + apply part_cat_r, part_cat_r, part_refl.
Qed.

(** Every skill that the summary is to name is in its text, in the
    spelling of the résumé when the résumé has the skill, and in the
    capitalisation of the writer when it has not. *)
Theorem summary_names_its_skills (R : resume) (J : jd_profile) (g : rng) :
  Forall (fun ts =>
            Str.contains (display_of (skills R) ts) (fst (rewrite_summary R J g))
            = true)
    (matching_tech_skills R J).
Proof.
  apply List.Forall_forall. intros ts Hts.
  destruct (summary_shape R J g) as [a [b [c ->]]].
  apply part_contains.
  apply part_cat_r, part_cat_r, part_cat_r, part_cat_l.
  apply skills_str_part. now apply in_map.
Qed.

(** The summary states a number of years that is the number of the
    résumé or the least number of the level that the profile asks for,
    whichever is greater. *)
Theorem summary_states_the_years (R : resume) (J : jd_profile) (g : rng) :
  Str.contains
    ("with "
     ^^ decimal (Nat.max (years_experience R) (level_floor (experience_level J)))
     ^^ "+ year")
    (fst (rewrite_summary R J g)) = true.
Proof.
  destruct (summary_shape R J g) as [a [b [c ->]]].
  apply part_contains, part_cat_r, part_cat_l.
  unfold exp_phrase, exp_phrase_map, level_floor. cbn [get].
  set (y := years_experience R).
  assert (Hpre : forall n rest,
            part ("with " ^^ decimal n ^^ "+ year")
                 ("with " ^^ decimal n ^^ "+ year" ^^ rest)).
  { intros n rest. exists EmptyString, rest. cbn [Str.cat].
    now rewrite !cat_assoc. }
  assert (Hpre' : forall n rest,
            part ("with " ^^ decimal n ^^ "+ year")
                 ("with " ^^ decimal n ^^ "+ year" ^^ "s" ^^ rest))
    by (intros n rest; apply (Hpre n ("s" ^^ rest))).
  destruct (String.eqb (experience_level J) "junior"); [apply Hpre |].
  destruct (String.eqb (experience_level J) "mid-level"); [apply Hpre' |].
  destruct (String.eqb (experience_level J) "senior"); [apply Hpre' |].
  destruct (String.eqb (experience_level J) "staff/principal"); [apply Hpre' |].
  destruct (String.eqb (experience_level J) "executive/director"); [apply Hpre' |].
  apply Hpre'.
Qed.

End SummaryProperties.

(** ** The further properties on sample inputs *)

Section FurtherWitnesses.

Import Samples Derived.

Lemma more_text_never_scores_less_witness :
  total (Ats.calculate_ats_score resume_1 profile_1)
  <= total (Ats.calculate_ats_score resume_1_more profile_1).
Proof.
  apply (more_text_never_scores_less resume_1 resume_1_more profile_1
           "Curriculum: " " Java and payments");
    [reflexivity | reflexivity | reflexivity | simpl; lia | simpl; lia | simpl; lia].
Defined.

Lemma optimization_never_lowers_the_score_witness :
  Optimizer.ats_before
    (fst (Optimizer.optimize_resume plain_summary resume_1 profile_1 []))
  <= Optimizer.ats_after
       (fst (Optimizer.optimize_resume plain_summary resume_1 profile_1 [])).
Proof.
  apply (optimization_never_lowers_the_score plain_summary resume_1 profile_1 []);
    simpl; lia.
Defined.

Lemma technical_skills_matched_or_missing_witness :
  bd_technical_skills (breakdown (Ats.calculate_ats_score resume_1 profile_1))
  = Some technical_entry_1
  /\ (length (ce_matched technical_entry_1) + length ["java"; "kubernetes"])%nat
     = length (technical_skills profile_1)
  /\ (forall s, In s (map Str.lower (technical_skills profile_1)) ->
        (In s (ce_matched technical_entry_1) /\ ~ In s ["java"; "kubernetes"])
        \/ (In s ["java"; "kubernetes"] /\ ~ In s (ce_matched technical_entry_1)))
  /\ (ce_score technical_entry_1 = 40 <-> ["java"; "kubernetes"] = []).
Proof.
  assert (Hlen : (length (technical_skills profile_1) <= 100)%nat) by (simpl; lia).
  assert (He : bd_technical_skills
                 (breakdown (Ats.calculate_ats_score resume_1 profile_1))
               = Some technical_entry_1) by (vm_compute; reflexivity).
  split; [exact He |].
  exact (technical_skills_matched_or_missing resume_1 profile_1 technical_entry_1
           ["java"; "kubernetes"] Hlen He eq_refl).
Defined.

Lemma extracted_skills_are_in_the_text_witness :
  In ("programming_languages", ["python"; "c"])
     (JdAnalyzer.extract_skills_from_text skills_sentence)
  /\ ["python"; "c"] <> []
  /\ exists skills,
       In ("programming_languages", skills) SkillsDb.SKILLS_DB
       /\ forall skill, In skill ["python"; "c"] ->
            In skill skills
            /\ Str.contains (Str.lower skill) (Str.lower skills_sentence) = true.
Proof.
  assert (H : In ("programming_languages", ["python"; "c"])
                 (JdAnalyzer.extract_skills_from_text skills_sentence))
    by (vm_compute; now left).
  split; [exact H |].
  exact (extracted_skills_are_in_the_text skills_sentence "programming_languages"
           ["python"; "c"] H).
Defined.

Lemma extracted_soft_skills_are_in_the_text_witness :
  In "teamwork" (JdAnalyzer.extract_soft_skills soft_sentence)
  /\ In "teamwork" (SkillsDb.lookup_list "soft_skills" SkillsDb.SKILLS_DB)
  /\ Str.contains "teamwork" (Str.lower soft_sentence) = true.
Proof.
  assert (H : In "teamwork" (JdAnalyzer.extract_soft_skills soft_sentence))
    by (vm_compute; right; now left).
  split; [exact H |].
  exact (extracted_soft_skills_are_in_the_text soft_sentence "teamwork" H).
Defined.

Lemma action_verbs_are_verbs_of_the_text_witness :
  (length (JdAnalyzer.extract_action_verbs listed_order verbs_sentence) <= 20)%nat
  /\ forall v, In v (JdAnalyzer.extract_action_verbs listed_order verbs_sentence) ->
       exists w,
         v = JdAnalyzer.capitalize w
         /\ (In w JdAnalyzer.jd_verbs
             \/ exists category verbs verb,
                  In (category, verbs) SkillsDb.STRONG_VERBS
                  /\ In verb verbs /\ w = Str.lower verb)
         /\ Str.contains w (Str.lower verbs_sentence) = true.
Proof.
  apply (action_verbs_are_verbs_of_the_text listed_order verbs_sentence).
  intros l x H. exact H.
Defined.

Lemma listed_skill_is_reported_matched_witness :
  In "java"
     (Optimizer.o_skills
        (Optimizer.optimized
           (fst (Optimizer.optimize_resume plain_summary resume_1 profile_1 []))))
  /\ In (Str.lower "java") (ce_matched technical_entry_after)
  /\ forall missing,
       ce_missing technical_entry_after = Some missing ->
       ~ In (Str.lower "java") missing.
Proof.
  assert (H1 : In "java" (technical_skills profile_1)) by (simpl; tauto).
  assert (H2 : In "java"
                 (Optimizer.o_skills
                    (Optimizer.optimized
                       (fst (Optimizer.optimize_resume plain_summary resume_1
                               profile_1 [])))))
    by (vm_compute; tauto).
  assert (H3 : bd_technical_skills
                 (Optimizer.ats_breakdown
                    (fst (Optimizer.optimize_resume plain_summary resume_1
                            profile_1 [])))
               = Some technical_entry_after) by (vm_compute; reflexivity).
  split; [exact H2 |].
  exact (listed_skill_is_reported_matched plain_summary resume_1 profile_1 []
           "java" technical_entry_after H1 H2 H3).
Defined.

Lemma weak_opening_is_replaced_witness :
  Rewriter.replace_weak_verb ("did" ^^ " " ^^ "the quarterly audit") []
  = ("Executed" ^^ " " ^^ "the quarterly audit", [])
  /\ Rewriter.replace_weak_verb
       (Str.upper_first "did" ^^ " " ^^ "the quarterly audit") []
     = ("Executed" ^^ " " ^^ "the quarterly audit", []).
Proof.
  apply (weak_opening_is_replaced "did" "Executed" "the quarterly audit" []).
  - unfold opening_rules. simpl. tauto.
  - reflexivity.
Defined.

End FurtherWitnesses.
